(** * Integrated attendance system (Testcode.py): model and properties

    The development follows the structure of [IntegratedAttendanceSystem]:
    the identifier derivation ([generate_unique_id]), the SQLite tables of
    [init_local_db], the two enrollment procedures, the intake loop
    [mark_attendance_rfid] with its verification pass [verify_attendance],
    the Firebase mirror and the menu loop [run].

    Everything the hardware and the network decide (the card that is read,
    the clock, what the camera sees, whether a store accepts a write) is an
    explicit input of the function that consumes it. *)

From Stdlib Require Import List String Ascii Bool Arith NArith ZArith Lia.
From Stdlib Require Import DecimalString.
From Stdlib Require DecimalZ DecimalPos.
Import ListNotations.

Local Open Scope string_scope.

(* ================================================================== *)
(** * SHA-256 (hashlib.sha256), on 32-bit words kept in [N] *)
(* ================================================================== *)

Module SHA256.
Local Open Scope N_scope.

Definition mask32 : N := 0xffffffff.
Definition add32 (a b : N) : N := N.land (a + b) mask32.
Definition not32 (a : N) : N := N.lxor a mask32.
Definition rotr (n x : N) : N :=
  N.lor (N.shiftr x n) (N.land (N.shiftl x (32 - n)) mask32).

Definition Ch (x y z : N) : N := N.lxor (N.land x y) (N.land (not32 x) z).
Definition Maj (x y z : N) : N :=
  N.lxor (N.lxor (N.land x y) (N.land x z)) (N.land y z).
Definition Sigma0 (x : N) : N := N.lxor (N.lxor (rotr 2 x) (rotr 13 x)) (rotr 22 x).
Definition Sigma1 (x : N) : N := N.lxor (N.lxor (rotr 6 x) (rotr 11 x)) (rotr 25 x).
Definition sigma0 (x : N) : N := N.lxor (N.lxor (rotr 7 x) (rotr 18 x)) (N.shiftr x 3).
Definition sigma1 (x : N) : N := N.lxor (N.lxor (rotr 17 x) (rotr 19 x)) (N.shiftr x 10).

(** The round constants are the first 32 bits of the fractional parts of the
    cube roots of the first 64 primes, the initial hash value those of the
    square roots of the first 8 (FIPS 180-4, sections 4.2.2 and 5.3.3). *)
Definition is_prime (n : N) : bool :=
  (1 <? n) &&
  forallb (fun d => negb (n mod d =? 0))
          (map N.of_nat (seq 2 (N.to_nat n - 2))).

Definition first_primes (count : nat) : list N :=
  firstn count (filter is_prime (map N.of_nat (seq 2 310))).

(** The largest [r] below [2 ^ bit] past [acc] with [r ^ k <= x]. *)
Fixpoint floor_root (k x : N) (bit : nat) (acc : N) : N :=
  match bit with
  | O => acc
  | S bit' =>
      let candidate := acc + 2 ^ N.of_nat bit' in
      if candidate ^ k <=? x then floor_root k x bit' candidate
      else floor_root k x bit' acc
  end.

Definition fractional_root (k p : N) : N :=
  N.land (floor_root k (N.shiftl p (32 * k)) 36 0) mask32.

Definition K : list N :=
  Eval vm_compute in map (fractional_root 3) (first_primes 64).

Definition H0 : list N :=
  Eval vm_compute in map (fractional_root 2) (first_primes 8).

(** Padding: the byte 0x80, zero bytes up to 56 modulo 64, then the bit
    length of the message as a 64-bit big-endian integer. *)
Definition be_bytes (count : nat) (x : N) : list N :=
  map (fun i => N.land (N.shiftr x (8 * N.of_nat (count - 1 - i))) 0xff)
      (seq 0 count).

Definition pad (msg : list N) : list N :=
  let len := List.length msg in
  let zeros := ((119 - len mod 64) mod 64)%nat in
  msg ++ [0x80] ++ repeat 0 zeros ++ be_bytes 8 (8 * N.of_nat len).

Fixpoint words (fuel : nat) (bs : list N) : list N :=
  match fuel, bs with
  | S fuel', b0 :: b1 :: b2 :: b3 :: rest =>
      (N.shiftl b0 24 + N.shiftl b1 16 + N.shiftl b2 8 + b3) :: words fuel' rest
  | _, _ => []
  end.

(** The message schedule, newest word first. *)
Fixpoint schedule (n : nat) (rev_w : list N) : list N :=
  match n with
  | O => rev_w
  | S n' =>
      let w := add32 (add32 (sigma1 (nth 1 rev_w 0)) (nth 6 rev_w 0))
                     (add32 (sigma0 (nth 14 rev_w 0)) (nth 15 rev_w 0)) in
      schedule n' (w :: rev_w)
  end.

Definition regs : Type := (N * N * N * N * N * N * N * N)%type.

Definition round (r : regs) (kw : N * N) : regs :=
  let '(a, b, c, d, e, f, g, h) := r in
  let '(k, w) := kw in
  let t1 := add32 (add32 (add32 h (Sigma1 e)) (add32 (Ch e f g) k)) w in
  let t2 := add32 (Sigma0 a) (Maj a b c) in
  (add32 t1 t2, a, b, c, add32 d t1, e, f, g).

Definition compress (h : regs) (block : list N) : regs :=
  let w := rev (schedule 48 (rev block)) in
  let '(a, b, c, d, e, f, g, i) := fold_left round (combine K w) h in
  let '(a0, b0, c0, d0, e0, f0, g0, i0) := h in
  (add32 a0 a, add32 b0 b, add32 c0 c, add32 d0 d,
   add32 e0 e, add32 f0 f, add32 g0 g, add32 i0 i).

Fixpoint blocks (fuel : nat) (h : regs) (ws : list N) : regs :=
  match fuel, ws with
  | S fuel', _ :: _ => blocks fuel' (compress h (firstn 16 ws)) (skipn 16 ws)
  | _, _ => h
  end.

Definition initial : regs :=
  match H0 with
  | [a; b; c; d; e; f; g; h] => (a, b, c, d, e, f, g, h)
  | _ => (0, 0, 0, 0, 0, 0, 0, 0)
  end.

Definition digest_words (msg : list N) : list N :=
  let p := pad msg in
  let ws := words (List.length p) p in
  let '(a, b, c, d, e, f, g, h) := blocks (List.length ws) initial ws in
  [a; b; c; d; e; f; g; h].

Definition hex_digit (n : N) : ascii :=
  if n <? 10 then ascii_of_N (48 + n) else ascii_of_N (87 + n).

Definition hex_word (w : N) : string :=
  fold_right (fun i acc => String (hex_digit (N.land (N.shiftr w (4 * i)) 0xf)) acc)
             EmptyString [7; 6; 5; 4; 3; 2; 1; 0].

(** [hashlib.sha256(data).hexdigest()] *)
Definition hexdigest (data : list N) : string :=
  fold_right (fun w acc => hex_word w ++ acc)%string EmptyString (digest_words data).

End SHA256.

(** [name.encode()]: a Python [str] is kept as the byte sequence of its
    UTF-8 encoding (one [ascii] per byte), so encoding reads the bytes off. *)
Fixpoint encode (s : string) : list N :=
  match s with
  | EmptyString => []
  | String c s' => N_of_ascii c :: encode s'
  end.

(** [s[:n]] *)
Fixpoint prefix_chars (n : nat) (s : string) : string :=
  match n, s with
  | S n', String c s' => String c (prefix_chars n' s')
  | _, _ => EmptyString
  end.

Definition unique_id := string.

(** [generate_unique_id] (line 141):
    [hashlib.sha256(name.encode()).hexdigest()[:16]] *)
Definition generate_unique_id (name : string) : unique_id :=
  prefix_chars 16 (SHA256.hexdigest (encode name)).

(* ================================================================== *)
(** * Clock readings and their [strftime] renderings *)
(* ================================================================== *)

(** A value of [datetime.datetime.now()]. *)
Record datetime : Type := {
  year : N; month : N; day : N;
  hour : N; minute : N; second : N; microsecond : N
}.

(** Python's [datetime] keeps 1 <= year <= 9999 and the usual field ranges. *)
Definition valid_datetime (t : datetime) : bool :=
  ((1 <=? year t) && (year t <=? 9999) &&
   (1 <=? month t) && (month t <=? 12) &&
   (1 <=? day t) && (day t <=? 31) &&
   (hour t <? 24) && (minute t <? 60) && (second t <? 60) &&
   (microsecond t <? 1000000))%N.

Definition digit (n : N) : ascii := ascii_of_N (48 + n).

(** [%m], [%d], [%H], [%M], [%S]: two digits, zero padded. *)
Definition pad2 (n : N) : string :=
  String (digit (n / 10)) (String (digit (n mod 10)) EmptyString).

(** [%Y]: four digits. *)
Definition pad4 (n : N) : string := pad2 (n / 100) ++ pad2 (n mod 100).

Definition pad6 (n : N) : string := pad2 (n / 10000) ++ pad4 (n mod 10000).

(** [strftime('%Y%m%d_%H%M%S')] (line 348) *)
Definition strftime_session (t : datetime) : string :=
  pad4 (year t) ++ pad2 (month t) ++ pad2 (day t) ++ "_" ++
  pad2 (hour t) ++ pad2 (minute t) ++ pad2 (second t).

(** [strftime('%H:%M:%S')] *)
Definition strftime_time (t : datetime) : string :=
  pad2 (hour t) ++ ":" ++ pad2 (minute t) ++ ":" ++ pad2 (second t).

(** [strftime('%Y-%m-%d')] *)
Definition strftime_date (t : datetime) : string :=
  pad4 (year t) ++ "-" ++ pad2 (month t) ++ "-" ++ pad2 (day t).

(** [isoformat()]: the fraction is printed only when it is not zero. *)
Definition isoformat (t : datetime) : string :=
  strftime_date t ++ "T" ++ strftime_time t ++
  (if (microsecond t =? 0)%N then "" else "." ++ pad6 (microsecond t)).

(** The reading of a clock with one-second resolution. *)
Definition to_the_second (t : datetime) : N * N * N * N * N * N :=
  (year t, month t, day t, hour t, minute t, second t).

(** [str(rfid_id)]: the decimal rendering of the integer the reader returns. *)
Definition str (z : Z) : string := NilZero.string_of_int (Z.to_int z).

(* ================================================================== *)
(** * The staging dictionaries *)
(* ================================================================== *)

(** The value stored per student: [{'name': ..., 'rfid_time': ...}]. *)
Record entry : Type := { e_name : string; e_rfid_time : string }.

(** A Python [dict] keyed by unique id: keys are unique and keep their
    insertion order, which is the order [items()] iterates in. *)
Definition dict : Type := list (unique_id * entry).

Definition keys (d : dict) : list unique_id := map fst d.

(** [k in d] *)
Definition dict_in (k : unique_id) (d : dict) : bool :=
  existsb (fun kv => fst kv =? k) d.

(** [d[k] = v]: an existing key keeps its position, a new one goes last. *)
Fixpoint dict_set (d : dict) (k : unique_id) (v : entry) : dict :=
  match d with
  | [] => [(k, v)]
  | (k', v') :: d' =>
      if k' =? k then (k, v) :: d' else (k', v') :: dict_set d' k v
  end.

(** [d.update(other)] *)
Definition dict_update (d other : dict) : dict :=
  fold_left (fun acc kv => dict_set acc (fst kv) (snd kv)) other d.

(* ================================================================== *)
(** * The local tables (init_local_db) and the Firebase mirror *)
(* ================================================================== *)

(** A face descriptor: the 128 float64 components dlib computes, kept as
    their raw bit patterns. *)
Definition descriptor : Type := list Z.

(** Table [students]: unique_id PRIMARY KEY, rfid_id UNIQUE. *)
Record student_row : Type := {
  s_unique_id : unique_id;
  s_name : string;
  s_rfid_id : string;
  s_face_descriptors : list descriptor
}.

(** Table [lecturers]: unique_id PRIMARY KEY, rfid_id UNIQUE. *)
Record lecturer_row : Type := {
  l_unique_id : unique_id;
  l_name : string;
  l_rfid_id : string;
  l_course_name : string;
  l_course_code : string
}.

(** Table [attendance_log]: no key, no uniqueness constraint. *)
Record attendance_row : Type := {
  a_unique_id : unique_id;
  a_name : string;
  a_date : string;
  a_session_id : string;
  a_rfid_time : string;
  a_face_time : option string;
  a_status : string
}.

(** The [set] calls Firestore accepted, in the order they were made: the
    history of the writes, not the content of the store.  A [set] on a path
    that has a document replaces it ([stored_document] below). *)
Inductive firebase_doc : Type :=
| LectureDoc (session_id course_name course_code lecturer_name
              lecturer_rfid start_time status : string)
| AttendanceDoc (session_id doc_id : string)
                (uid : unique_id) (rfid_id name date time status : string).

(** The path of the document a write goes to (lines 350 and 536-538). *)
Definition doc_path (d : firebase_doc) : string :=
  match d with
  | LectureDoc session_id _ _ _ _ _ _ => "lectures/" ++ session_id
  | AttendanceDoc session_id doc_id _ _ _ _ _ _ =>
      "lectures/" ++ session_id ++ "/attendance/" ++ doc_id
  end.

(** The document Firestore holds at a path after the writes: the last one
    that went to the path. *)
Definition stored_document (writes : list firebase_doc) (path : string)
  : option firebase_doc :=
  find (fun d => doc_path d =? path) (rev writes).

(** The object's fields the intake uses, with the two stores. *)
Record system : Type := {
  current_session : option string;
  temp_attendance : dict;
  persistent_rfid_attendance : dict;
  new_rfid_attendance : dict;
  students : list student_row;
  lecturers : list lecturer_row;
  attendance_log : list attendance_row;
  firebase : list firebase_doc
}.

Definition set_current_session (st : system) (s : option string) : system :=
  {| current_session := s;
     temp_attendance := temp_attendance st;
     persistent_rfid_attendance := persistent_rfid_attendance st;
     new_rfid_attendance := new_rfid_attendance st;
     students := students st; lecturers := lecturers st;
     attendance_log := attendance_log st; firebase := firebase st |}.

Definition set_temp_attendance (st : system) (d : dict) : system :=
  {| current_session := current_session st;
     temp_attendance := d;
     persistent_rfid_attendance := persistent_rfid_attendance st;
     new_rfid_attendance := new_rfid_attendance st;
     students := students st; lecturers := lecturers st;
     attendance_log := attendance_log st; firebase := firebase st |}.

Definition set_persistent (st : system) (d : dict) : system :=
  {| current_session := current_session st;
     temp_attendance := temp_attendance st;
     persistent_rfid_attendance := d;
     new_rfid_attendance := new_rfid_attendance st;
     students := students st; lecturers := lecturers st;
     attendance_log := attendance_log st; firebase := firebase st |}.

Definition set_new (st : system) (d : dict) : system :=
  {| current_session := current_session st;
     temp_attendance := temp_attendance st;
     persistent_rfid_attendance := persistent_rfid_attendance st;
     new_rfid_attendance := d;
     students := students st; lecturers := lecturers st;
     attendance_log := attendance_log st; firebase := firebase st |}.

Definition set_students (st : system) (t : list student_row) : system :=
  {| current_session := current_session st;
     temp_attendance := temp_attendance st;
     persistent_rfid_attendance := persistent_rfid_attendance st;
     new_rfid_attendance := new_rfid_attendance st;
     students := t; lecturers := lecturers st;
     attendance_log := attendance_log st; firebase := firebase st |}.

Definition set_lecturers (st : system) (t : list lecturer_row) : system :=
  {| current_session := current_session st;
     temp_attendance := temp_attendance st;
     persistent_rfid_attendance := persistent_rfid_attendance st;
     new_rfid_attendance := new_rfid_attendance st;
     students := students st; lecturers := t;
     attendance_log := attendance_log st; firebase := firebase st |}.

Definition set_attendance_log (st : system) (t : list attendance_row) : system :=
  {| current_session := current_session st;
     temp_attendance := temp_attendance st;
     persistent_rfid_attendance := persistent_rfid_attendance st;
     new_rfid_attendance := new_rfid_attendance st;
     students := students st; lecturers := lecturers st;
     attendance_log := t; firebase := firebase st |}.

Definition set_firebase (st : system) (t : list firebase_doc) : system :=
  {| current_session := current_session st;
     temp_attendance := temp_attendance st;
     persistent_rfid_attendance := persistent_rfid_attendance st;
     new_rfid_attendance := new_rfid_attendance st;
     students := students st; lecturers := lecturers st;
     attendance_log := attendance_log st; firebase := t |}.

(** The object [__init__] builds (lines 60-64) over the stores as found. *)
Definition init (ss : list student_row) (ls : list lecturer_row)
                (log : list attendance_row) (fb : list firebase_doc) : system :=
  {| current_session := None;
     temp_attendance := [];
     persistent_rfid_attendance := [];
     new_rfid_attendance := [];
     students := ss; lecturers := ls;
     attendance_log := log; firebase := fb |}.

(* ================================================================== *)
(** * Enrollment: register_student and register_lecturer *)
(* ================================================================== *)

(** [is_rfid_registered] (line 145): the card is looked up in both tables. *)
Definition is_rfid_registered (st : system) (rfid_id : Z) : bool :=
  let student_rfid := find (fun r => s_rfid_id r =? str rfid_id) (students st) in
  let lecturer_rfid := find (fun r => l_rfid_id r =? str rfid_id) (lecturers st) in
  match student_rfid, lecturer_rfid with
  | None, None => false
  | _, _ => true
  end.

(** [capture_face_samples] (line 205): three prompts, one capture each; a
    capture that times out gives [None] and is left out.  The argument
    tells what [capture_face_sample] returns at each prompt. *)
Definition capture_face_samples (capture_face_sample : nat -> option descriptor)
  : list descriptor :=
  fold_left (fun face_descriptors prompt =>
               match capture_face_sample prompt with
               | Some face_descriptor => (face_descriptors ++ [face_descriptor])%list
               | None => face_descriptors
               end)
            [0; 1; 2]%nat [].

(** [INSERT INTO students]: sqlite3.IntegrityError ([None]) when the
    primary key or the unique card column is already taken. *)
Definition insert_student (t : list student_row) (r : student_row)
  : option (list student_row) :=
  if existsb (fun x => (s_unique_id x =? s_unique_id r) || (s_rfid_id x =? s_rfid_id r)) t
  then None else Some (t ++ [r])%list.

(** [INSERT INTO lecturers], same constraints. *)
Definition insert_lecturer (t : list lecturer_row) (r : lecturer_row)
  : option (list lecturer_row) :=
  if existsb (fun x => (l_unique_id x =? l_unique_id r) || (l_rfid_id x =? l_rfid_id r)) t
  then None else Some (t ++ [r])%list.

(** What an enrollment prints before it returns. *)
Inductive registration_message : Type :=
| RfidAlreadyRegistered       (* "Error: RFID card already registered." *)
| FaceRegistrationIncomplete  (* "Face registration incomplete. Please try again." *)
| RfidRegisteredToAnother     (* the sqlite3.IntegrityError branch *)
| SuccessfullyRegistered.     (* "Successfully registered ..." *)

(** [register_student] (line 226).  The result is the new state, the value
    returned (the unique id, or [None]) and the message printed. *)
Definition register_student (st : system) (rfid_id : Z) (name : string)
    (capture_face_sample : nat -> option descriptor)
  : system * option unique_id * registration_message :=
  if is_rfid_registered st rfid_id then (st, None, RfidAlreadyRegistered)
  else
    let unique_id := generate_unique_id name in
    let face_descriptors := capture_face_samples capture_face_sample in
    if (match face_descriptors with [] => true | _ :: _ => false end)
       || (List.length face_descriptors <? 2)%nat
    then (st, None, FaceRegistrationIncomplete)
    else
      match insert_student (students st)
              {| s_unique_id := unique_id; s_name := name;
                 s_rfid_id := str rfid_id;
                 s_face_descriptors := face_descriptors |} with
      | Some t => (set_students st t, Some unique_id, SuccessfullyRegistered)
      | None => (st, None, RfidRegisteredToAnother)
      end.

(** [register_lecturer] (line 279). *)
Definition register_lecturer (st : system) (rfid_id : Z)
    (name course_name course_code : string)
  : system * option unique_id * registration_message :=
  if is_rfid_registered st rfid_id then (st, None, RfidAlreadyRegistered)
  else
    let unique_id := generate_unique_id name in
    match insert_lecturer (lecturers st)
            {| l_unique_id := unique_id; l_name := name;
               l_rfid_id := str rfid_id;
               l_course_name := course_name; l_course_code := course_code |} with
    | Some t => (set_lecturers st t, Some unique_id, SuccessfullyRegistered)
    | None => (st, None, RfidRegisteredToAnother)
    end.

(* ================================================================== *)
(** * Verification pass and Firebase mirror *)
(* ================================================================== *)

(** What the outside decides while one staged student is verified. *)
Record verify_env : Type := {
  face_verified : bool;       (* result of verify_face, line 442 *)
  verify_time : datetime;     (* the clock at line 444 *)
  insert_ok : bool;           (* the INSERT and commit of lines 448-457 succeed *)
  firebase_time : datetime;   (* the clock at line 535 *)
  firebase_ok : bool          (* attendance_ref.set of line 539 succeeds *)
}.

(** What a verification pass prints and logs. *)
Inductive verify_line : Type :=
| NoActiveSession                           (* line 420 *)
| NoFaceDescriptors (uid : unique_id)       (* line 436 *)
| VerifyingFace (uid : unique_id)           (* line 441: verify_face is called *)
| FinalAttendance (uid : unique_id) (status : string)  (* line 470 *)
| FaceRecognitionError.                     (* logging.error of line 473 *)

(** [log_attendance_to_firebase] (line 521): every exception is caught and
    logged inside, so the caller always gets control back. *)
Definition log_attendance_to_firebase (st : system) (v : verify_env)
    (uid : unique_id) (name status : string) : system :=
  match find (fun r => s_unique_id r =? uid) (students st) with
  | None => st
  | Some rfid_result =>
      let rfid_id := s_rfid_id rfid_result in
      let current_time := firebase_time v in
      match current_session st with
      | None => st   (* document(None) raises; caught at line 547 *)
      | Some session =>
          if firebase_ok v
          then set_firebase st
                 (firebase st ++
                  [AttendanceDoc session rfid_id uid rfid_id name
                     (strftime_date current_time) (strftime_time current_time)
                     status])%list
          else st
      end
  end.

(** The row written at lines 448-455. *)
Definition attendance_record (session : string) (v : verify_env)
    (uid : unique_id) (data : entry) : attendance_row :=
  {| a_unique_id := uid;
     a_name := e_name data;
     a_date := strftime_date (verify_time v);
     a_session_id := session;
     a_rfid_time := e_rfid_time data;
     a_face_time := if face_verified v
                    then Some (strftime_time (verify_time v)) else None;
     a_status := if face_verified v then "present" else "partial" |}.

(** The [for] loop of lines 426-470.  An INSERT that raises leaves the
    loop for the handler of line 472, which logs and returns. *)
Fixpoint verify_loop (st : system) (session : string)
    (env : unique_id -> verify_env) (items : dict)
  : system * list verify_line :=
  match items with
  | [] => (st, [])
  | (uid, data) :: rest =>
      match find (fun r => s_unique_id r =? uid) (students st) with
      | None =>
          let '(st', out) := verify_loop st session env rest in
          (st', NoFaceDescriptors uid :: out)
      | Some stored_descriptors =>
          let v := env uid in
          let row := attendance_record session v uid data in
          if insert_ok v then
            let st1 := set_attendance_log st (attendance_log st ++ [row])%list in
            let st2 := log_attendance_to_firebase st1 v uid (a_name row) (a_status row) in
            let '(st', out) := verify_loop st2 session env rest in
            (st', VerifyingFace uid :: FinalAttendance uid (a_status row) :: out)
          else (st, [VerifyingFace uid; FaceRecognitionError])
      end
  end.

(** [verify_attendance] (line 416). *)
Definition verify_attendance (st : system) (env : unique_id -> verify_env)
    (attendance_dict : dict) : system * list verify_line :=
  match current_session st with
  | None => (st, [NoActiveSession])
  | Some session =>
      if session =? "" then (st, [NoActiveSession])
      else verify_loop st session env attendance_dict
  end.

(* ================================================================== *)
(** * The intake loop: mark_attendance_rfid *)
(* ================================================================== *)

(** One pass of the [while True] body: the card read and what the outside
    decides while the pass runs. *)
Record event : Type := {
  ev_rfid : Z;                 (* reader.read(), line 331 *)
  ev_clock : datetime;         (* the clock at line 348, or at line 397 *)
  ev_start_time : datetime;    (* the clock at line 356 *)
  ev_session_set_ok : bool;    (* session_ref.set of line 351 succeeds *)
  ev_verify : unique_id -> verify_env
}.

(** How a pass of the loop body ends when it reaches [continue] or the end
    of the body. *)
Inductive outcome : Type :=
| SessionStarted (session_id : string) (out : list verify_line)
      (* lecturer card, lines 339-372 *)
| Unregistered        (* "Unregistered RFID card" *)
| DuplicateConfirmed  (* "RFID already registered for ... No need to tap again." *)
| DuplicateInSession  (* "RFID already registered for ... in current session." *)
| NewCheckIn.         (* "New RFID registration for ..." *)

Inductive pass : Type :=
| Continue (st : system) (o : outcome)
| Raised (st : system).   (* an exception left the body *)

(** The session id of line 348. *)
Definition derive_session_id (course_code : string) (now : datetime) : string :=
  course_code ++ "_" ++ strftime_session now.

(** Lines 350-363 of the lecturer branch, once [session_ref.set] went
    through: the session document is in Firebase, the session is current,
    and the new dictionary is merged into the persistent one. *)
Definition open_session (st : system) (e : event) (lecturer : lecturer_row) : system :=
  let session_id := derive_session_id (l_course_code lecturer) (ev_clock e) in
  let st1 := set_firebase st
               (firebase st ++
                [LectureDoc session_id (l_course_name lecturer)
                   (l_course_code lecturer) (l_name lecturer) (str (ev_rfid e))
                   (isoformat (ev_start_time e)) "active"])%list in
  let st2 := set_current_session st1 (Some session_id) in
  set_persistent st2
    (dict_update (persistent_rfid_attendance st2) (new_rfid_attendance st2)).

Definition loop_body (st : system) (e : event) : pass :=
  let rfid_id := ev_rfid e in
  match find (fun r => l_rfid_id r =? str rfid_id) (lecturers st) with
  | Some lecturer =>
      let session_id := derive_session_id (l_course_code lecturer) (ev_clock e) in
      if ev_session_set_ok e then
        let st3 := open_session st e lecturer in
        let '(st4, out) :=
          verify_attendance st3 (ev_verify e) (persistent_rfid_attendance st3) in
        Continue (set_new st4 []) (SessionStarted session_id out)
      else Raised st
  | None =>
      match find (fun r => s_rfid_id r =? str rfid_id) (students st) with
      | None => Continue st Unregistered
      | Some student =>
          let unique_id := s_unique_id student in
          let name := s_name student in
          if dict_in unique_id (persistent_rfid_attendance st)
          then Continue st DuplicateConfirmed
          else if dict_in unique_id (new_rfid_attendance st)
          then Continue st DuplicateInSession
          else
            let current_time := strftime_time (ev_clock e) in
            Continue
              (set_new st (dict_set (new_rfid_attendance st) unique_id
                             {| e_name := name; e_rfid_time := current_time |}))
              NewCheckIn
      end
  end.

(** How the call of [mark_attendance_rfid] ends. *)
Inductive loop_exit : Type :=
| KeyboardInterrupt   (* raised in the blocking read; not an [Exception] *)
| ErrorLogged.        (* the handler of line 411 logged and the call returned *)

(** [mark_attendance_rfid] (line 324) over the cards read until the
    operator interrupts the blocking read. *)
Fixpoint mark_attendance_rfid (st : system) (taps : list event)
  : system * list outcome * loop_exit :=
  match taps with
  | [] => (st, [], KeyboardInterrupt)
  | e :: rest =>
      match loop_body st e with
      | Continue st' o =>
          let '(st'', os, x) := mark_attendance_rfid st' rest in
          (st'', o :: os, x)
      | Raised st' => (st', [], ErrorLogged)
      end
  end.

(* ================================================================== *)
(** * The menu loop: run *)
(* ================================================================== *)

Inductive choice : Type :=
| Choice1 (rfid_id : Z) (name : string)
          (capture_face_sample : nat -> option descriptor)
| Choice2 (rfid_id : Z) (name course_name course_code : string)
| Choice3 (taps : list event)
| InvalidOption.

(** The handler of lines 574-578. *)
Definition on_keyboard_interrupt (st : system) : system :=
  set_current_session (set_temp_attendance st []) None.

Definition run_choice (st : system) (c : choice) : system :=
  match c with
  | Choice1 rfid_id name cam => fst (fst (register_student st rfid_id name cam))
  | Choice2 rfid_id name cn cc => fst (fst (register_lecturer st rfid_id name cn cc))
  | Choice3 taps =>
      match mark_attendance_rfid st taps with
      | (st', _, KeyboardInterrupt) => on_keyboard_interrupt st'
      | (st', _, ErrorLogged) => st'
      end
  | InvalidOption => st
  end.

(** [run] (line 555) until option 4. *)
Definition run (st : system) (choices : list choice) : system :=
  fold_left run_choice choices st.

(** Ctrl-C while the pass of a lecturer's card is inside
    [verify_attendance] (line 366).  KeyboardInterrupt is not an
    [Exception]: the handlers of lines 472 and 411 let it through, the
    [finally] of line 475 only switches the LEDs off, and it reaches the
    handler of [run]; line 368 is not executed.  [verified] counts the
    students of the merged dictionary whose turn was over, each with its
    INSERT accepted, when the interrupt arrived in the turn of the next
    one.  The result is the state in which the menu is shown again;
    [None] when no verification is running at that point. *)
Definition interrupted_in_verification (st : system) (e : event)
    (verified : nat) : option system :=
  match find (fun r => l_rfid_id r =? str (ev_rfid e)) (lecturers st) with
  | Some lecturer =>
      if ev_session_set_ok e then
        let st3 := open_session st e lecturer in
        let items := persistent_rfid_attendance st3 in
        if (verified <? List.length items)%nat
           && forallb (fun kv => insert_ok (ev_verify e (fst kv)))
                      (firstn verified items)
        then Some (on_keyboard_interrupt
                     (fst (verify_attendance st3 (ev_verify e)
                             (firstn verified items))))
        else None
      else None
  | None => None
  end.

(* ================================================================== *)
(** * The camera loops: capture_face_sample and verify_face *)
(* ================================================================== *)

(** What the outside decides in one turn of a camera loop. *)
Record iteration : Type := {
  in_window : bool;          (* the loop test: time.time() - start_time < timeout *)
  frame_ok : bool;           (* [ret] of cap.read() *)
  faces : list descriptor;   (* the descriptor of each face the detector finds, in its order *)
  key_q : bool               (* cv2.waitKey(1) & 0xFF == ord('q') *)
}.

(** [capture_face_sample] (line 160) over the turns the loop can take: a
    turn without a frame is retried; the first frame with a face gives the
    descriptor of its first face and ends the loop; on a frame without a
    face the key is looked at. *)
Fixpoint capture_face_sample (turns : list iteration) : option descriptor :=
  match turns with
  | [] => None
  | it :: rest =>
      if negb (in_window it) then None
      else if negb (frame_ok it) then capture_face_sample rest
      else
        match faces it with
        | face :: _ => Some face
        | [] => if key_q it then None else capture_face_sample rest
        end
  end.

Section FaceMatching.

(** [np.linalg.norm(stored_descriptor - face_descriptor) < threshold] *)
Variable close_enough : descriptor -> descriptor -> bool.

(** Lines 502-506: the stored descriptors are tried until one is close. *)
Fixpoint match_stored (face_descriptor : descriptor)
    (stored_descriptors : list descriptor) (face_verified : bool) : bool :=
  match stored_descriptors with
  | [] => face_verified
  | stored_descriptor :: rest =>
      if close_enough stored_descriptor face_descriptor then true
      else match_stored face_descriptor rest face_verified
  end.

(** Lines 498-509: the faces of a frame are tried until the flag is set. *)
Fixpoint match_faces (stored_descriptors : list descriptor)
    (detected : list descriptor) (face_verified : bool) : bool :=
  match detected with
  | [] => face_verified
  | face_descriptor :: rest =>
      let face_verified' :=
        match_stored face_descriptor stored_descriptors face_verified in
      if face_verified' then true
      else match_faces stored_descriptors rest face_verified'
  end.

(** The [while] loop of [verify_face] (line 488).  Its test looks at the
    clock and at the exit flag only.  The result is the flag and the number
    of frames shown with cv2.imshow. *)
Fixpoint verify_face_loop (stored_descriptors : list descriptor)
    (turns : list iteration) (face_verified : bool) (shown : nat) : bool * nat :=
  match turns with
  | [] => (face_verified, shown)
  | it :: rest =>
      if negb (in_window it) then (face_verified, shown)
      else if negb (frame_ok it)
      then verify_face_loop stored_descriptors rest face_verified shown
      else
        let face_verified' :=
          match_faces stored_descriptors (faces it) face_verified in
        if key_q it then (face_verified', S shown)
        else verify_face_loop stored_descriptors rest face_verified' (S shown)
  end.

(** [verify_face] (line 478) *)
Definition verify_face (stored_descriptors : list descriptor)
    (turns : list iteration) : bool :=
  fst (verify_face_loop stored_descriptors turns false 0).

End FaceMatching.

(** The turns a camera loop of [verify_face] goes through: up to the end of
    the window, or up to and with the frame at which q is pressed. *)
Fixpoint executed (turns : list iteration) : list iteration :=
  match turns with
  | [] => []
  | it :: rest =>
      if negb (in_window it) then []
      else if frame_ok it && key_q it then [it]
      else it :: executed rest
  end.

(* ================================================================== *)
(** * Operator feedback: LEDs and buzzer *)
(* ================================================================== *)

Inductive pin : Type := YELLOW_LED_PIN | RED_LED_PIN | BUZZER_PIN.

(** What the feedback functions do, in order: GPIO.output and time.sleep
    (in milliseconds). *)
Inductive gpio_step : Type :=
| Output (p : pin) (high : bool)
| Sleep (milliseconds : N).

(** [single_beep] (line 77) *)
Definition single_beep (duration : N) : list gpio_step :=
  [Output BUZZER_PIN true; Sleep duration; Output BUZZER_PIN false].

(** [multiple_beeps] (line 83) *)
Fixpoint multiple_beeps (count : nat) (duration interval : N) : list gpio_step :=
  match count with
  | O => []
  | S count' =>
      (single_beep duration ++ [Sleep interval] ++
       multiple_beeps count' duration interval)%list
  end.

(** [blink_led] (line 89) *)
Definition blink_led (led_pin : pin) (duration : N) : list gpio_step :=
  [Output led_pin true; Sleep duration; Output led_pin false].

(** [both_leds_on] (line 95) *)
Definition both_leds_on : list gpio_step :=
  [Output YELLOW_LED_PIN true; Output RED_LED_PIN true].

(** [both_leds_off] (line 100), also [init_hardware] without the buzzer *)
Definition both_leds_off : list gpio_step :=
  [Output YELLOW_LED_PIN false; Output RED_LED_PIN false].

(** The feedback of [verify_attendance]: the LEDs go on after the session
    check, each final status is signalled (lines 464-468), and the
    [finally] clause turns the LEDs off on every way out. *)
Fixpoint verify_lines_feedback (out : list verify_line) : list gpio_step :=
  match out with
  | [] => []
  | FinalAttendance _ status :: rest =>
      ((if status =? "present"
        then blink_led YELLOW_LED_PIN 500 ++ single_beep 100
        else blink_led RED_LED_PIN 500) ++ verify_lines_feedback rest)%list
  | _ :: rest => verify_lines_feedback rest
  end.

Definition verify_attendance_feedback (out : list verify_line) : list gpio_step :=
  match out with
  | [NoActiveSession] => both_leds_off
  | _ => (both_leds_on ++ verify_lines_feedback out ++ both_leds_off)%list
  end.

(** The feedback of one pass of the intake loop, by the way it ends.  A
    pass that raises went through the lecturer's signal and is closed by the
    handler of line 414. *)
Definition pass_feedback (p : pass) : list gpio_step :=
  match p with
  | Raised _ =>
      (both_leds_on ++ multiple_beeps 3 100 100 ++ both_leds_off)%list
  | Continue _ (SessionStarted _ out) =>
      (both_leds_on ++ multiple_beeps 3 100 100 ++
       verify_attendance_feedback out ++ both_leds_off)%list
  | Continue _ Unregistered => blink_led RED_LED_PIN 500
  | Continue _ DuplicateConfirmed => blink_led RED_LED_PIN 500
  | Continue _ DuplicateInSession => blink_led RED_LED_PIN 500
  | Continue _ NewCheckIn =>
      (blink_led YELLOW_LED_PIN 500 ++ single_beep 100)%list
  end.

(** The levels of the three pins. *)
Record pins : Type := { yellow : bool; red : bool; buzzer : bool }.

Definition all_low : pins := {| yellow := false; red := false; buzzer := false |}.

Definition gpio_apply (s : pins) (step : gpio_step) : pins :=
  match step with
  | Output YELLOW_LED_PIN level =>
      {| yellow := level; red := red s; buzzer := buzzer s |}
  | Output RED_LED_PIN level =>
      {| yellow := yellow s; red := level; buzzer := buzzer s |}
  | Output BUZZER_PIN level =>
      {| yellow := yellow s; red := red s; buzzer := level |}
  | Sleep _ => s
  end.

Definition gpio_run (steps : list gpio_step) (s : pins) : pins :=
  fold_left gpio_apply steps s.

(** The time spent in time.sleep, in milliseconds. *)
Definition slept (steps : list gpio_step) : N :=
  fold_right (fun step acc =>
                match step with Sleep ms => (ms + acc)%N | Output _ _ => acc end)
             0%N steps.

(* ================================================================== *)
(** * A classroom used by the examples *)
(* ================================================================== *)

Module Classroom.

Definition sample : descriptor := [0%Z].
Definition camera_ok : nat -> option descriptor := fun _ => Some sample.
Definition camera_once : nat -> option descriptor :=
  fun prompt => match prompt with O => Some sample | _ => None end.

Definition empty : system := init [] [] [] [].

(** Alice (card 101) and Bob (card 102) enrolled as students, Dr Chen
    (card 900, course CS101) as lecturer. *)
Definition enrolled : system :=
  run empty [ Choice1 101 "Alice" camera_ok;
              Choice1 102 "Bob" camera_ok;
              Choice2 900 "Dr Chen" "Algorithms" "CS101" ].

Definition at_time (h m s us : N) : datetime :=
  {| year := 2025; month := 3; day := 14;
     hour := h; minute := m; second := s; microsecond := us |}.

(** The outside during a verification: the face matches exactly for
    [present], every write succeeds. *)
Definition seen (present : list unique_id) (t : datetime) : unique_id -> verify_env :=
  fun uid =>
    {| face_verified := existsb (String.eqb uid) present;
       verify_time := t; insert_ok := true;
       firebase_time := t; firebase_ok := true |}.

Definition tap (rfid_id : Z) (t : datetime) (env : unique_id -> verify_env) : event :=
  {| ev_rfid := rfid_id; ev_clock := t; ev_start_time := t;
     ev_session_set_ok := true; ev_verify := env |}.

Definition alice : unique_id := generate_unique_id "Alice".
Definition bob : unique_id := generate_unique_id "Bob".

Definition nobody : unique_id -> verify_env := seen [] (at_time 0 0 0 0).

(** Alice at 09:00:01 and Bob at 09:00:05 hold their cards to the reader. *)
Definition arrivals : list event :=
  [ tap 101 (at_time 9 0 1 0) nobody; tap 102 (at_time 9 0 5 0) nobody ].

(** Dr Chen's card at 09:01:00; the camera then recognises Alice only. *)
Definition roll_call : event :=
  tap 900 (at_time 9 1 0 0) (seen [alice] (at_time 9 1 20 0)).

(** The same pass while Firestore cannot be reached for the session document. *)
Definition offline (e : event) : event :=
  {| ev_rfid := ev_rfid e; ev_clock := ev_clock e;
     ev_start_time := ev_start_time e;
     ev_session_set_ok := false; ev_verify := ev_verify e |}.

(** The same pass while SQLite refuses the INSERT for the given students. *)
Definition insert_fails_for (who : list unique_id) (e : event) : event :=
  {| ev_rfid := ev_rfid e; ev_clock := ev_clock e;
     ev_start_time := ev_start_time e;
     ev_session_set_ok := ev_session_set_ok e;
     ev_verify := fun uid =>
       let v := ev_verify e uid in
       {| face_verified := face_verified v; verify_time := verify_time v;
          insert_ok := negb (existsb (String.eqb uid) who);
          firebase_time := firebase_time v; firebase_ok := firebase_ok v |} |}.

(** The same pass while Firestore refuses every attendance document. *)
Definition mirror_down (e : event) : event :=
  {| ev_rfid := ev_rfid e; ev_clock := ev_clock e;
     ev_start_time := ev_start_time e;
     ev_session_set_ok := ev_session_set_ok e;
     ev_verify := fun uid =>
       let v := ev_verify e uid in
       {| face_verified := face_verified v; verify_time := verify_time v;
          insert_ok := insert_ok v;
          firebase_time := firebase_time v; firebase_ok := false |} |}.

Definition dr_chen : lecturer_row :=
  {| l_unique_id := generate_unique_id "Dr Chen"; l_name := "Dr Chen";
     l_rfid_id := "900"; l_course_name := "Algorithms"; l_course_code := "CS101" |}.

Definition alice_row : student_row :=
  {| s_unique_id := alice; s_name := "Alice"; s_rfid_id := "101";
     s_face_descriptors := [sample; sample; sample] |}.

Definition bob_row : student_row :=
  {| s_unique_id := bob; s_name := "Bob"; s_rfid_id := "102";
     s_face_descriptors := [sample; sample; sample] |}.

(** Dr Chen's card again at 09:50:00: the start of the next session. *)
Definition second_roll_call : event :=
  tap 900 (at_time 9 50 0 0) (seen [alice] (at_time 9 50 20 0)).

(** One stretch of option 3: Alice taps, Dr Chen opens a session, Bob
    taps, and the operator presses Ctrl-C. *)
Definition interrupted : system :=
  run enrolled
    [ Choice3 [ tap 101 (at_time 9 0 1 0) nobody;
                roll_call;
                tap 102 (at_time 9 5 0 0) nobody ] ].

(** The state once Alice and Bob have tapped. *)
Definition after_arrivals : system :=
  fst (fst (mark_attendance_rfid enrolled arrivals)).

End Classroom.
Import Classroom.

(** Further situations in the same classroom. *)
Module Term.

(** Alice and Dr Chen are enrolled, Bob is not yet. *)
Definition first_week : list choice :=
  [ Choice1 101 "Alice" camera_ok;
    Choice2 900 "Dr Chen" "Algorithms" "CS101" ].

Definition with_bob : system :=
  fst (fst (register_student (run (init [] [] [] []) first_week) 102 "Bob" camera_ok)).

Definition with_dr_diaz : system :=
  fst (fst (register_lecturer (run (init [] [] [] []) first_week)
              901 "Dr Diaz" "Logic" "CS102")).

(** Alice and Bob have tapped, Dr Chen's card has started the verification,
    and the operator presses Ctrl-C before the first student is through: the
    state in which the menu comes back. *)
Definition stopped_in_verification : system :=
  on_keyboard_interrupt (open_session after_arrivals roll_call dr_chen).

(** A class of three: Carol (card 103) next to Alice and Bob. *)
Definition roster : list choice :=
  [ Choice1 101 "Alice" camera_ok;
    Choice1 102 "Bob" camera_ok;
    Choice1 103 "Carol" camera_ok;
    Choice2 900 "Dr Chen" "Algorithms" "CS101" ].

Definition carol_row : student_row :=
  {| s_unique_id := generate_unique_id "Carol"; s_name := "Carol";
     s_rfid_id := "103"; s_face_descriptors := [sample; sample; sample] |}.

(** Alice taps, Dr Chen opens the session, Bob taps: Alice is in the
    persistent dictionary, Bob in the new one, Carol in neither. *)
Definition mid_session : list event :=
  [ tap 101 (at_time 9 0 1 0) nobody; roll_call;
    tap 102 (at_time 9 5 0 0) nobody ].

End Term.
Import Term.

(* ================================================================== *)
(** * Vocabulary of the properties *)
(* ================================================================== *)

(** The state of the intake loop after the given cards, in a process that
    started on the given stores and went through the given menu choices. *)
Definition reached (ss : list student_row) (ls : list lecturer_row)
    (log : list attendance_row) (fb : list firebase_doc)
    (choices : list choice) (taps : list event) : system :=
  fst (fst (mark_attendance_rfid (run (init ss ls log fb) choices) taps)).

(** The student is in one of the two staging dictionaries. *)
Definition staged (st : system) (uid : unique_id) : bool :=
  dict_in uid (persistent_rfid_attendance st) || dict_in uid (new_rfid_attendance st).

(** The [students] table has a row under this unique id. *)
Definition has_student (st : system) (uid : unique_id) : bool :=
  match find (fun r => s_unique_id r =? uid) (students st) with
  | Some _ => true
  | None => false
  end.

(** No key of the new dictionary is a key of the persistent one. *)
Definition staging_disjoint (st : system) : bool :=
  forallb (fun k => negb (dict_in k (persistent_rfid_attendance st)))
          (keys (new_rfid_attendance st)).

(** What holds of the staging dictionaries between two passes of the
    intake loop. *)
Definition consistent (st : system) : Prop :=
  NoDup (keys (persistent_rfid_attendance st)) /\
  NoDup (keys (new_rfid_attendance st)) /\
  staging_disjoint st = true /\
  forall uid, staged st uid = true -> has_student st uid = true.

(** The rows of the local log for one student in one session. *)
Definition records_for (uid : unique_id) (session : string)
    (log : list attendance_row) : list attendance_row :=
  filter (fun r => (a_unique_id r =? uid) && (a_session_id r =? session)) log.

(** The rows a verification pass writes when every INSERT goes through. *)
Definition pass_records (session : string) (env : unique_id -> verify_env)
    (items : dict) : list attendance_row :=
  map (fun kv => attendance_record session (env (fst kv)) (fst kv) (snd kv)) items.

(** What such a pass prints. *)
Definition pass_lines (session : string) (env : unique_id -> verify_env)
    (items : dict) : list verify_line :=
  flat_map (fun kv =>
              [VerifyingFace (fst kv);
               FinalAttendance (fst kv)
                 (a_status (attendance_record session (env (fst kv)) (fst kv) (snd kv)))])
           items.

(** The pass took the student through [verify_face]. *)
Definition verified_in (uid : unique_id) (o : outcome) : bool :=
  match o with
  | SessionStarted _ out =>
      existsb (fun l => match l with
                        | VerifyingFace u => u =? uid
                        | _ => false
                        end) out
  | _ => false
  end.

(** The state without the Firebase mirror. *)
Definition local_view (st : system) : system := set_firebase st [].

(** Two passes of the loop that differ at most in what Firebase does with
    the attendance documents (and when). *)
Definition mirror_variant (e1 e2 : event) : Prop :=
  ev_rfid e1 = ev_rfid e2 /\
  ev_clock e1 = ev_clock e2 /\
  ev_start_time e1 = ev_start_time e2 /\
  ev_session_set_ok e1 = ev_session_set_ok e2 /\
  forall uid,
    face_verified (ev_verify e1 uid) = face_verified (ev_verify e2 uid) /\
    verify_time (ev_verify e1 uid) = verify_time (ev_verify e2 uid) /\
    insert_ok (ev_verify e1 uid) = insert_ok (ev_verify e2 uid).

(** The constraints of the two identity tables: each key and each card at
    most once per table, and no card in both tables. *)
Definition tables_consistent (st : system) : Prop :=
  NoDup (map s_unique_id (students st)) /\
  NoDup (map s_rfid_id (students st)) /\
  NoDup (map l_unique_id (lecturers st)) /\
  NoDup (map l_rfid_id (lecturers st)) /\
  forall card, In card (map s_rfid_id (students st)) ->
               ~ In card (map l_rfid_id (lecturers st)).

(** The row [register_student] inserts. *)
Definition new_student_row (rfid_id : Z) (name : string)
    (capture_face_sample : nat -> option descriptor) : student_row :=
  {| s_unique_id := generate_unique_id name; s_name := name;
     s_rfid_id := str rfid_id;
     s_face_descriptors := capture_face_samples capture_face_sample |}.

(** The row [register_lecturer] inserts. *)
Definition new_lecturer_row (rfid_id : Z) (name course_name course_code : string)
  : lecturer_row :=
  {| l_unique_id := generate_unique_id name; l_name := name;
     l_rfid_id := str rfid_id;
     l_course_name := course_name; l_course_code := course_code |}.

(** Everybody who is staged, with the entry made at their tap: the
    persistent dictionary followed by the new one. *)
Definition staging (st : system) : dict :=
  (persistent_rfid_attendance st ++ new_rfid_attendance st)%list.

(** Every attendance document of the mirror has a row of the local log for
    the same student, session, name and status. *)
Definition mirror_backed (st : system) : Prop :=
  forall session doc_id uid rfid_id name date time status,
    In (AttendanceDoc session doc_id uid rfid_id name date time status) (firebase st) ->
    exists row,
      In row (attendance_log st) /\
      a_unique_id row = uid /\ a_session_id row = session /\
      a_name row = name /\ a_status row = status.

(** A row as the verification writes it: present with the time of the
    match, or partial with no face time. *)
Definition row_well_formed (r : attendance_row) : Prop :=
  (a_status r = "present" /\ exists t, a_face_time r = Some t) \/
  (a_status r = "partial" /\ a_face_time r = None).

(** The second state has the stores of the first plus what was written in
    between: rows at the end of the log, documents at the end of the mirror,
    every row well formed and every attendance document written together
    with a row for the same student, session, name and status. *)
Definition extends (st st' : system) : Prop :=
  exists rows docs,
    attendance_log st' = (attendance_log st ++ rows)%list /\
    firebase st' = (firebase st ++ docs)%list /\
    Forall row_well_formed rows /\
    forall session doc_id uid rfid_id name date time status,
      In (AttendanceDoc session doc_id uid rfid_id name date time status) docs ->
      exists row,
        In row rows /\
        a_unique_id row = uid /\ a_session_id row = session /\
        a_name row = name /\ a_status row = status.

(** Every character of the string passes the test. *)
Fixpoint all_chars (p : ascii -> bool) (s : string) : bool :=
  match s with
  | EmptyString => true
  | String c s' => p c && all_chars p s'
  end.

(** One of 0-9, a-f. *)
Definition is_lower_hex (c : ascii) : bool :=
  let n := N_of_ascii c in
  (((48 <=? n) && (n <=? 57)) || ((97 <=? n) && (n <=? 102)))%N.

(** A turn of [capture_face_sample] after which the loop goes on: inside
    the window, and either no frame, or a frame with no face and no q. *)
Definition goes_on (it : iteration) : bool :=
  in_window it &&
  (negb (frame_ok it) ||
   (match faces it with [] => true | _ :: _ => false end && negb (key_q it))).

(** In this turn the camera shows a face that is close to a stored
    descriptor. *)
Definition shows_match (close_enough : descriptor -> descriptor -> bool)
    (stored_descriptors : list descriptor) (it : iteration) : bool :=
  frame_ok it &&
  existsb (fun face => existsb (fun stored => close_enough stored face)
                               stored_descriptors)
          (faces it).

(** The mirror holds the document of this session. *)
Definition session_documented (st : system) (session : string) : Prop :=
  exists course_name course_code lecturer_name lecturer_rfid start_time status,
    In (LectureDoc session course_name course_code lecturer_name lecturer_rfid
          start_time status) (firebase st).

(** The current session, every row of the log and every attendance document
    of the mirror belong to a session whose document is in the mirror. *)
Definition sessions_documented (st : system) : Prop :=
  (forall session, current_session st = Some session -> session_documented st session) /\
  (forall row, In row (attendance_log st) -> session_documented st (a_session_id row)) /\
  (forall session doc_id uid rfid_id name date time status,
     In (AttendanceDoc session doc_id uid rfid_id name date time status) (firebase st) ->
     session_documented st session).

(** What two passes of the loop body have in common when they differ in the
    mirror only. *)
Definition same_locally (p1 p2 : pass) : Prop :=
  match p1, p2 with
  | Continue s1 o1, Continue s2 o2 => local_view s1 = local_view s2 /\ o1 = o2
  | Raised s1, Raised s2 => local_view s1 = local_view s2
  | _, _ => False
  end.

(** The fields no verification pass writes to. *)
Definition same_session_state (st st' : system) : Prop :=
  current_session st' = current_session st /\
  temp_attendance st' = temp_attendance st /\
  persistent_rfid_attendance st' = persistent_rfid_attendance st /\
  new_rfid_attendance st' = new_rfid_attendance st /\
  students st' = students st /\
  lecturers st' = lecturers st.


(* ================================================================== *)
(** * SHA-256 against the published test vectors *)
(* ================================================================== *)

Example first_and_last_round_constant :
  nth 0 SHA256.K 0%N = 0x428a2f98%N /\ nth 63 SHA256.K 0%N = 0xc67178f2%N /\
  List.length SHA256.K = 64%nat /\ nth 0 SHA256.H0 0%N = 0x6a09e667%N.
Proof. vm_compute. repeat split. Qed.

Example sha_empty : SHA256.hexdigest [] =
  "e3b0c44298fc1c149afbf4c8996fb92427ae41e4649b934ca495991b7852b855".
Proof. vm_compute. reflexivity. Qed.

Example sha_abc : SHA256.hexdigest (encode "abc") =
  "ba7816bf8f01cfea414140de5dae2223b00361a396177a9cb410ff61f20015ad".
Proof. vm_compute. reflexivity. Qed.

Example sha_two_blocks :
  SHA256.hexdigest (encode "abcdbcdecdefdefgefghfghighijhijkijkljklmklmnlmnomnopnopq") =
  "248d6a61d20638b8e5c026930c3e6039a33ce45964ff2167f6ecedd419db06c1".
Proof. vm_compute. reflexivity. Qed.

Example generate_unique_id_Alice : generate_unique_id "Alice" = "3bc51062973c458d".
Proof. vm_compute. reflexivity. Qed.

(* ================================================================== *)
(** * Dictionaries *)
(* ================================================================== *)

Section Dictionaries.

Lemma dict_in_spec (k : unique_id) (d : dict) :
  dict_in k d = true <-> In k (keys d).
Proof.
  unfold dict_in, keys. rewrite existsb_exists, in_map_iff. split.
  - intros [kv [Hin Heq]]. apply String.eqb_eq in Heq. now exists kv.
  - intros [kv [Heq Hin]]. exists kv. split; [assumption|]. now apply String.eqb_eq.
Qed.

Lemma dict_in_false (k : unique_id) (d : dict) :
  dict_in k d = false <-> ~ In k (keys d).
Proof.
  rewrite <- dict_in_spec. destruct (dict_in k d); split; intros; congruence.
Qed.

Lemma keys_dict_set (d : dict) (k : unique_id) (v : entry) :
  keys (dict_set d k v) = if dict_in k d then keys d else (keys d ++ [k])%list.
Proof.
  induction d as [|[k' v'] d IH]; simpl; [reflexivity|].
  destruct (String.eqb_spec k' k) as [->|Hne]; simpl; [reflexivity|].
  rewrite IH. now destruct (dict_in k d).
Qed.

Lemma dict_set_fresh (d : dict) (k : unique_id) (v : entry) :
  dict_in k d = false -> dict_set d k v = (d ++ [(k, v)])%list.
Proof.
  induction d as [|[k' v'] d IH]; simpl; [reflexivity|].
  destruct (String.eqb_spec k' k) as [->|Hne]; simpl; [discriminate|].
  intros H. now rewrite IH.
Qed.

Lemma dict_in_set (d : dict) (k k' : unique_id) (v : entry) :
  dict_in k (dict_set d k' v) = (k' =? k) || dict_in k d.
Proof.
  induction d as [|[k0 v0] d IH]; simpl.
  - now rewrite orb_false_r.
  - destruct (String.eqb_spec k0 k') as [->|Hne]; simpl.
    + now destruct (k' =? k).
    + rewrite IH. destruct (k0 =? k), (k' =? k); reflexivity.
Qed.

Lemma NoDup_keys_set (d : dict) (k : unique_id) (v : entry) :
  NoDup (keys d) -> NoDup (keys (dict_set d k v)).
Proof.
  intros Hnd. rewrite keys_dict_set. destruct (dict_in k d) eqn:Hin; [assumption|].
  apply dict_in_false in Hin.
  apply NoDup_rev in Hnd. rewrite <- (rev_involutive (keys d ++ [k])).
  apply NoDup_rev. rewrite rev_app_distr. simpl. constructor; [|assumption].
  now rewrite <- in_rev.
Qed.

Lemma dict_in_update (d other : dict) (k : unique_id) :
  dict_in k (dict_update d other) = dict_in k d || dict_in k other.
Proof.
  unfold dict_update. revert d.
  induction other as [|[k' v'] other IH]; intros d; simpl.
  - now rewrite orb_false_r.
  - rewrite IH, dict_in_set. simpl.
    destruct (k' =? k), (dict_in k d); reflexivity.
Qed.

Lemma NoDup_keys_update (d other : dict) :
  NoDup (keys d) -> NoDup (keys (dict_update d other)).
Proof.
  unfold dict_update. revert d.
  induction other as [|[k' v'] other IH]; intros d Hnd; simpl; [assumption|].
  apply IH. now apply NoDup_keys_set.
Qed.

End Dictionaries.

(* ================================================================== *)
(** * What a verification pass leaves alone *)
(* ================================================================== *)

Lemma same_session_state_refl (st : system) : same_session_state st st.
Proof. repeat split. Qed.

Lemma same_session_state_trans (a b c : system) :
  same_session_state a b -> same_session_state b c -> same_session_state a c.
Proof.
  unfold same_session_state. intros (?&?&?&?&?&?) (?&?&?&?&?&?).
  repeat split; congruence.
Qed.

Lemma log_attendance_to_firebase_frame st v uid name status :
  same_session_state st (log_attendance_to_firebase st v uid name status) /\
  attendance_log (log_attendance_to_firebase st v uid name status) = attendance_log st.
Proof.
  unfold log_attendance_to_firebase.
  destruct (find _ (students st)); [|split; [apply same_session_state_refl|reflexivity]].
  destruct (current_session st); [|split; [apply same_session_state_refl|reflexivity]].
  destruct (firebase_ok v); split;
    try apply same_session_state_refl; try reflexivity.
  repeat split.
Qed.

Lemma verify_loop_frame session env items :
  forall st st' out,
    verify_loop st session env items = (st', out) ->
    same_session_state st st'.
Proof.
  induction items as [|[uid data] rest IH]; intros st st' out H; simpl in H.
  - inversion H; subst. apply same_session_state_refl.
  - destruct (find _ (students st)) eqn:Hrow.
    + destruct (insert_ok (env uid)).
      * match type of H with
        | context [verify_loop ?s session env rest] =>
            destruct (verify_loop s session env rest) as [s' o] eqn:Hrec
        end.
        inversion H; subst. apply IH in Hrec.
        eapply same_session_state_trans; [|exact Hrec].
        eapply same_session_state_trans;
          [|apply log_attendance_to_firebase_frame].
        repeat split.
      * inversion H; subst. apply same_session_state_refl.
    + destruct (verify_loop st session env rest) as [s' o] eqn:Hrec.
      inversion H; subst. eapply IH; eassumption.
Qed.

Lemma verify_attendance_frame st env d st' out :
  verify_attendance st env d = (st', out) -> same_session_state st st'.
Proof.
  unfold verify_attendance. intros H.
  destruct (current_session st) as [session|].
  - destruct (session =? ""); [inversion H; subst; apply same_session_state_refl|].
    eapply verify_loop_frame; eassumption.
  - inversion H; subst. apply same_session_state_refl.
Qed.

(* ================================================================== *)
(** * The staging dictionaries stay consistent *)
(* ================================================================== *)

Lemma find_some_exists {A : Type} (f : A -> bool) (l : list A) (x : A) :
  In x l -> f x = true -> exists y, find f l = Some y.
Proof.
  induction l as [|a l IH]; simpl; [contradiction|].
  intros [->|Hin] Hfx.
  - rewrite Hfx. now exists x.
  - destruct (f a); [now exists a|]. now apply IH.
Qed.

Lemma find_app_some {A : Type} (f : A -> bool) (l l' : list A) (x : A) :
  find f l = Some x -> find f (l ++ l') = Some x.
Proof.
  induction l as [|a l IH]; simpl; [discriminate|].
  destruct (f a); [trivial|assumption].
Qed.

Lemma has_student_looked_up st rfid student :
  find (fun r => s_rfid_id r =? rfid) (students st) = Some student ->
  has_student st (s_unique_id student) = true.
Proof.
  intros H. apply find_some in H. destruct H as [Hin _].
  unfold has_student.
  destruct (find_some_exists (fun r => s_unique_id r =? s_unique_id student)
              (students st) student Hin (String.eqb_refl _)) as [y ->].
  reflexivity.
Qed.

Lemma consistent_init ss ls log fb : consistent (init ss ls log fb).
Proof.
  unfold consistent, staged. simpl. repeat split; try constructor.
  intros uid H. discriminate.
Qed.

Lemma consistent_ext st st' :
  persistent_rfid_attendance st' = persistent_rfid_attendance st ->
  new_rfid_attendance st' = new_rfid_attendance st ->
  (forall uid, has_student st uid = true -> has_student st' uid = true) ->
  consistent st -> consistent st'.
Proof.
  unfold consistent, staging_disjoint, staged.
  intros Hp Hn Hs (H1 & H2 & H3 & H4). rewrite Hp, Hn.
  repeat split; try assumption. intros uid H. now apply Hs, H4.
Qed.

Lemma register_student_consistent st rfid name cam :
  consistent st -> consistent (fst (fst (register_student st rfid name cam))).
Proof.
  intros Hc. unfold register_student.
  destruct (is_rfid_registered st rfid); [exact Hc|].
  destruct (_ || _); [exact Hc|].
  unfold insert_student. destruct (existsb _ _); [exact Hc|]. simpl.
  apply (consistent_ext st); [reflexivity|reflexivity| |exact Hc].
  intros uid. unfold has_student. simpl.
  destruct (find _ (students st)) eqn:Hf; [|discriminate].
  intros _. now rewrite (find_app_some _ _ _ _ Hf).
Qed.

Lemma register_lecturer_consistent st rfid name cn cc :
  consistent st -> consistent (fst (fst (register_lecturer st rfid name cn cc))).
Proof.
  intros Hc. unfold register_lecturer.
  destruct (is_rfid_registered st rfid); [exact Hc|].
  unfold insert_lecturer. destruct (existsb _ _); [exact Hc|]. simpl.
  apply (consistent_ext st); [reflexivity|reflexivity| |exact Hc]. auto.
Qed.

Lemma on_keyboard_interrupt_consistent st :
  consistent st -> consistent (on_keyboard_interrupt st).
Proof. apply (consistent_ext st); auto. Qed.

(** The state after the lecturer branch, in terms of the state before. *)
Lemma lecturer_pass st e lecturer :
  find (fun r => l_rfid_id r =? str (ev_rfid e)) (lecturers st) = Some lecturer ->
  ev_session_set_ok e = true ->
  exists st' out,
    loop_body st e =
      Continue st' (SessionStarted
                      (derive_session_id (l_course_code lecturer) (ev_clock e)) out) /\
    current_session st' =
      Some (derive_session_id (l_course_code lecturer) (ev_clock e)) /\
    persistent_rfid_attendance st' =
      dict_update (persistent_rfid_attendance st) (new_rfid_attendance st) /\
    new_rfid_attendance st' = [] /\
    temp_attendance st' = temp_attendance st /\
    students st' = students st /\
    lecturers st' = lecturers st.
Proof.
  intros Hl Hok. unfold loop_body. rewrite Hl, Hok.
  match goal with
  | |- context [verify_attendance ?s ?v ?d] =>
      destruct (verify_attendance s v d) as [st4 out] eqn:Hv
  end.
  apply verify_attendance_frame in Hv.
  destruct Hv as (Hcs & Ht & Hp & Hn & Hs & Hlec).
  exists (set_new st4 []), out. simpl in *.
  repeat split; assumption.
Qed.

Lemma staging_disjoint_snoc st k v :
  staging_disjoint st = true ->
  dict_in k (persistent_rfid_attendance st) = false ->
  dict_in k (new_rfid_attendance st) = false ->
  staging_disjoint (set_new st (dict_set (new_rfid_attendance st) k v)) = true.
Proof.
  unfold staging_disjoint. simpl. intros Hd Hp Hn.
  rewrite keys_dict_set, Hn, forallb_app, Hd. simpl. now rewrite Hp.
Qed.

Lemma loop_body_consistent st e :
  consistent st ->
  match loop_body st e with
  | Continue st' _ => consistent st'
  | Raised st' => st' = st
  end.
Proof.
  intros Hc.
  destruct (find (fun r => l_rfid_id r =? str (ev_rfid e)) (lecturers st))
    as [lecturer|] eqn:Hl.
  - destruct (ev_session_set_ok e) eqn:Hok.
    + destruct (lecturer_pass st e lecturer Hl Hok)
        as (st' & out & -> & _ & Hp & Hn & _ & Hs & _).
      destruct Hc as (H1 & H2 & H3 & H4).
      unfold consistent, staging_disjoint, staged, has_student.
      rewrite Hp, Hn, Hs. repeat split.
      * now apply NoDup_keys_update.
      * constructor.
      * intros uid. rewrite dict_in_update. simpl. rewrite orb_false_r. apply H4.
    + unfold loop_body. now rewrite Hl, Hok.
  - unfold loop_body. rewrite Hl.
    destruct (find _ (students st)) as [student|] eqn:Hs; [|exact Hc].
    destruct (dict_in _ (persistent_rfid_attendance st)) eqn:Hp; [exact Hc|].
    destruct (dict_in _ (new_rfid_attendance st)) eqn:Hn; [exact Hc|].
    destruct Hc as (H1 & H2 & H3 & H4).
    unfold consistent. repeat split.
    + exact H1.
    + simpl. now apply NoDup_keys_set.
    + now apply staging_disjoint_snoc.
    + intros uid. unfold staged, has_student. simpl. rewrite dict_in_set.
      destruct (String.eqb_spec (s_unique_id student) uid) as [<-|Hne].
      * intros _. now apply (has_student_looked_up st (str (ev_rfid e))).
      * simpl. apply H4.
Qed.

Lemma mark_attendance_rfid_consistent taps :
  forall st, consistent st -> consistent (fst (fst (mark_attendance_rfid st taps))).
Proof.
  induction taps as [|e rest IH]; intros st Hc; simpl; [exact Hc|].
  pose proof (loop_body_consistent st e Hc) as Hb.
  destruct (loop_body st e) as [st' o|st'].
  - specialize (IH st' Hb).
    destruct (mark_attendance_rfid st' rest) as [[s os] x]. exact IH.
  - simpl. now subst.
Qed.

Lemma run_choice_consistent st c : consistent st -> consistent (run_choice st c).
Proof.
  intros Hc. destruct c as [rfid name cam|rfid name cn cc|taps|]; simpl.
  - now apply register_student_consistent.
  - now apply register_lecturer_consistent.
  - pose proof (mark_attendance_rfid_consistent taps st Hc) as H.
    destruct (mark_attendance_rfid st taps) as [[s os] [|]]; simpl in H.
    + now apply on_keyboard_interrupt_consistent.
    + exact H.
  - exact Hc.
Qed.

Lemma run_consistent choices :
  forall st, consistent st -> consistent (run st choices).
Proof.
  unfold run. induction choices as [|c cs IH]; intros st Hc; simpl; [exact Hc|].
  apply IH. now apply run_choice_consistent.
Qed.

(** Every state the intake loop is in between two passes, in any use of
    the menu from a fresh start. *)
Lemma reached_consistent ss ls log fb choices taps :
  consistent (reached ss ls log fb choices taps).
Proof.
  apply mark_attendance_rfid_consistent, run_consistent, consistent_init.
Qed.

(* ================================================================== *)
(** * What a verification pass writes *)
(* ================================================================== *)

Lemma derive_session_id_not_empty course_code now :
  (derive_session_id course_code now =? "") = false.
Proof. unfold derive_session_id. destruct course_code; reflexivity. Qed.

Lemma loop_body_lecturer st e lecturer :
  find (fun r => l_rfid_id r =? str (ev_rfid e)) (lecturers st) = Some lecturer ->
  ev_session_set_ok e = true ->
  loop_body st e =
    let session_id := derive_session_id (l_course_code lecturer) (ev_clock e) in
    let st3 := open_session st e lecturer in
    let '(st4, out) :=
      verify_loop st3 session_id (ev_verify e) (persistent_rfid_attendance st3) in
    Continue (set_new st4 []) (SessionStarted session_id out).
Proof.
  intros Hl Hok. unfold loop_body. rewrite Hl, Hok.
  unfold verify_attendance.
  change (current_session (open_session st e lecturer))
    with (Some (derive_session_id (l_course_code lecturer) (ev_clock e))).
  cbv beta iota. now rewrite derive_session_id_not_empty.
Qed.

Lemma has_student_same_students st st' uid :
  students st' = students st -> has_student st' uid = has_student st uid.
Proof. unfold has_student. now intros ->. Qed.

(** With a row for every staged student and every INSERT accepted, the
    pass writes one row per item, in order, and prints two lines each. *)
Lemma verify_loop_all_written session env items :
  forall st,
    (forall uid, In uid (keys items) -> has_student st uid = true) ->
    (forall uid, In uid (keys items) -> insert_ok (env uid) = true) ->
    exists st',
      verify_loop st session env items = (st', pass_lines session env items) /\
      attendance_log st' = (attendance_log st ++ pass_records session env items)%list.
Proof.
  induction items as [|[uid data] rest IH]; intros st Hrow Hins; simpl.
  - exists st. now rewrite app_nil_r.
  - assert (Hu : has_student st uid = true) by (apply Hrow; now left).
    unfold has_student in Hu.
    destruct (find _ (students st)) eqn:Hf; [|discriminate].
    rewrite (Hins uid) by now left.
    match goal with
    | |- context [verify_loop (log_attendance_to_firebase ?a ?b ?c ?d ?f) _ _ _] =>
        destruct (log_attendance_to_firebase_frame a b c d f)
          as [(_ & _ & _ & _ & Hs & _) Hlog];
        set (st2 := log_attendance_to_firebase a b c d f) in *
    end.
    destruct (IH st2) as (st' & Hv & Hl).
    + intros k Hk. rewrite (has_student_same_students st st2 k Hs).
      apply Hrow. now right.
    + intros k Hk. apply Hins. now right.
    + exists st'. rewrite Hv. split; [reflexivity|].
      rewrite Hl, Hlog. simpl. rewrite <- app_assoc. reflexivity.
Qed.

Lemma records_for_absent uid session env items :
  ~ In uid (keys items) ->
  records_for uid session (pass_records session env items) = [].
Proof.
  induction items as [|[k v] rest IH]; simpl; intros Hn; [reflexivity|].
  destruct (String.eqb_spec k uid) as [->|Hne]; [exfalso; apply Hn; now left|].
  simpl. apply IH. intros H. apply Hn. now right.
Qed.

Lemma records_for_present uid data session env items :
  NoDup (keys items) -> In (uid, data) items ->
  records_for uid session (pass_records session env items) =
  [attendance_record session (env uid) uid data].
Proof.
  induction items as [|[k v] rest IH]; simpl; intros Hnd Hin; [contradiction|].
  inversion Hnd as [|? ? Hk Hnd']; subst.
  destruct Hin as [Heq|Hin].
  - inversion Heq; subst. rewrite !String.eqb_refl. simpl.
    now rewrite (records_for_absent uid session env rest Hk).
  - destruct (String.eqb_spec k uid) as [->|Hne].
    + exfalso. apply Hk. change uid with (fst (uid, data)). now apply in_map.
    + simpl. now apply IH.
Qed.

Lemma staged_merged st uid :
  staged st uid = true <->
  In uid (keys (dict_update (persistent_rfid_attendance st) (new_rfid_attendance st))).
Proof. unfold staged. now rewrite <- dict_in_spec, dict_in_update. Qed.

Lemma attendance_record_status session v uid data :
  a_status (attendance_record session v uid data) = "present" \/
  a_status (attendance_record session v uid data) = "partial".
Proof. simpl. destruct (face_verified v); [now left|now right]. Qed.

(* ================================================================== *)
(** * Rollover (C1) *)
(* ================================================================== *)

(** The pass of a lecturer card whose writes all go through, from a
    consistent state. *)
Lemma lecturer_pass_records st e lecturer :
  consistent st ->
  find (fun r => l_rfid_id r =? str (ev_rfid e)) (lecturers st) = Some lecturer ->
  ev_session_set_ok e = true ->
  (forall uid, staged st uid = true -> insert_ok (ev_verify e uid) = true) ->
  exists st',
    let session_id := derive_session_id (l_course_code lecturer) (ev_clock e) in
    let merged := dict_update (persistent_rfid_attendance st) (new_rfid_attendance st) in
    loop_body st e =
      Continue st' (SessionStarted session_id
                      (pass_lines session_id (ev_verify e) merged)) /\
    attendance_log st' =
      (attendance_log st ++ pass_records session_id (ev_verify e) merged)%list.
Proof.
  intros (Hp & Hn & Hd & Hrow) Hl Hok Hins.
  rewrite (loop_body_lecturer st e lecturer Hl Hok). cbv zeta.
  destruct (verify_loop_all_written
              (derive_session_id (l_course_code lecturer) (ev_clock e))
              (ev_verify e)
              (persistent_rfid_attendance (open_session st e lecturer))
              (open_session st e lecturer)) as (st4 & Hv & Hlog).
  - intros uid Hin. apply staged_merged in Hin.
    rewrite <- (Hrow uid Hin). now apply has_student_same_students.
  - intros uid Hin. apply Hins. now apply staged_merged.
  - rewrite Hv. exists (set_new st4 []). split; [reflexivity|]. exact Hlog.
Qed.

(** C1, as the code has it: when the session document and every INSERT of
    the pass are accepted, a lecturer card makes the pass append exactly one
    row per staged student (persistent or new), under the session id just
    derived, with status present or partial; that row is the only one for
    the student and the session when the log had none under that id. *)
Theorem rollover_writes_one_record_per_staged_student :
  forall ss ls log fb choices taps e lecturer,
    find (fun r => l_rfid_id r =? str (ev_rfid e))
         (lecturers (reached ss ls log fb choices taps)) = Some lecturer ->
    ev_session_set_ok e = true ->
    (forall uid, staged (reached ss ls log fb choices taps) uid = true ->
                 insert_ok (ev_verify e uid) = true) ->
    exists st' out written,
      loop_body (reached ss ls log fb choices taps) e =
        Continue st' (SessionStarted
                        (derive_session_id (l_course_code lecturer) (ev_clock e)) out) /\
      attendance_log st' =
        (attendance_log (reached ss ls log fb choices taps) ++ written)%list /\
      (forall r, In r written ->
         staged (reached ss ls log fb choices taps) (a_unique_id r) = true /\
         a_session_id r = derive_session_id (l_course_code lecturer) (ev_clock e)) /\
      forall uid,
        staged (reached ss ls log fb choices taps) uid = true ->
        exists r,
          records_for uid (derive_session_id (l_course_code lecturer) (ev_clock e))
                      written = [r] /\
          (a_status r = "present" \/ a_status r = "partial") /\
          (records_for uid (derive_session_id (l_course_code lecturer) (ev_clock e))
                       (attendance_log (reached ss ls log fb choices taps)) = [] ->
           records_for uid (derive_session_id (l_course_code lecturer) (ev_clock e))
                       (attendance_log st') = [r]).
Proof.
  intros ss ls log fb choices taps e lecturer Hl Hok Hins.
  pose proof (reached_consistent ss ls log fb choices taps) as Hc.
  set (st := reached ss ls log fb choices taps) in *.
  set (sid := derive_session_id (l_course_code lecturer) (ev_clock e)).
  destruct (lecturer_pass_records st e lecturer Hc Hl Hok Hins) as (st' & Hb & Hlog).
  cbv zeta in Hb, Hlog. fold sid in Hb, Hlog.
  set (merged := dict_update (persistent_rfid_attendance st) (new_rfid_attendance st)) in *.
  exists st', (pass_lines sid (ev_verify e) merged), (pass_records sid (ev_verify e) merged).
  split; [exact Hb|]. split; [exact Hlog|]. split.
  - intros r Hr. unfold pass_records in Hr. apply in_map_iff in Hr.
    destruct Hr as ([k v] & <- & Hin). simpl. split; [|reflexivity].
    apply staged_merged. fold merged. change k with (fst (k, v)). now apply in_map.
  - intros uid Hst. apply staged_merged in Hst. fold merged in Hst.
    unfold keys in Hst. apply in_map_iff in Hst.
    destruct Hst as ([k data] & Hk & Hin). simpl in Hk. subst k.
    assert (Hnd : NoDup (keys merged)).
    { apply NoDup_keys_update. apply Hc. }
    exists (attendance_record sid (ev_verify e uid) uid data).
    split; [now apply records_for_present|].
    split; [apply attendance_record_status|].
    intros Hfresh. rewrite Hlog. unfold records_for in *.
    rewrite filter_app, Hfresh. simpl.
    now apply records_for_present.
Qed.

Lemma rollover_writes_one_record_per_staged_student_witness :
  exists st' out written,
    loop_body (reached [] [] [] []
                 [ Choice1 101 "Alice" camera_ok; Choice1 102 "Bob" camera_ok;
                   Choice2 900 "Dr Chen" "Algorithms" "CS101" ] arrivals) roll_call =
      Continue st' (SessionStarted
                      (derive_session_id (l_course_code dr_chen) (ev_clock roll_call)) out) /\
    attendance_log st' =
      (attendance_log (reached [] [] [] []
                 [ Choice1 101 "Alice" camera_ok; Choice1 102 "Bob" camera_ok;
                   Choice2 900 "Dr Chen" "Algorithms" "CS101" ] arrivals) ++ written)%list /\
    (forall r, In r written ->
       staged (reached [] [] [] []
                 [ Choice1 101 "Alice" camera_ok; Choice1 102 "Bob" camera_ok;
                   Choice2 900 "Dr Chen" "Algorithms" "CS101" ] arrivals) (a_unique_id r) = true /\
       a_session_id r = derive_session_id (l_course_code dr_chen) (ev_clock roll_call)) /\
    forall uid,
      staged (reached [] [] [] []
                 [ Choice1 101 "Alice" camera_ok; Choice1 102 "Bob" camera_ok;
                   Choice2 900 "Dr Chen" "Algorithms" "CS101" ] arrivals) uid = true ->
      exists r,
        records_for uid (derive_session_id (l_course_code dr_chen) (ev_clock roll_call))
                    written = [r] /\
        (a_status r = "present" \/ a_status r = "partial") /\
        (records_for uid (derive_session_id (l_course_code dr_chen) (ev_clock roll_call))
                     (attendance_log (reached [] [] [] []
                 [ Choice1 101 "Alice" camera_ok; Choice1 102 "Bob" camera_ok;
                   Choice2 900 "Dr Chen" "Algorithms" "CS101" ] arrivals)) = [] ->
         records_for uid (derive_session_id (l_course_code dr_chen) (ev_clock roll_call))
                     (attendance_log st') = [r]).
Proof.
  apply (rollover_writes_one_record_per_staged_student [] [] [] []
           [ Choice1 101 "Alice" camera_ok; Choice1 102 "Bob" camera_ok;
             Choice2 900 "Dr Chen" "Algorithms" "CS101" ] arrivals roll_call dr_chen).
  - vm_compute. reflexivity.
  - reflexivity.
  - intros uid _. reflexivity.
Defined.

(** C1 as the specification words it fails when Firestore does not accept the
    session document: the exception leaves the loop before anything is
    merged or verified, and Alice, who had tapped, has no row. *)
Lemma rollover_without_records :
  staged after_arrivals alice = true /\
  find (fun r => l_rfid_id r =? str (ev_rfid (offline roll_call)))
       (lecturers after_arrivals) = Some dr_chen /\
  mark_attendance_rfid after_arrivals [offline roll_call] =
    (after_arrivals, [], ErrorLogged) /\
  records_for alice (derive_session_id "CS101" (ev_clock (offline roll_call)))
    (attendance_log (fst (fst (mark_attendance_rfid after_arrivals [offline roll_call]))))
  = [].
Proof. vm_compute. repeat split. Qed.

(* ================================================================== *)
(** * Taps of students already staged (C2, C3) *)
(* ================================================================== *)

Lemma verified_in_pass_lines session_id session env items uid :
  In uid (keys items) ->
  verified_in uid (SessionStarted session_id (pass_lines session env items)) = true.
Proof.
  simpl. induction items as [|[k v] rest IH]; simpl; [contradiction|].
  intros [->|Hin].
  - now rewrite String.eqb_refl.
  - rewrite IH by assumption. apply orb_true_r.
Qed.

Lemma loop_body_student st e student :
  find (fun r => l_rfid_id r =? str (ev_rfid e)) (lecturers st) = None ->
  find (fun r => s_rfid_id r =? str (ev_rfid e)) (students st) = Some student ->
  loop_body st e =
    if dict_in (s_unique_id student) (persistent_rfid_attendance st)
    then Continue st DuplicateConfirmed
    else if dict_in (s_unique_id student) (new_rfid_attendance st)
    then Continue st DuplicateInSession
    else Continue
           (set_new st (dict_set (new_rfid_attendance st) (s_unique_id student)
                          {| e_name := s_name student;
                             e_rfid_time := strftime_time (ev_clock e) |}))
           NewCheckIn.
Proof. intros Hl Hs. unfold loop_body. now rewrite Hl, Hs. Qed.

(** C2, as the code has it: the card of a student in the persistent
    dictionary is answered with the duplicate message, changes nothing and
    starts no verification; the student stays in the dictionary, and the next
    lecturer card whose writes go through takes them through [verify_face]
    again. *)
Theorem confirmed_tap_is_duplicate_and_rollover_verifies_again :
  forall ss ls log fb choices taps e student,
    find (fun r => l_rfid_id r =? str (ev_rfid e))
         (lecturers (reached ss ls log fb choices taps)) = None ->
    find (fun r => s_rfid_id r =? str (ev_rfid e))
         (students (reached ss ls log fb choices taps)) = Some student ->
    dict_in (s_unique_id student)
            (persistent_rfid_attendance (reached ss ls log fb choices taps)) = true ->
    loop_body (reached ss ls log fb choices taps) e =
      Continue (reached ss ls log fb choices taps) DuplicateConfirmed /\
    verified_in (s_unique_id student) DuplicateConfirmed = false /\
    forall e' lecturer,
      find (fun r => l_rfid_id r =? str (ev_rfid e'))
           (lecturers (reached ss ls log fb choices taps)) = Some lecturer ->
      ev_session_set_ok e' = true ->
      (forall uid, staged (reached ss ls log fb choices taps) uid = true ->
                   insert_ok (ev_verify e' uid) = true) ->
      exists st' o,
        loop_body (reached ss ls log fb choices taps) e' = Continue st' o /\
        verified_in (s_unique_id student) o = true /\
        dict_in (s_unique_id student) (persistent_rfid_attendance st') = true.
Proof.
  intros ss ls log fb choices taps e student Hl Hs Hp.
  pose proof (reached_consistent ss ls log fb choices taps) as Hc.
  set (st := reached ss ls log fb choices taps) in *.
  split; [|split; [reflexivity|]].
  - now rewrite (loop_body_student st e student Hl Hs), Hp.
  - intros e' lecturer Hl' Hok Hins.
    destruct (lecturer_pass_records st e' lecturer Hc Hl' Hok Hins) as (st' & Hb & _).
    cbv zeta in Hb.
    destruct (lecturer_pass st e' lecturer Hl' Hok)
      as (st'' & out & Hb' & _ & Hpers & _).
    rewrite Hb in Hb'. inversion Hb'; subst st'' out.
    assert (Hin : In (s_unique_id student)
                     (keys (dict_update (persistent_rfid_attendance st)
                                        (new_rfid_attendance st)))).
    { apply staged_merged. unfold staged. now rewrite Hp. }
    eexists _, _. split; [exact Hb|]. split.
    + now apply verified_in_pass_lines.
    + rewrite Hpers. now apply dict_in_spec.
Qed.

Lemma confirmed_tap_is_duplicate_and_rollover_verifies_again_witness :
  loop_body (reached [] [] [] []
               [ Choice1 101 "Alice" camera_ok; Choice1 102 "Bob" camera_ok;
                 Choice2 900 "Dr Chen" "Algorithms" "CS101" ]
               (arrivals ++ [roll_call]))
            (tap 101 (at_time 9 2 0 0) nobody) =
    Continue (reached [] [] [] []
               [ Choice1 101 "Alice" camera_ok; Choice1 102 "Bob" camera_ok;
                 Choice2 900 "Dr Chen" "Algorithms" "CS101" ]
               (arrivals ++ [roll_call])) DuplicateConfirmed /\
  exists st' o,
    loop_body (reached [] [] [] []
               [ Choice1 101 "Alice" camera_ok; Choice1 102 "Bob" camera_ok;
                 Choice2 900 "Dr Chen" "Algorithms" "CS101" ]
               (arrivals ++ [roll_call])) second_roll_call = Continue st' o /\
    verified_in (s_unique_id alice_row) o = true /\
    dict_in (s_unique_id alice_row) (persistent_rfid_attendance st') = true.
Proof.
  destruct (confirmed_tap_is_duplicate_and_rollover_verifies_again [] [] [] []
              [ Choice1 101 "Alice" camera_ok; Choice1 102 "Bob" camera_ok;
                Choice2 900 "Dr Chen" "Algorithms" "CS101" ]
              (arrivals ++ [roll_call]) (tap 101 (at_time 9 2 0 0) nobody)
              alice_row)
    as (Hdup & _ & Hnext).
  - vm_compute. reflexivity.
  - vm_compute. reflexivity.
  - vm_compute. reflexivity.
  - split; [exact Hdup|].
    apply (Hnext second_roll_call dr_chen).
    + vm_compute. reflexivity.
    + reflexivity.
    + intros uid _. reflexivity.
Defined.

(** C2 as the specification words it fails on its last part: Alice is
    verified in the first session, her next tap is a duplicate, and the
    lecturer's next card takes her through [verify_face] once more. *)
Lemma confirmed_student_is_verified_again :
  snd (fst (mark_attendance_rfid enrolled
              [ tap 101 (at_time 9 0 1 0) nobody;
                roll_call;
                tap 101 (at_time 9 2 0 0) nobody;
                second_roll_call ])) =
  [ NewCheckIn;
    SessionStarted "CS101_20250314_090100"
      [VerifyingFace alice; FinalAttendance alice "present"];
    DuplicateConfirmed;
    SessionStarted "CS101_20250314_095000"
      [VerifyingFace alice; FinalAttendance alice "present"] ] /\
  verified_in alice
    (SessionStarted "CS101_20250314_095000"
       [VerifyingFace alice; FinalAttendance alice "present"]) = true.
Proof. vm_compute. split; reflexivity. Qed.




(** Ctrl-C inside a verification, whatever the state: the session is
    reset, the persistent dictionary is the merged one, and the new one is
    the one before the card, so every student of the new dictionary is in
    both. *)
Lemma interrupted_in_verification_state st e verified st' :
  interrupted_in_verification st e verified = Some st' ->
  current_session st' = None /\
  persistent_rfid_attendance st' =
    dict_update (persistent_rfid_attendance st) (new_rfid_attendance st) /\
  new_rfid_attendance st' = new_rfid_attendance st /\
  forall uid,
    dict_in uid (new_rfid_attendance st) = true ->
    dict_in uid (persistent_rfid_attendance st')
    && dict_in uid (new_rfid_attendance st') = true.
Proof.
  unfold interrupted_in_verification.
  destruct (find _ (lecturers st)) as [lecturer|]; [|discriminate].
  destruct (ev_session_set_ok e); [|discriminate].
  destruct (_ && _); [|discriminate].
  match goal with
  | |- context [verify_attendance ?s ?v ?d] =>
      destruct (verify_attendance s v d) as [st4 out] eqn:Hv
  end.
  apply verify_attendance_frame in Hv.
  destruct Hv as (_ & _ & Hp & Hn & _).
  intros H. inversion H; subst st'. simpl.
  rewrite Hp, Hn. simpl.
  split; [reflexivity|]. split; [reflexivity|]. split; [reflexivity|].
  intros uid Hin. now rewrite dict_in_update, Hin, orb_true_r.
Qed.

(** The three cases of the taps were all met in that state: Alice is in the
    persistent dictionary, Bob in the new one, Carol in neither. *)
Example mid_session_staging :
  keys (persistent_rfid_attendance (reached [] [] [] [] roster mid_session)) = [alice] /\
  keys (new_rfid_attendance (reached [] [] [] [] roster mid_session)) = [bob] /\
  staged (reached [] [] [] [] roster mid_session) (s_unique_id carol_row) = false.
Proof. vm_compute. repeat split. Qed.


(** The overlap lasts as long as the verification does: with Alice verified
    and the interrupt in Bob's turn, Alice has her row and both students are
    still in both dictionaries. *)
Example interrupt_after_the_first_student :
  exists st,
    interrupted_in_verification after_arrivals roll_call 1 = Some st /\
    map a_unique_id (attendance_log st) = [alice] /\
    keys (persistent_rfid_attendance st) = [alice; bob] /\
    keys (new_rfid_attendance st) = [alice; bob] /\
    current_session st = None.
Proof. eexists. vm_compute. repeat split. Qed.

(* ================================================================== *)
(** * Session identifiers (C4) *)
(* ================================================================== *)

Section SessionIds.
Local Open Scope N_scope.

Lemma digit_inj a b : a < 10 -> b < 10 -> digit a = digit b -> a = b.
Proof.
  unfold digit. intros Ha Hb H. apply (f_equal N_of_ascii) in H.
  rewrite !N_ascii_embedding in H by lia. lia.
Qed.

Lemma pad2_inj a b : a < 100 -> b < 100 -> pad2 a = pad2 b -> a = b.
Proof.
  unfold pad2. intros Ha Hb H. inversion H as [[H1 H2]].
  apply digit_inj in H1;
    [|apply N.Div0.div_lt_upper_bound; lia|apply N.Div0.div_lt_upper_bound; lia].
  apply digit_inj in H2; [|apply N.mod_lt; lia|apply N.mod_lt; lia].
  rewrite (N.div_mod a 10), (N.div_mod b 10) by lia. now rewrite H1, H2.
Qed.

Lemma length_pad2 n : String.length (pad2 n) = 2%nat.
Proof. reflexivity. Qed.

Lemma length_strftime_session t : String.length (strftime_session t) = 15%nat.
Proof. reflexivity. Qed.

Lemma valid_datetime_bounds t :
  valid_datetime t = true ->
  year t < 10000 /\ month t < 100 /\ day t < 100 /\
  hour t < 100 /\ minute t < 100 /\ second t < 100.
Proof.
  unfold valid_datetime. rewrite !andb_true_iff.
  rewrite !N.leb_le, !N.ltb_lt. lia.
Qed.

Lemma strftime_session_inj t1 t2 :
  valid_datetime t1 = true -> valid_datetime t2 = true ->
  strftime_session t1 = strftime_session t2 ->
  to_the_second t1 = to_the_second t2.
Proof.
  intros V1 V2 H.
  apply valid_datetime_bounds in V1, V2.
  destruct V1 as (Y1 & M1 & D1 & h1 & m1 & s1).
  destruct V2 as (Y2 & M2 & D2 & h2 & m2 & s2).
  unfold strftime_session, pad4 in H. cbn [pad2 append] in H.
  inversion H as [[Ya Yb Yc Yd Ma Mb Da Db ha hb ma mb sa sb]].
  assert (Hhi : year t1 / 100 = year t2 / 100).
  { apply pad2_inj; [apply N.Div0.div_lt_upper_bound; lia
                    |apply N.Div0.div_lt_upper_bound; lia|].
    unfold pad2. now rewrite Ya, Yb. }
  assert (Hlo : year t1 mod 100 = year t2 mod 100).
  { apply pad2_inj; [apply N.mod_lt; lia|apply N.mod_lt; lia|].
    unfold pad2. now rewrite Yc, Yd. }
  assert (HY : year t1 = year t2).
  { rewrite (N.div_mod (year t1) 100), (N.div_mod (year t2) 100) by lia.
    now rewrite Hhi, Hlo. }
  assert (HM : month t1 = month t2)
    by (apply pad2_inj; try assumption; unfold pad2; now rewrite Ma, Mb).
  assert (HD : day t1 = day t2)
    by (apply pad2_inj; try assumption; unfold pad2; now rewrite Da, Db).
  assert (Hh : hour t1 = hour t2)
    by (apply pad2_inj; try assumption; unfold pad2; now rewrite ha, hb).
  assert (Hm : minute t1 = minute t2)
    by (apply pad2_inj; try assumption; unfold pad2; now rewrite ma, mb).
  assert (Hs : second t1 = second t2)
    by (apply pad2_inj; try assumption; unfold pad2; now rewrite sa, sb).
  unfold to_the_second. congruence.
Qed.

Lemma strftime_session_of_second t1 t2 :
  to_the_second t1 = to_the_second t2 -> strftime_session t1 = strftime_session t2.
Proof.
  unfold to_the_second, strftime_session. intros H. inversion H. congruence.
Qed.

End SessionIds.

Lemma length_append (a b : string) :
  String.length (a ++ b) = (String.length a + String.length b)%nat.
Proof. induction a as [|c a IH]; simpl; [reflexivity|now rewrite IH]. Qed.

(** Two concatenations with tails of one length agree part by part. *)
Lemma append_inj_tail (a b c d : string) :
  String.length c = String.length d -> a ++ c = b ++ d -> a = b /\ c = d.
Proof.
  revert b. induction a as [|x a IH]; intros [|y b] Hlen H; simpl in H.
  - now split.
  - exfalso. subst c. simpl in Hlen. rewrite length_append in Hlen. lia.
  - exfalso. subst d. simpl in Hlen. rewrite length_append in Hlen. lia.
  - inversion H as [[Hx Hrest]]. destruct (IH b Hlen Hrest) as [-> ->]. now split.
Qed.

(** C4, as the code has it: the session id is the course code, an
    underscore and the clock reading cut to the second, so two lecturer
    cards get the same id exactly when they belong to one course code and
    fall in one second of the clock. *)
Theorem derive_session_id_same_iff :
  forall c1 c2 t1 t2,
    valid_datetime t1 = true -> valid_datetime t2 = true ->
    (derive_session_id c1 t1 = derive_session_id c2 t2 <->
     c1 = c2 /\ to_the_second t1 = to_the_second t2).
Proof.
  intros c1 c2 t1 t2 V1 V2. unfold derive_session_id. split.
  - intros H.
    assert (Hlen : String.length ("_" ++ strftime_session t1) =
                   String.length ("_" ++ strftime_session t2)) by reflexivity.
    destruct (append_inj_tail c1 c2 _ _ Hlen H) as [Hc Ht].
    split; [exact Hc|].
    destruct (append_inj_tail "_" "_" (strftime_session t1) (strftime_session t2)
                eq_refl Ht) as [_ Hts].
    now apply strftime_session_inj.
  - intros [-> Ht]. now rewrite (strftime_session_of_second t1 t2 Ht).
Qed.

Lemma derive_session_id_same_iff_witness :
  derive_session_id "CS101" (at_time 9 1 0 100000) =
  derive_session_id "CS101" (at_time 9 1 0 800000) <->
  "CS101" = "CS101" /\
  to_the_second (at_time 9 1 0 100000) = to_the_second (at_time 9 1 0 800000).
Proof.
  apply (derive_session_id_same_iff "CS101" "CS101"
           (at_time 9 1 0 100000) (at_time 9 1 0 800000)); reflexivity.
Defined.

(** C4 as the specification words it fails: Dr Chen's card is read twice,
    0.7 s apart inside one second of the clock (nobody is staged, so no
    verification separates the two reads), and both sessions get one id. *)
Lemma two_sessions_one_id :
  at_time 9 1 0 100000 <> at_time 9 1 0 800000 /\
  snd (fst (mark_attendance_rfid enrolled
              [ tap 900 (at_time 9 1 0 100000) nobody;
                tap 900 (at_time 9 1 0 800000) nobody ])) =
  [ SessionStarted "CS101_20250314_090100" [];
    SessionStarted "CS101_20250314_090100" [] ].
Proof. split; [discriminate|]. vm_compute. reflexivity. Qed.

(* ================================================================== *)
(** * Errors inside the intake loop (C5) *)
(* ================================================================== *)

(** The only exception of the model that leaves the loop body is the
    refused session document; the state is then the one before the card. *)
Lemma loop_body_raised st e st' :
  loop_body st e = Raised st' ->
  st' = st /\ ev_session_set_ok e = false /\
  exists lecturer,
    find (fun r => l_rfid_id r =? str (ev_rfid e)) (lecturers st) = Some lecturer.
Proof.
  unfold loop_body.
  destruct (find _ (lecturers st)) as [lecturer|].
  - destruct (ev_session_set_ok e).
    + destruct (verify_attendance _ _ _). discriminate.
    + intros H. inversion H. repeat split. now exists lecturer.
  - destruct (find _ (students st)); [|discriminate].
    destruct (dict_in _ _); [discriminate|].
    destruct (dict_in _ _); discriminate.
Qed.

(** A refused INSERT ends the pass on the spot: the rows of the students
    before it are in the log, nothing is written for it or after it. *)
Lemma verify_loop_aborts session env uid data after before :
  forall st,
    (forall k, In k (keys before) ->
               has_student st k = true /\ insert_ok (env k) = true) ->
    has_student st uid = true ->
    insert_ok (env uid) = false ->
    exists st',
      verify_loop st session env (before ++ (uid, data) :: after)%list =
        (st', (pass_lines session env before ++
               [VerifyingFace uid; FaceRecognitionError])%list) /\
      attendance_log st' =
        (attendance_log st ++ pass_records session env before)%list.
Proof.
  induction before as [|[k v] rest IH]; intros st Hbefore Hrow Hins; simpl.
  - unfold has_student in Hrow.
    destruct (find _ (students st)); [|discriminate].
    rewrite Hins. exists st. now rewrite app_nil_r.
  - destruct (Hbefore k (or_introl eq_refl)) as [Hk Hkins].
    unfold has_student in Hk.
    destruct (find _ (students st)) eqn:Hf; [|discriminate].
    rewrite Hkins.
    match goal with
    | |- context [verify_loop (log_attendance_to_firebase ?a ?b ?c ?d ?f) _ _ _] =>
        destruct (log_attendance_to_firebase_frame a b c d f)
          as [(_ & _ & _ & _ & Hs & _) Hlog];
        set (st2 := log_attendance_to_firebase a b c d f) in *
    end.
    destruct (IH st2) as (st' & Hv & Hl).
    + intros k' Hk'. rewrite (has_student_same_students st st2 k' Hs).
      apply Hbefore. now right.
    + now rewrite (has_student_same_students st st2 uid Hs).
    + exact Hins.
    + exists st'. rewrite Hv. split; [reflexivity|].
      rewrite Hl, Hlog. simpl. rewrite <- app_assoc. reflexivity.
Qed.

(** C5, as the code has it.  For a lecturer card: when Firestore refuses
    the session document, the exception is caught by the handler around the
    loop, so the call returns with the state untouched and the cards that
    follow are not read.  When SQLite refuses the INSERT of one student, the
    handler inside the verification pass ends the pass: the rows written
    before stay, that student and all later ones get no row, the loop goes
    on with the new dictionary emptied. *)
Theorem errors_end_the_loop_or_the_pass :
  forall st e lecturer,
    find (fun r => l_rfid_id r =? str (ev_rfid e)) (lecturers st) = Some lecturer ->
    (ev_session_set_ok e = false ->
       forall rest, mark_attendance_rfid st (e :: rest) = (st, [], ErrorLogged)) /\
    (ev_session_set_ok e = true ->
       forall before uid data after,
         dict_update (persistent_rfid_attendance st) (new_rfid_attendance st) =
           (before ++ (uid, data) :: after)%list ->
         (forall k, In k (keys before) ->
                    has_student st k = true /\ insert_ok (ev_verify e k) = true) ->
         has_student st uid = true ->
         insert_ok (ev_verify e uid) = false ->
         exists st',
           loop_body st e =
             Continue st'
               (SessionStarted
                  (derive_session_id (l_course_code lecturer) (ev_clock e))
                  (pass_lines (derive_session_id (l_course_code lecturer) (ev_clock e))
                              (ev_verify e) before ++
                   [VerifyingFace uid; FaceRecognitionError])%list) /\
           attendance_log st' =
             (attendance_log st ++
              pass_records (derive_session_id (l_course_code lecturer) (ev_clock e))
                           (ev_verify e) before)%list /\
           new_rfid_attendance st' = [] /\
           persistent_rfid_attendance st' = (before ++ (uid, data) :: after)%list /\
           forall rest,
             mark_attendance_rfid st (e :: rest) =
               let '(st'', os, x) := mark_attendance_rfid st' rest in
               (st'',
                SessionStarted
                  (derive_session_id (l_course_code lecturer) (ev_clock e))
                  (pass_lines (derive_session_id (l_course_code lecturer) (ev_clock e))
                              (ev_verify e) before ++
                   [VerifyingFace uid; FaceRecognitionError])%list :: os,
                x)).
Proof.
  intros st e lecturer Hl. split.
  - intros Hok rest. simpl. unfold loop_body. now rewrite Hl, Hok.
  - intros Hok before uid data after Hmerged Hbefore Hrow Hins.
    pose proof (loop_body_lecturer st e lecturer Hl Hok) as Hb. cbv zeta in Hb.
    change (persistent_rfid_attendance (open_session st e lecturer))
      with (dict_update (persistent_rfid_attendance st) (new_rfid_attendance st))
      in Hb.
    rewrite Hmerged in Hb.
    destruct (verify_loop_aborts
                (derive_session_id (l_course_code lecturer) (ev_clock e))
                (ev_verify e) uid data after before
                (open_session st e lecturer)) as (st4 & Hv & Hlog).
    + intros k Hk. destruct (Hbefore k Hk) as [H1 H2]. split; [|exact H2].
      rewrite <- H1. now apply has_student_same_students.
    + rewrite <- Hrow. now apply has_student_same_students.
    + exact Hins.
    + rewrite Hv in Hb. apply verify_loop_frame in Hv.
      destruct Hv as (_ & _ & Hp & _).
      exists (set_new st4 []).
      split; [exact Hb|]. split; [exact Hlog|]. split; [reflexivity|].
      split; [simpl; rewrite Hp; exact Hmerged|].
      intros rest. simpl. now rewrite Hb.
Qed.

Lemma errors_end_the_loop_or_the_pass_witness :
  mark_attendance_rfid after_arrivals
    [offline roll_call; tap 101 (at_time 9 2 0 0) nobody] =
    (after_arrivals, [], ErrorLogged) /\
  exists st',
    loop_body after_arrivals (insert_fails_for [s_unique_id alice_row] roll_call) =
      Continue st'
        (SessionStarted
           (derive_session_id (l_course_code dr_chen)
              (ev_clock (insert_fails_for [s_unique_id alice_row] roll_call)))
           (pass_lines
              (derive_session_id (l_course_code dr_chen)
                 (ev_clock (insert_fails_for [s_unique_id alice_row] roll_call)))
              (ev_verify (insert_fails_for [s_unique_id alice_row] roll_call)) [] ++
            [VerifyingFace (s_unique_id alice_row); FaceRecognitionError])%list) /\
    attendance_log st' =
      (attendance_log after_arrivals ++
       pass_records
         (derive_session_id (l_course_code dr_chen)
            (ev_clock (insert_fails_for [s_unique_id alice_row] roll_call)))
         (ev_verify (insert_fails_for [s_unique_id alice_row] roll_call)) [])%list /\
    new_rfid_attendance st' = [] /\
    persistent_rfid_attendance st' =
      ([] ++ (s_unique_id alice_row,
              {| e_name := "Alice"; e_rfid_time := "09:00:01" |}) ::
             [(s_unique_id bob_row,
               {| e_name := "Bob"; e_rfid_time := "09:00:05" |})])%list.
Proof.
  split.
  - apply (errors_end_the_loop_or_the_pass after_arrivals (offline roll_call) dr_chen).
    + vm_compute. reflexivity.
    + reflexivity.
  - destruct (errors_end_the_loop_or_the_pass after_arrivals
                (insert_fails_for [s_unique_id alice_row] roll_call) dr_chen)
      as [_ Hpass].
    + vm_compute. reflexivity.
    + destruct (Hpass eq_refl []
                  (s_unique_id alice_row)
                  {| e_name := "Alice"; e_rfid_time := "09:00:01" |}
                  [(s_unique_id bob_row,
                    {| e_name := "Bob"; e_rfid_time := "09:00:05" |})])
        as (st' & H1 & H2 & H3 & H4 & _).
      * vm_compute. reflexivity.
      * intros k [].
      * vm_compute. reflexivity.
      * vm_compute. reflexivity.
      * exists st'. repeat split; assumption.
Defined.

(** C5 as the specification words it fails twice.  A refused session
    document ends the loop: Alice's card, held to the reader afterwards, is
    never read.  And when the INSERT of Alice's row is refused, Bob, who
    comes after her and whose INSERT would have been accepted, gets no row. *)
Lemma one_error_stops_the_others :
  mark_attendance_rfid after_arrivals
    [offline roll_call; tap 101 (at_time 9 2 0 0) nobody] =
    (after_arrivals, [], ErrorLogged) /\
  insert_ok (ev_verify (insert_fails_for [alice] roll_call) bob) = true /\
  snd (fst (mark_attendance_rfid after_arrivals [insert_fails_for [alice] roll_call])) =
    [SessionStarted "CS101_20250314_090100" [VerifyingFace alice; FaceRecognitionError]] /\
  attendance_log
    (fst (fst (mark_attendance_rfid after_arrivals [insert_fails_for [alice] roll_call])))
  = [].
Proof. vm_compute. repeat split. Qed.

(* ================================================================== *)
(** * The local log does not depend on the mirror (C6) *)
(* ================================================================== *)

Lemma local_view_fields st1 st2 :
  local_view st1 = local_view st2 ->
  current_session st1 = current_session st2 /\
  temp_attendance st1 = temp_attendance st2 /\
  persistent_rfid_attendance st1 = persistent_rfid_attendance st2 /\
  new_rfid_attendance st1 = new_rfid_attendance st2 /\
  students st1 = students st2 /\
  lecturers st1 = lecturers st2 /\
  attendance_log st1 = attendance_log st2.
Proof.
  intros H.
  pose proof (f_equal current_session H).
  pose proof (f_equal temp_attendance H).
  pose proof (f_equal persistent_rfid_attendance H).
  pose proof (f_equal new_rfid_attendance H).
  pose proof (f_equal students H).
  pose proof (f_equal lecturers H).
  pose proof (f_equal attendance_log H).
  repeat split; assumption.
Qed.

Lemma local_view_of_fields st1 st2 :
  current_session st1 = current_session st2 ->
  temp_attendance st1 = temp_attendance st2 ->
  persistent_rfid_attendance st1 = persistent_rfid_attendance st2 ->
  new_rfid_attendance st1 = new_rfid_attendance st2 ->
  students st1 = students st2 ->
  lecturers st1 = lecturers st2 ->
  attendance_log st1 = attendance_log st2 ->
  local_view st1 = local_view st2.
Proof.
  unfold local_view, set_firebase. intros. f_equal; assumption.
Qed.

Lemma local_view_log_attendance_to_firebase st v uid name status :
  local_view (log_attendance_to_firebase st v uid name status) = local_view st.
Proof.
  unfold log_attendance_to_firebase.
  destruct (find _ (students st)); [|reflexivity].
  destruct (current_session st); [|reflexivity].
  destruct (firebase_ok v); reflexivity.
Qed.

Lemma attendance_record_mirror session v1 v2 uid data :
  face_verified v1 = face_verified v2 ->
  verify_time v1 = verify_time v2 ->
  attendance_record session v1 uid data = attendance_record session v2 uid data.
Proof. unfold attendance_record. now intros -> ->. Qed.

Lemma verify_loop_mirror session env1 env2 items :
  (forall uid,
     face_verified (env1 uid) = face_verified (env2 uid) /\
     verify_time (env1 uid) = verify_time (env2 uid) /\
     insert_ok (env1 uid) = insert_ok (env2 uid)) ->
  forall st1 st2,
    local_view st1 = local_view st2 ->
    local_view (fst (verify_loop st1 session env1 items)) =
    local_view (fst (verify_loop st2 session env2 items)) /\
    snd (verify_loop st1 session env1 items) =
    snd (verify_loop st2 session env2 items).
Proof.
  intros Henv.
  induction items as [|[uid data] rest IH]; intros st1 st2 Hview; simpl.
  - now split.
  - destruct (local_view_fields st1 st2 Hview) as (Hc & Ht & Hp & Hn & Hs & Hl & Hlog).
    destruct (Henv uid) as (Hface & Htime & Hins).
    rewrite Hs.
    destruct (find _ (students st2)) as [row|].
    + rewrite Hins. destruct (insert_ok (env2 uid)).
      * match goal with
        | |- context [verify_loop ?a session env1 rest] => set (s1 := a)
        end.
        match goal with
        | |- context [verify_loop ?a session env2 rest] => set (s2 := a)
        end.
        assert (Hv : local_view s1 = local_view s2).
        { subst s1 s2. rewrite !local_view_log_attendance_to_firebase.
          apply local_view_of_fields; simpl; try assumption.
          now rewrite Hlog, (attendance_record_mirror session _ _ uid data Hface Htime). }
        destruct (IH s1 s2 Hv) as [IH1 IH2].
        destruct (verify_loop s1 session env1 rest) as [a1 o1].
        destruct (verify_loop s2 session env2 rest) as [a2 o2].
        simpl in *. split; [exact IH1|]. now rewrite IH2, Hface.
      * simpl. now split.
    + destruct (IH st1 st2 Hview) as [IH1 IH2].
      destruct (verify_loop st1 session env1 rest) as [a1 o1].
      destruct (verify_loop st2 session env2 rest) as [a2 o2].
      simpl in *. split; [exact IH1|]. now rewrite IH2.
Qed.

Lemma verify_attendance_mirror env1 env2 d st1 st2 :
  (forall uid,
     face_verified (env1 uid) = face_verified (env2 uid) /\
     verify_time (env1 uid) = verify_time (env2 uid) /\
     insert_ok (env1 uid) = insert_ok (env2 uid)) ->
  local_view st1 = local_view st2 ->
  local_view (fst (verify_attendance st1 env1 d)) =
  local_view (fst (verify_attendance st2 env2 d)) /\
  snd (verify_attendance st1 env1 d) = snd (verify_attendance st2 env2 d).
Proof.
  intros Henv Hview. unfold verify_attendance.
  destruct (local_view_fields st1 st2 Hview) as (Hc & _). rewrite Hc.
  destruct (current_session st2) as [session|]; [|now split].
  destruct (session =? ""); [now split|].
  now apply verify_loop_mirror.
Qed.

Lemma loop_body_mirror st1 st2 e1 e2 :
  local_view st1 = local_view st2 ->
  mirror_variant e1 e2 ->
  same_locally (loop_body st1 e1) (loop_body st2 e2).
Proof.
  intros Hview (Hrfid & Hclock & Hstart & Hset & Henv).
  destruct (local_view_fields st1 st2 Hview) as (Hc & Ht & Hp & Hn & Hs & Hl & Hlog).
  unfold loop_body. rewrite Hrfid, Hl, Hs, Hp, Hn, Hclock, Hset.
  destruct (find _ (lecturers st2)) as [lecturer|].
  - destruct (ev_session_set_ok e2); [|exact Hview].
    assert (Hopen : local_view (open_session st1 e1 lecturer) =
                    local_view (open_session st2 e2 lecturer)).
    { apply local_view_of_fields; simpl; try assumption.
      - now rewrite Hclock.
      - now rewrite Hp, Hn. }
    assert (Hd : persistent_rfid_attendance (open_session st1 e1 lecturer) =
                 persistent_rfid_attendance (open_session st2 e2 lecturer)).
    { simpl. now rewrite Hp, Hn. }
    rewrite Hd.
    destruct (verify_attendance_mirror (ev_verify e1) (ev_verify e2)
                (persistent_rfid_attendance (open_session st2 e2 lecturer))
                _ _ Henv Hopen) as [Hv Ho].
    destruct (verify_attendance (open_session st1 e1 lecturer) _ _) as [a1 o1].
    destruct (verify_attendance (open_session st2 e2 lecturer) _ _) as [a2 o2].
    simpl in Hv, Ho. simpl. subst o2. split; [|reflexivity].
    destruct (local_view_fields a1 a2 Hv) as (? & ? & ? & ? & ? & ? & ?).
    apply local_view_of_fields; simpl; first [assumption|reflexivity].
  - destruct (find _ (students st2)) as [student|]; simpl; [|now split].
    destruct (dict_in _ (persistent_rfid_attendance st2)); simpl; [now split|].
    destruct (dict_in _ (new_rfid_attendance st2)); simpl; [now split|].
    split; [|reflexivity].
    apply local_view_of_fields; simpl; first [assumption|reflexivity].
Qed.

Lemma mark_attendance_rfid_mirror taps1 taps2 :
  Forall2 mirror_variant taps1 taps2 ->
  forall st1 st2,
    local_view st1 = local_view st2 ->
    local_view (fst (fst (mark_attendance_rfid st1 taps1))) =
    local_view (fst (fst (mark_attendance_rfid st2 taps2))) /\
    snd (fst (mark_attendance_rfid st1 taps1)) =
    snd (fst (mark_attendance_rfid st2 taps2)) /\
    snd (mark_attendance_rfid st1 taps1) = snd (mark_attendance_rfid st2 taps2).
Proof.
  induction 1 as [|e1 e2 rest1 rest2 He Hrest IH]; intros st1 st2 Hview; simpl.
  - now repeat split.
  - pose proof (loop_body_mirror st1 st2 e1 e2 Hview He) as Hb.
    destruct (loop_body st1 e1) as [s1 o1|s1], (loop_body st2 e2) as [s2 o2|s2];
      simpl in Hb; try contradiction.
    + destruct Hb as [Hs ->]. destruct (IH s1 s2 Hs) as (H1 & H2 & H3).
      destruct (mark_attendance_rfid s1 rest1) as [[a1 os1] x1].
      destruct (mark_attendance_rfid s2 rest2) as [[a2 os2] x2].
      simpl in *. repeat split; congruence.
    + simpl. now repeat split.
Qed.

Lemma mirror_variant_refl e : mirror_variant e e.
Proof. unfold mirror_variant. repeat split. Qed.

Lemma mirror_variant_mirror_down e : mirror_variant e (mirror_down e).
Proof. unfold mirror_variant. repeat split. Qed.

(** C6, as the code has it.  The mirror write of a record never decides
    about the local record.  First, two runs of the intake loop over the same
    cards, clock, camera, SQLite answers and session-document writes, which
    differ only in what Firestore does with the attendance documents, write
    the same rows to the local log, leave the same staging dictionaries, print
    the same lines and end the same way.  Second, at a lecturer card whose
    session document Firestore accepts and whose INSERTs SQLite accepts, the
    pass writes exactly one row for every staged student, with the status the
    camera decides, and the same rows whatever Firestore answers to the
    attendance documents. *)
Theorem local_records_survive_mirror_failures :
  (forall st taps1 taps2,
     Forall2 mirror_variant taps1 taps2 ->
     attendance_log (fst (fst (mark_attendance_rfid st taps1))) =
     attendance_log (fst (fst (mark_attendance_rfid st taps2))) /\
     local_view (fst (fst (mark_attendance_rfid st taps1))) =
     local_view (fst (fst (mark_attendance_rfid st taps2))) /\
     snd (fst (mark_attendance_rfid st taps1)) =
     snd (fst (mark_attendance_rfid st taps2)) /\
     snd (mark_attendance_rfid st taps1) = snd (mark_attendance_rfid st taps2)) /\
  (forall ss ls log fb choices taps e e' lecturer,
     find (fun r => l_rfid_id r =? str (ev_rfid e))
          (lecturers (reached ss ls log fb choices taps)) = Some lecturer ->
     ev_session_set_ok e = true ->
     (forall uid, staged (reached ss ls log fb choices taps) uid = true ->
                  insert_ok (ev_verify e uid) = true) ->
     mirror_variant e e' ->
     exists st1 st2 out written,
       loop_body (reached ss ls log fb choices taps) e =
         Continue st1 (SessionStarted
                         (derive_session_id (l_course_code lecturer) (ev_clock e)) out) /\
       loop_body (reached ss ls log fb choices taps) e' =
         Continue st2 (SessionStarted
                         (derive_session_id (l_course_code lecturer) (ev_clock e)) out) /\
       attendance_log st1 =
         (attendance_log (reached ss ls log fb choices taps) ++ written)%list /\
       attendance_log st2 =
         (attendance_log (reached ss ls log fb choices taps) ++ written)%list /\
       local_view st1 = local_view st2 /\
       forall uid,
         staged (reached ss ls log fb choices taps) uid = true ->
         exists r,
           records_for uid (derive_session_id (l_course_code lecturer) (ev_clock e))
                       written = [r] /\
           a_status r =
             if face_verified (ev_verify e uid) then "present" else "partial").
Proof.
  split.
  - intros st taps1 taps2 H.
    destruct (mark_attendance_rfid_mirror taps1 taps2 H st st eq_refl) as (H1 & H2 & H3).
    split; [|now repeat split].
    now destruct (local_view_fields _ _ H1) as (_ & _ & _ & _ & _ & _ & Hlog).
  - intros ss ls log fb choices taps e e' lecturer Hl Hok Hins Hvar.
    pose proof (reached_consistent ss ls log fb choices taps) as Hc.
    set (st := reached ss ls log fb choices taps) in *.
    set (sid := derive_session_id (l_course_code lecturer) (ev_clock e)).
    destruct (lecturer_pass_records st e lecturer Hc Hl Hok Hins) as (st1 & Hb & Hlog).
    cbv zeta in Hb, Hlog. fold sid in Hb, Hlog.
    set (merged := dict_update (persistent_rfid_attendance st) (new_rfid_attendance st)) in *.
    pose proof (loop_body_mirror st st e e' eq_refl Hvar) as Hm.
    rewrite Hb in Hm.
    destruct (loop_body st e') as [st2 o2|st2]; simpl in Hm; [|contradiction].
    destruct Hm as [Hview <-].
    exists st1, st2, (pass_lines sid (ev_verify e) merged),
           (pass_records sid (ev_verify e) merged).
    split; [exact Hb|]. split; [reflexivity|]. split; [exact Hlog|].
    split.
    { destruct (local_view_fields _ _ Hview) as (_ & _ & _ & _ & _ & _ & Hsame).
      now rewrite <- Hsame. }
    split; [exact Hview|].
    intros uid Hst. apply staged_merged in Hst. fold merged in Hst.
    unfold keys in Hst. apply in_map_iff in Hst.
    destruct Hst as ([k data] & Hk & Hin). simpl in Hk. subst k.
    assert (Hnd : NoDup (keys merged)).
    { apply NoDup_keys_update. apply Hc. }
    exists (attendance_record sid (ev_verify e uid) uid data).
    split; [now apply records_for_present|reflexivity].
Qed.

Lemma local_records_survive_mirror_failures_witness :
  (attendance_log
     (fst (fst (mark_attendance_rfid enrolled (arrivals ++ [roll_call])))) =
   attendance_log
     (fst (fst (mark_attendance_rfid enrolled (arrivals ++ [mirror_down roll_call])))) /\
   local_view
     (fst (fst (mark_attendance_rfid enrolled (arrivals ++ [roll_call])))) =
   local_view
     (fst (fst (mark_attendance_rfid enrolled (arrivals ++ [mirror_down roll_call])))) /\
   snd (fst (mark_attendance_rfid enrolled (arrivals ++ [roll_call]))) =
   snd (fst (mark_attendance_rfid enrolled (arrivals ++ [mirror_down roll_call]))) /\
   snd (mark_attendance_rfid enrolled (arrivals ++ [roll_call])) =
   snd (mark_attendance_rfid enrolled (arrivals ++ [mirror_down roll_call]))) /\
  exists st1 st2 out written,
    loop_body (reached [] [] [] []
                 [ Choice1 101 "Alice" camera_ok; Choice1 102 "Bob" camera_ok;
                   Choice2 900 "Dr Chen" "Algorithms" "CS101" ] arrivals) roll_call =
      Continue st1 (SessionStarted
                      (derive_session_id (l_course_code dr_chen) (ev_clock roll_call)) out) /\
    loop_body (reached [] [] [] []
                 [ Choice1 101 "Alice" camera_ok; Choice1 102 "Bob" camera_ok;
                   Choice2 900 "Dr Chen" "Algorithms" "CS101" ] arrivals)
              (mirror_down roll_call) =
      Continue st2 (SessionStarted
                      (derive_session_id (l_course_code dr_chen) (ev_clock roll_call)) out) /\
    attendance_log st1 =
      (attendance_log (reached [] [] [] []
                 [ Choice1 101 "Alice" camera_ok; Choice1 102 "Bob" camera_ok;
                   Choice2 900 "Dr Chen" "Algorithms" "CS101" ] arrivals) ++ written)%list /\
    attendance_log st2 =
      (attendance_log (reached [] [] [] []
                 [ Choice1 101 "Alice" camera_ok; Choice1 102 "Bob" camera_ok;
                   Choice2 900 "Dr Chen" "Algorithms" "CS101" ] arrivals) ++ written)%list /\
    local_view st1 = local_view st2 /\
    forall uid,
      staged (reached [] [] [] []
                 [ Choice1 101 "Alice" camera_ok; Choice1 102 "Bob" camera_ok;
                   Choice2 900 "Dr Chen" "Algorithms" "CS101" ] arrivals) uid = true ->
      exists r,
        records_for uid (derive_session_id (l_course_code dr_chen) (ev_clock roll_call))
                    written = [r] /\
        a_status r =
          if face_verified (ev_verify roll_call uid) then "present" else "partial".
Proof.
  destruct local_records_survive_mirror_failures as [Hruns Hpass].
  split.
  - apply (Hruns enrolled (arrivals ++ [roll_call])%list
                 (arrivals ++ [mirror_down roll_call])%list).
    repeat constructor;
      first [apply mirror_variant_refl | apply mirror_variant_mirror_down].
  - apply (Hpass [] [] [] []
             [ Choice1 101 "Alice" camera_ok; Choice1 102 "Bob" camera_ok;
               Choice2 900 "Dr Chen" "Algorithms" "CS101" ] arrivals
             roll_call (mirror_down roll_call) dr_chen).
    + vm_compute. reflexivity.
    + reflexivity.
    + intros uid _. reflexivity.
    + apply mirror_variant_mirror_down.
Defined.

(** C6 as the specification words it fails at the other remote write of the
    pass.  With Firestore unreachable when Dr Chen's card is read, the
    session document of line 351 is refused, the exception leaves the loop
    before the verification, and neither Alice nor Bob, who had both tapped,
    gets a local row; with Firestore reachable the same taps give both
    their rows. *)
Lemma remote_outage_prevents_local_records :
  staged after_arrivals alice = true /\
  staged after_arrivals bob = true /\
  map a_unique_id
    (attendance_log (fst (fst (mark_attendance_rfid enrolled (arrivals ++ [roll_call])))))
  = [alice; bob] /\
  mark_attendance_rfid enrolled (arrivals ++ [mirror_down (offline roll_call)]) =
    (after_arrivals, [NewCheckIn; NewCheckIn], ErrorLogged) /\
  attendance_log
    (fst (fst (mark_attendance_rfid enrolled
                 (arrivals ++ [mirror_down (offline roll_call)])))) = [].
Proof. vm_compute. repeat split. Qed.

(** The mirror did differ in that run: with Firestore down no attendance
    document is written, while the local log has both rows. *)
Example mirror_down_changes_the_mirror_only :
  firebase (fst (fst (mark_attendance_rfid enrolled (arrivals ++ [mirror_down roll_call])))) =
    [LectureDoc "CS101_20250314_090100" "Algorithms" "CS101" "Dr Chen" "900"
       "2025-03-14T09:01:00" "active"] /\
  map a_status
    (attendance_log
       (fst (fst (mark_attendance_rfid enrolled (arrivals ++ [mirror_down roll_call])))))
  = ["present"; "partial"] /\
  List.length
    (firebase (fst (fst (mark_attendance_rfid enrolled (arrivals ++ [roll_call]))))) = 3%nat.
Proof. vm_compute. repeat split. Qed.

(* ================================================================== *)
(** * The operator's interrupt (C7) *)
(* ================================================================== *)

(** The handler of [run] resets the session and the unused dictionary
    [temp_attendance]; the two staging dictionaries are not touched. *)
Lemma on_keyboard_interrupt_fields st :
  current_session (on_keyboard_interrupt st) = None /\
  temp_attendance (on_keyboard_interrupt st) = [] /\
  persistent_rfid_attendance (on_keyboard_interrupt st) = persistent_rfid_attendance st /\
  new_rfid_attendance (on_keyboard_interrupt st) = new_rfid_attendance st.
Proof. repeat split. Qed.

(** C7 at a concrete run: after the interrupt no session is current, yet
    Alice is still in the persistent dictionary and Bob in the new one, and
    the next stretch of option 3 answers Bob's card as a duplicate and
    verifies both at the lecturer's card. *)
Theorem interrupt_leaves_staging_sets :
  current_session interrupted = None /\
  temp_attendance interrupted = [] /\
  persistent_rfid_attendance interrupted =
    [(alice, {| e_name := "Alice"; e_rfid_time := "09:00:01" |})] /\
  new_rfid_attendance interrupted =
    [(bob, {| e_name := "Bob"; e_rfid_time := "09:05:00" |})] /\
  snd (fst (mark_attendance_rfid interrupted
              [ tap 102 (at_time 10 0 0 0) nobody; second_roll_call ])) =
    [ DuplicateInSession;
      SessionStarted "CS101_20250314_095000"
        [ VerifyingFace alice; FinalAttendance alice "present";
          VerifyingFace bob; FinalAttendance bob "partial" ] ].
Proof. vm_compute. repeat split. Qed.

(* ================================================================== *)
(** * Enrollment (C8) *)
(* ================================================================== *)

Lemma is_rfid_registered_spec st rfid_id :
  is_rfid_registered st rfid_id = true <->
  (exists r, In r (students st) /\ s_rfid_id r = str rfid_id) \/
  (exists r, In r (lecturers st) /\ l_rfid_id r = str rfid_id).
Proof.
  unfold is_rfid_registered. split.
  - destruct (find _ (students st)) as [r|] eqn:Hs.
    + intros _. left. apply find_some in Hs. destruct Hs as [Hin Heq].
      exists r. split; [assumption|]. now apply String.eqb_eq.
    + destruct (find _ (lecturers st)) as [r|] eqn:Hl; [|discriminate].
      intros _. right. apply find_some in Hl. destruct Hl as [Hin Heq].
      exists r. split; [assumption|]. now apply String.eqb_eq.
  - intros [[r [Hin Heq]]|[r [Hin Heq]]].
    + destruct (find_some_exists (fun x => s_rfid_id x =? str rfid_id)
                  (students st) r Hin) as [y ->]; [now apply String.eqb_eq|].
      reflexivity.
    + destruct (find_some_exists (fun x => l_rfid_id x =? str rfid_id)
                  (lecturers st) r Hin) as [y ->]; [now apply String.eqb_eq|].
      now destruct (find _ (students st)).
Qed.

(** C8: with a card that some row of either table already carries, both
    enrollments stop at the first check, print the already-registered error
    and return None with the stores untouched; with a free card, a student
    enrollment that collects fewer than two samples prints the incomplete
    error and returns None with the stores untouched. *)
Theorem enrollment_rejects_bound_card_and_too_few_samples :
  forall st rfid_id,
    ((exists r, In r (students st) /\ s_rfid_id r = str rfid_id) \/
     (exists r, In r (lecturers st) /\ l_rfid_id r = str rfid_id) ->
       (forall name cam,
          register_student st rfid_id name cam = (st, None, RfidAlreadyRegistered)) /\
       (forall name course_name course_code,
          register_lecturer st rfid_id name course_name course_code =
            (st, None, RfidAlreadyRegistered))) /\
    (is_rfid_registered st rfid_id = false ->
       forall name cam,
         (List.length (capture_face_samples cam) < 2)%nat ->
         register_student st rfid_id name cam = (st, None, FaceRegistrationIncomplete)).
Proof.
  intros st rfid_id. split.
  - intros Hbound. apply is_rfid_registered_spec in Hbound.
    split; intros; [unfold register_student|unfold register_lecturer];
      now rewrite Hbound.
  - intros Hfree name cam Hfew. unfold register_student. rewrite Hfree.
    apply Nat.ltb_lt in Hfew. rewrite Hfew. now rewrite orb_true_r.
Qed.

Lemma enrollment_rejects_bound_card_and_too_few_samples_witness :
  register_student enrolled 101 "Carol" camera_ok =
    (enrolled, None, RfidAlreadyRegistered) /\
  register_lecturer enrolled 101 "Dr Diaz" "Logic" "CS102" =
    (enrolled, None, RfidAlreadyRegistered) /\
  register_student enrolled 900 "Carol" camera_ok =
    (enrolled, None, RfidAlreadyRegistered) /\
  register_student enrolled 103 "Carol" camera_once =
    (enrolled, None, FaceRegistrationIncomplete).
Proof.
  destruct (enrollment_rejects_bound_card_and_too_few_samples enrolled 101)
    as [Hbound _].
  destruct Hbound as [Hs Hl].
  { left. exists alice_row. split; [vm_compute; now left|reflexivity]. }
  destruct (enrollment_rejects_bound_card_and_too_few_samples enrolled 900)
    as [Hbound' _].
  destruct Hbound' as [Hs' _].
  { right. exists dr_chen. split; [vm_compute; now left|reflexivity]. }
  destruct (enrollment_rejects_bound_card_and_too_few_samples enrolled 103)
    as [_ Hfew].
  split; [apply Hs|]. split; [apply Hl|]. split; [apply Hs'|].
  apply Hfew; [vm_compute; reflexivity|vm_compute; lia].
Defined.

(* ================================================================== *)
(** * Identifiers and names (C9, C10) *)
(* ================================================================== *)

Lemma length_hex_word w : String.length (SHA256.hex_word w) = 8%nat.
Proof. reflexivity. Qed.

Lemma length_hexdigest data : String.length (SHA256.hexdigest data) = 64%nat.
Proof.
  unfold SHA256.hexdigest, SHA256.digest_words.
  destruct (SHA256.blocks _ _ _) as [[[[[[[a b] c] d] e] f] g] h].
  cbn [fold_right]. rewrite !length_append, !length_hex_word. reflexivity.
Qed.

Lemma length_prefix_chars n s :
  (n <= String.length s)%nat -> String.length (prefix_chars n s) = n.
Proof.
  revert s. induction n as [|n IH]; intros s Hn; [reflexivity|].
  destruct s as [|c s]; simpl in *; [lia|]. rewrite IH; [reflexivity|lia].
Qed.

Lemma length_generate_unique_id name :
  String.length (generate_unique_id name) = 16%nat.
Proof.
  unfold generate_unique_id. apply length_prefix_chars.
  rewrite length_hexdigest. lia.
Qed.

Lemma register_student_success st rfid_id name cam st' uid m :
  register_student st rfid_id name cam = (st', Some uid, m) ->
  uid = generate_unique_id name /\
  exists row,
    In row (students st') /\ s_name row = name /\
    s_unique_id row = generate_unique_id name /\ s_rfid_id row = str rfid_id.
Proof.
  unfold register_student.
  destruct (is_rfid_registered st rfid_id); [discriminate|].
  destruct (_ || _); [discriminate|].
  unfold insert_student. destruct (existsb _ _); [discriminate|].
  intros H. inversion H; subst. split; [reflexivity|].
  eexists. split; [simpl; apply in_or_app; right; now left|]. now repeat split.
Qed.

Lemma register_lecturer_success st rfid_id name cn cc st' uid m :
  register_lecturer st rfid_id name cn cc = (st', Some uid, m) ->
  uid = generate_unique_id name.
Proof.
  unfold register_lecturer.
  destruct (is_rfid_registered st rfid_id); [discriminate|].
  unfold insert_lecturer. destruct (existsb _ _); [discriminate|].
  intros H. now inversion H.
Qed.

(** C9, as the code has it: the identifier is computed from the name and
    from nothing else.  Whatever the role, the card, the samples and the
    stores, a successful enrollment under a name returns
    [generate_unique_id] of that name, sixteen characters of its SHA-256;
    so two enrollments under one name get one identifier. *)
Theorem unique_id_depends_on_the_name_only :
  forall name st1 rfid1 cam st2 rfid2 course_name course_code,
    (forall st' uid m,
       register_student st1 rfid1 name cam = (st', Some uid, m) ->
       uid = generate_unique_id name) /\
    (forall st' uid m,
       register_lecturer st2 rfid2 name course_name course_code = (st', Some uid, m) ->
       uid = generate_unique_id name) /\
    String.length (generate_unique_id name) = 16%nat.
Proof.
  intros name st1 rfid1 cam st2 rfid2 cn cc. split; [|split].
  - intros st' uid m H. now apply register_student_success in H.
  - intros st' uid m H. now apply register_lecturer_success in H.
  - apply length_generate_unique_id.
Qed.

Lemma unique_id_depends_on_the_name_only_witness :
  alice = generate_unique_id "Alice" /\
  generate_unique_id "Alice" = generate_unique_id "Alice" /\
  String.length (generate_unique_id "Alice") = 16%nat.
Proof.
  destruct (unique_id_depends_on_the_name_only "Alice"
              empty 101 camera_ok enrolled 901 "Logic" "CS102") as (Hs & Hl & Hlen).
  split; [|split; [|exact Hlen]].
  - apply (Hs (fst (fst (register_student empty 101 "Alice" camera_ok)))
              alice SuccessfullyRegistered).
    vm_compute. reflexivity.
  - apply (Hl (fst (fst (register_lecturer enrolled 901 "Alice" "Logic" "CS102")))
              (generate_unique_id "Alice") SuccessfullyRegistered).
    vm_compute. reflexivity.
Defined.

(** C9 as the specification words it fails: a student and a lecturer, two
    people with two cards, both enter the name Alice, both enrollments
    succeed, and both get the identifier 3bc51062973c458d. *)
Lemma two_people_one_identifier :
  snd (fst (register_student empty 101 "Alice" camera_ok)) = Some "3bc51062973c458d" /\
  snd (register_student empty 101 "Alice" camera_ok) = SuccessfullyRegistered /\
  snd (fst (register_lecturer enrolled 901 "Alice" "Logic" "CS102")) =
    Some "3bc51062973c458d" /\
  snd (register_lecturer enrolled 901 "Alice" "Logic" "CS102") = SuccessfullyRegistered /\
  map s_unique_id (students (fst (fst (register_lecturer enrolled 901 "Alice" "Logic" "CS102"))))
    = ["3bc51062973c458d"; "cd9fb1e148ccd844"] /\
  map l_unique_id (lecturers (fst (fst (register_lecturer enrolled 901 "Alice" "Logic" "CS102"))))
    = ["30f0f020fc5dee38"; "3bc51062973c458d"].
Proof. vm_compute. repeat split. Qed.

Lemma loop_body_students st e :
  match loop_body st e with
  | Continue st' _ => students st' = students st
  | Raised st' => students st' = students st
  end.
Proof.
  unfold loop_body.
  destruct (find _ (lecturers st)) as [lecturer|].
  - destruct (ev_session_set_ok e); [|reflexivity].
    destruct (verify_attendance _ _ _) as [st4 out] eqn:Hv.
    apply verify_attendance_frame in Hv. simpl. apply Hv.
  - destruct (find _ (students st)); [|reflexivity].
    destruct (dict_in _ _); [reflexivity|].
    destruct (dict_in _ _); reflexivity.
Qed.

Lemma mark_attendance_rfid_students taps :
  forall st, students (fst (fst (mark_attendance_rfid st taps))) = students st.
Proof.
  induction taps as [|e rest IH]; intros st; simpl; [reflexivity|].
  pose proof (loop_body_students st e) as Hb.
  destruct (loop_body st e) as [st' o|st'].
  - specialize (IH st').
    destruct (mark_attendance_rfid st' rest) as [[s os] x]. simpl in *. congruence.
  - exact Hb.
Qed.

(** No menu choice removes a row of the students table. *)
Lemma run_keeps_students choices :
  forall st row, In row (students st) -> In row (students (run st choices)).
Proof.
  unfold run. induction choices as [|c cs IH]; intros st row Hin; simpl; [exact Hin|].
  apply IH. destruct c as [rfid name cam|rfid name cn cc|taps|]; simpl.
  - unfold register_student.
    destruct (is_rfid_registered st rfid); [exact Hin|].
    destruct (_ || _); [exact Hin|].
    unfold insert_student. destruct (existsb _ _); [exact Hin|].
    simpl. apply in_or_app. now left.
  - unfold register_lecturer.
    destruct (is_rfid_registered st rfid); [exact Hin|].
    unfold insert_lecturer. destruct (existsb _ _); exact Hin.
  - pose proof (mark_attendance_rfid_students taps st) as Hs.
    destruct (mark_attendance_rfid st taps) as [[s os] [|]]; simpl in *;
      now rewrite Hs.
  - exact Hin.
Qed.

(** With a row under the identifier of the name, no enrollment under that
    name gets as far as a commit. *)
Lemma register_student_key_taken st rfid_id name cam row :
  In row (students st) ->
  s_unique_id row = generate_unique_id name ->
  exists m,
    register_student st rfid_id name cam = (st, None, m) /\
    (is_rfid_registered st rfid_id = false ->
     (2 <= List.length (capture_face_samples cam))%nat ->
     m = RfidRegisteredToAnother).
Proof.
  intros Hin Hkey. unfold register_student.
  destruct (is_rfid_registered st rfid_id).
  - exists RfidAlreadyRegistered. split; [reflexivity|discriminate].
  - destruct (capture_face_samples cam) as [|d1 [|d2 ds]] eqn:Hcam.
    + exists FaceRegistrationIncomplete. split; [reflexivity|]. simpl. lia.
    + exists FaceRegistrationIncomplete. split; [reflexivity|]. simpl. lia.
    + exists RfidRegisteredToAnother. split; [|reflexivity].
      cbn [orb Nat.ltb Nat.leb List.length]. unfold insert_student.
      assert (Hex : existsb
                (fun x => (s_unique_id x =? generate_unique_id name)
                          || (s_rfid_id x =? str rfid_id)) (students st) = true).
      { apply existsb_exists. exists row. split; [exact Hin|].
        rewrite Hkey, String.eqb_refl. reflexivity. }
      cbn [s_unique_id s_rfid_id]. now rewrite Hex.
Qed.

(** C10: once a student is enrolled under a name, every later student
    enrollment under that name, after whatever use of the menu, returns
    None and leaves every store as it was; when the card is free and enough
    samples were taken, it is the INSERT that fails, on the primary key. *)
Theorem enrollment_under_enrolled_name_fails :
  forall st rfid1 name cam1 st1 uid m1 choices rfid2 cam2,
    register_student st rfid1 name cam1 = (st1, Some uid, m1) ->
    exists m,
      register_student (run st1 choices) rfid2 name cam2 =
        (run st1 choices, None, m) /\
      (is_rfid_registered (run st1 choices) rfid2 = false ->
       (2 <= List.length (capture_face_samples cam2))%nat ->
       m = RfidRegisteredToAnother).
Proof.
  intros st rfid1 name cam1 st1 uid m1 choices rfid2 cam2 H.
  apply register_student_success in H.
  destruct H as (_ & row & Hin & _ & Hkey & _).
  apply (register_student_key_taken _ rfid2 name cam2 row);
    [now apply run_keeps_students|exact Hkey].
Qed.

Lemma enrollment_under_enrolled_name_fails_witness :
  exists m,
    register_student
      (run (fst (fst (register_student empty 101 "Alice" camera_ok)))
           [Choice2 900 "Dr Chen" "Algorithms" "CS101"; Choice3 arrivals])
      103 "Alice" camera_ok =
      (run (fst (fst (register_student empty 101 "Alice" camera_ok)))
           [Choice2 900 "Dr Chen" "Algorithms" "CS101"; Choice3 arrivals],
       None, m) /\
    (is_rfid_registered
       (run (fst (fst (register_student empty 101 "Alice" camera_ok)))
            [Choice2 900 "Dr Chen" "Algorithms" "CS101"; Choice3 arrivals]) 103 = false ->
     (2 <= List.length (capture_face_samples camera_ok))%nat ->
     m = RfidRegisteredToAnother).
Proof.
  apply (enrollment_under_enrolled_name_fails empty 101 "Alice" camera_ok
           (fst (fst (register_student empty 101 "Alice" camera_ok)))
           alice SuccessfullyRegistered
           [Choice2 900 "Dr Chen" "Algorithms" "CS101"; Choice3 arrivals]
           103 camera_ok).
  vm_compute. reflexivity.
Defined.

(** The second Alice, with a card of her own and three good samples. *)
Example second_alice_is_turned_away :
  is_rfid_registered enrolled 103 = false /\
  List.length (capture_face_samples camera_ok) = 3%nat /\
  register_student enrolled 103 "Alice" camera_ok =
    (enrolled, None, RfidRegisteredToAnother).
Proof. vm_compute. repeat split. Qed.

(* ================================================================== *)
(** * The identity tables under enrollment *)
(* ================================================================== *)

Lemma NoDup_snoc {A : Type} (l : list A) (x : A) :
  NoDup l -> ~ In x l -> NoDup (l ++ [x]).
Proof.
  intros Hnd Hx. apply NoDup_rev in Hnd.
  rewrite <- (rev_involutive (l ++ [x])). apply NoDup_rev.
  rewrite rev_app_distr. simpl. constructor; [|assumption].
  now rewrite <- in_rev.
Qed.

Lemma find_app_none {A : Type} (f : A -> bool) (l l' : list A) :
  find f l = None -> find f (l ++ l') = find f l'.
Proof.
  induction l as [|a l IH]; simpl; [reflexivity|].
  destruct (f a); [discriminate|assumption].
Qed.

Lemma find_none_iff {A : Type} (f : A -> bool) (l : list A) :
  find f l = None <-> forall x, In x l -> f x = false.
Proof.
  split.
  - apply find_none.
  - induction l as [|a l IH]; simpl; intros H; [reflexivity|].
    rewrite (H a (or_introl eq_refl)). apply IH. intros x Hx. apply H. now right.
Qed.

(** [str] is one to one: two card numbers never share a stored text. *)
Lemma str_inj (a b : Z) : str a = str b -> a = b.
Proof.
  unfold str. intros H. apply DecimalZ.to_int_inj.
  assert (Hnz : forall z, Z.to_int z <> Decimal.Pos Decimal.Nil /\
                          Z.to_int z <> Decimal.Neg Decimal.Nil).
  { intros [|p|p]; simpl; split; try discriminate;
      intros E; injection E as E;
      now apply (DecimalPos.Unsigned.to_uint_nonnil p). }
  pose proof (NilZero.isi (Z.to_int a) (proj1 (Hnz a)) (proj2 (Hnz a))) as Ha.
  pose proof (NilZero.isi (Z.to_int b) (proj1 (Hnz b)) (proj2 (Hnz b))) as Hb.
  rewrite H in Ha. rewrite Ha in Hb. now injection Hb.
Qed.

Lemma is_rfid_registered_false st rfid_id :
  is_rfid_registered st rfid_id = false ->
  find (fun r => s_rfid_id r =? str rfid_id) (students st) = None /\
  find (fun r => l_rfid_id r =? str rfid_id) (lecturers st) = None.
Proof.
  unfold is_rfid_registered.
  destruct (find _ (students st)); [discriminate|].
  destruct (find _ (lecturers st)); [discriminate|]. now split.
Qed.

Lemma not_in_map_of_find_none {A : Type} (key : A -> string) (k : string) (l : list A) :
  find (fun r => key r =? k) l = None -> ~ In k (map key l).
Proof.
  intros Hf Hin. apply in_map_iff in Hin. destruct Hin as (r & Hk & Hr).
  rewrite find_none_iff in Hf. specialize (Hf r Hr). simpl in Hf.
  rewrite Hk, String.eqb_refl in Hf. discriminate.
Qed.

Lemma find_none_of_not_in_map {A : Type} (key : A -> string) (k : string) (l : list A) :
  ~ In k (map key l) -> find (fun r => key r =? k) l = None.
Proof.
  intros Hn. apply find_none_iff. intros r Hr. simpl.
  destruct (String.eqb_spec (key r) k) as [Heq|]; [|reflexivity].
  exfalso. apply Hn. rewrite <- Heq. now apply in_map.
Qed.







Lemma register_student_state st rfid_id name cam :
  (fst (fst (register_student st rfid_id name cam)) = st /\
   snd (fst (register_student st rfid_id name cam)) = None) \/
  (fst (fst (register_student st rfid_id name cam)) =
     set_students st (students st ++ [new_student_row rfid_id name cam])%list /\
   snd (fst (register_student st rfid_id name cam)) = Some (generate_unique_id name) /\
   is_rfid_registered st rfid_id = false /\
   ~ In (generate_unique_id name) (map s_unique_id (students st)) /\
   (2 <= List.length (capture_face_samples cam))%nat).
Proof.
  unfold register_student.
  destruct (is_rfid_registered st rfid_id) eqn:Hreg; [now left|].
  destruct (capture_face_samples cam) as [|d1 [|d2 ds]] eqn:Hcam;
    [now left|now left|].
  cbn [orb Nat.ltb Nat.leb List.length].
  unfold insert_student.
  destruct (existsb _ (students st)) eqn:Hex; [now left|].
  right. cbn [fst snd]. unfold new_student_row. rewrite Hcam.
  repeat split; [|simpl; lia].
  intros Hin. apply in_map_iff in Hin. destruct Hin as (r & Hr & Hin).
  assert (existsb
            (fun x => (s_unique_id x =? generate_unique_id name)
                      || (s_rfid_id x =? str rfid_id)) (students st) = true)
    as Hyes.
  { apply existsb_exists. exists r. split; [assumption|].
    rewrite Hr, String.eqb_refl. reflexivity. }
  cbn [s_unique_id s_rfid_id] in Hex. congruence.
Qed.

Lemma register_lecturer_state st rfid_id name cn cc :
  (fst (fst (register_lecturer st rfid_id name cn cc)) = st /\
   snd (fst (register_lecturer st rfid_id name cn cc)) = None) \/
  (fst (fst (register_lecturer st rfid_id name cn cc)) =
     set_lecturers st (lecturers st ++ [new_lecturer_row rfid_id name cn cc])%list /\
   snd (fst (register_lecturer st rfid_id name cn cc)) = Some (generate_unique_id name) /\
   is_rfid_registered st rfid_id = false /\
   ~ In (generate_unique_id name) (map l_unique_id (lecturers st))).
Proof.
  unfold register_lecturer.
  destruct (is_rfid_registered st rfid_id) eqn:Hreg; [now left|].
  unfold insert_lecturer.
  destruct (existsb _ (lecturers st)) eqn:Hex; [now left|].
  right. cbn [fst snd]. unfold new_lecturer_row. repeat split.
  intros Hin. apply in_map_iff in Hin. destruct Hin as (r & Hr & Hin).
  assert (existsb
            (fun x => (l_unique_id x =? generate_unique_id name)
                      || (l_rfid_id x =? str rfid_id)) (lecturers st) = true)
    as Hyes.
  { apply existsb_exists. exists r. split; [assumption|].
    rewrite Hr, String.eqb_refl. reflexivity. }
  cbn [l_unique_id l_rfid_id] in Hex. congruence.
Qed.

Lemma loop_body_lecturers st e :
  match loop_body st e with
  | Continue st' _ => lecturers st' = lecturers st
  | Raised st' => lecturers st' = lecturers st
  end.
Proof.
  unfold loop_body.
  destruct (find _ (lecturers st)) as [lecturer|].
  - destruct (ev_session_set_ok e); [|reflexivity].
    destruct (verify_attendance _ _ _) as [st4 out] eqn:Hv.
    apply verify_attendance_frame in Hv. simpl. apply Hv.
  - destruct (find _ (students st)); [|reflexivity].
    destruct (dict_in _ _); [reflexivity|].
    destruct (dict_in _ _); reflexivity.
Qed.

Lemma mark_attendance_rfid_lecturers taps :
  forall st, lecturers (fst (fst (mark_attendance_rfid st taps))) = lecturers st.
Proof.
  induction taps as [|e rest IH]; intros st; simpl; [reflexivity|].
  pose proof (loop_body_lecturers st e) as Hb.
  destruct (loop_body st e) as [st' o|st'].
  - specialize (IH st').
    destruct (mark_attendance_rfid st' rest) as [[s os] x]. simpl in *. congruence.
  - exact Hb.
Qed.

Lemma run_choice_tables st c :
  (students (run_choice st c) = students st /\
   lecturers (run_choice st c) = lecturers st) \/
  (exists rfid_id name cam,
     c = Choice1 rfid_id name cam /\
     students (run_choice st c) =
       (students st ++ [new_student_row rfid_id name cam])%list /\
     lecturers (run_choice st c) = lecturers st /\
     is_rfid_registered st rfid_id = false /\
     ~ In (generate_unique_id name) (map s_unique_id (students st)) /\
     (2 <= List.length (capture_face_samples cam))%nat) \/
  (exists rfid_id name cn cc,
     c = Choice2 rfid_id name cn cc /\
     students (run_choice st c) = students st /\
     lecturers (run_choice st c) =
       (lecturers st ++ [new_lecturer_row rfid_id name cn cc])%list /\
     is_rfid_registered st rfid_id = false /\
     ~ In (generate_unique_id name) (map l_unique_id (lecturers st))).
Proof.
  destruct c as [rfid name cam|rfid name cn cc|taps|]; simpl.
  - destruct (register_student_state st rfid name cam)
      as [[-> _]|(-> & _ & H1 & H2 & H3)].
    + now left.
    + right. left. exists rfid, name, cam. now repeat split.
  - destruct (register_lecturer_state st rfid name cn cc)
      as [[-> _]|(-> & _ & H1 & H2)].
    + now left.
    + right. right. exists rfid, name, cn, cc. now repeat split.
  - left.
    pose proof (mark_attendance_rfid_students taps st) as Hs.
    pose proof (mark_attendance_rfid_lecturers taps st) as Hl.
    destruct (mark_attendance_rfid st taps) as [[s os] [|]]; simpl in *; now split.
  - now left.
Qed.

Lemma run_choice_tables_consistent st c :
  tables_consistent st -> tables_consistent (run_choice st c).
Proof.
  intros (Hsi & Hsr & Hli & Hlr & Hx).
  destruct (run_choice_tables st c)
    as [[Hs Hl]|[(rfid & name & cam & _ & Hs & Hl & Hreg & Hid & _)
                |(rfid & name & cn & cc & _ & Hs & Hl & Hreg & Hid)]];
    unfold tables_consistent; rewrite Hs, Hl.
  - now repeat split.
  - destruct (is_rfid_registered_false st rfid Hreg) as [Hfs Hfl].
    apply not_in_map_of_find_none in Hfs, Hfl.
    rewrite !map_app. simpl. repeat split; try assumption.
    + now apply NoDup_snoc.
    + now apply NoDup_snoc.
    + intros card Hin. apply in_app_or in Hin. destruct Hin as [Hin|[<-|[]]].
      * now apply Hx.
      * exact Hfl.
  - destruct (is_rfid_registered_false st rfid Hreg) as [Hfs Hfl].
    apply not_in_map_of_find_none in Hfs, Hfl.
    rewrite !map_app. simpl. repeat split; try assumption.
    + now apply NoDup_snoc.
    + now apply NoDup_snoc.
    + intros card Hin Hin'. apply in_app_or in Hin'. destruct Hin' as [Hin'|[<-|[]]].
      * now apply (Hx card).
      * now apply Hfs.
Qed.

(** X3: the menu keeps the identity tables consistent.  From tables in
    which every identifier and every card occurs once per table and no card
    is in both, any sequence of menu choices gives such tables again: one
    card is never bound to two identities, in either role. *)
Theorem run_keeps_tables_consistent :
  forall choices st,
    tables_consistent st -> tables_consistent (run st choices).
Proof.
  unfold run. induction choices as [|c cs IH]; intros st Hc; simpl; [exact Hc|].
  apply IH. now apply run_choice_tables_consistent.
Qed.

Lemma tables_consistent_empty log fb : tables_consistent (init [] [] log fb).
Proof. unfold tables_consistent. simpl. repeat split; try constructor. intros _ []. Qed.

Lemma run_keeps_tables_consistent_witness :
  tables_consistent
    (run (init [] [] [] [])
       [ Choice1 101 "Alice" camera_ok; Choice1 101 "Bob" camera_ok;
         Choice2 101 "Dr Chen" "Algorithms" "CS101";
         Choice2 900 "Dr Chen" "Algorithms" "CS101"; Choice3 arrivals ]).
Proof.
  apply (run_keeps_tables_consistent
           [ Choice1 101 "Alice" camera_ok; Choice1 101 "Bob" camera_ok;
             Choice2 101 "Dr Chen" "Algorithms" "CS101";
             Choice2 900 "Dr Chen" "Algorithms" "CS101"; Choice3 arrivals ]
           (init [] [] [] [])).
  apply tables_consistent_empty.
Defined.

(* ================================================================== *)
(** * From enrollment to the intake loop *)
(* ================================================================== *)

Lemma has_student_false_of_not_in st uid :
  ~ In uid (map s_unique_id (students st)) -> has_student st uid = false.
Proof.
  intros Hn. unfold has_student.
  now rewrite (find_none_of_not_in_map s_unique_id uid (students st) Hn).
Qed.

Lemma not_staged_without_row st uid :
  consistent st -> has_student st uid = false -> staged st uid = false.
Proof.
  intros (_ & _ & _ & Hrow) Hno.
  destruct (staged st uid) eqn:Hst; [|reflexivity].
  apply Hrow in Hst. congruence.
Qed.

(** X4: enrollment and intake fit together.  After a successful
    [register_student], the first read of the card in the intake loop finds
    the new row (and no lecturer), stages the student at the end of the new
    dictionary under the name entered at enrollment and answers NewCheckIn;
    every other card number is looked up exactly as before the enrollment. *)
Theorem registered_student_card_is_recognised :
  forall ss ls log fb choices rfid_id name cam st' uid m e,
    register_student (run (init ss ls log fb) choices) rfid_id name cam =
      (st', Some uid, m) ->
    ev_rfid e = rfid_id ->
    loop_body st' e =
      Continue
        (set_new st'
           (new_rfid_attendance st' ++
            [(uid, {| e_name := name;
                      e_rfid_time := strftime_time (ev_clock e) |})])%list)
        NewCheckIn /\
    forall other,
      other <> rfid_id ->
      find (fun r => s_rfid_id r =? str other) (students st') =
      find (fun r => s_rfid_id r =? str other)
           (students (run (init ss ls log fb) choices)) /\
      find (fun r => l_rfid_id r =? str other) (lecturers st') =
      find (fun r => l_rfid_id r =? str other)
           (lecturers (run (init ss ls log fb) choices)).
Proof.
  intros ss ls log fb choices rfid_id name cam st' uid m e Hreg He.
  assert (Hc : consistent (run (init ss ls log fb) choices))
    by apply run_consistent, consistent_init.
  set (st := run (init ss ls log fb) choices) in *.
  destruct (register_student_state st rfid_id name cam)
    as [[_ Hnone]|(Hst & Huid & Hfree & Hid & _)];
    rewrite Hreg in *; cbn [fst snd] in *; [discriminate|].
  injection Huid as Huid. subst uid st'.
  destruct (is_rfid_registered_false st rfid_id Hfree) as [Hfs Hfl].
  split.
  - rewrite (loop_body_student _ e (new_student_row rfid_id name cam)).
    + cbn [persistent_rfid_attendance new_rfid_attendance set_students
           s_unique_id s_name new_student_row].
      pose proof (not_staged_without_row st _ Hc
                    (has_student_false_of_not_in st _ Hid)) as Hns.
      unfold staged in Hns. apply orb_false_elim in Hns. destruct Hns as [Hp Hn].
      rewrite Hp, Hn. now rewrite (dict_set_fresh _ _ _ Hn).
    + rewrite He. exact Hfl.
    + rewrite He. cbn [students set_students].
      rewrite (find_app_none _ _ _ Hfs). simpl. now rewrite String.eqb_refl.
  - intros other Hother. cbn [students lecturers set_students]. split; [|reflexivity].
    destruct (find (fun r => s_rfid_id r =? str other) (students st)) as [r|] eqn:Hf.
    + now apply find_app_some.
    + rewrite (find_app_none _ _ _ Hf). simpl.
      destruct (String.eqb_spec (str rfid_id) (str other)) as [Heq|]; [|reflexivity].
      apply str_inj in Heq. congruence.
Qed.

Lemma registered_student_card_is_recognised_witness :
  loop_body with_bob (tap 102 (at_time 9 0 5 0) nobody) =
    Continue
      (set_new with_bob
         (new_rfid_attendance with_bob ++
          [(bob, {| e_name := "Bob";
                    e_rfid_time :=
                      strftime_time (ev_clock (tap 102 (at_time 9 0 5 0) nobody)) |})])%list)
      NewCheckIn /\
  forall other,
    other <> 102%Z ->
    find (fun r => s_rfid_id r =? str other) (students with_bob) =
    find (fun r => s_rfid_id r =? str other)
         (students (run (init [] [] [] []) first_week)) /\
    find (fun r => l_rfid_id r =? str other) (lecturers with_bob) =
    find (fun r => l_rfid_id r =? str other)
         (lecturers (run (init [] [] [] []) first_week)).
Proof.
  apply (registered_student_card_is_recognised [] [] [] [] first_week
           102 "Bob" camera_ok with_bob bob SuccessfullyRegistered
           (tap 102 (at_time 9 0 5 0) nobody)).
  - vm_compute. reflexivity.
  - reflexivity.
Defined.

(** X5: after a successful [register_lecturer], a read of the card in the
    intake loop takes the lecturer branch.  When Firestore accepts the
    session document, the session whose id is the course code entered at
    enrollment, an underscore and the clock becomes current and the new
    dictionary is empty afterwards; when it refuses, the exception leaves the
    loop body with the state untouched. *)
Theorem registered_lecturer_card_opens_sessions :
  forall st rfid_id name course_name course_code st' uid m e,
    register_lecturer st rfid_id name course_name course_code = (st', Some uid, m) ->
    ev_rfid e = rfid_id ->
    (ev_session_set_ok e = true ->
       exists st'' out,
         loop_body st' e =
           Continue st'' (SessionStarted (derive_session_id course_code (ev_clock e)) out) /\
         current_session st'' = Some (derive_session_id course_code (ev_clock e)) /\
         new_rfid_attendance st'' = []) /\
    (ev_session_set_ok e = false -> loop_body st' e = Raised st').
Proof.
  intros st rfid_id name cn cc st' uid m e Hreg He.
  destruct (register_lecturer_state st rfid_id name cn cc)
    as [[_ Hnone]|(Hst & _ & Hfree & _)];
    rewrite Hreg in *; cbn [fst snd] in *; [discriminate|].
  subst st'.
  destruct (is_rfid_registered_false st rfid_id Hfree) as [_ Hfl].
  assert (Hl : find (fun r => l_rfid_id r =? str (ev_rfid e))
                    (lecturers
                       (set_lecturers st
                          (lecturers st ++ [new_lecturer_row rfid_id name cn cc])))
               = Some (new_lecturer_row rfid_id name cn cc)).
  { rewrite He. cbn [lecturers set_lecturers].
    rewrite (find_app_none _ _ _ Hfl). simpl. now rewrite String.eqb_refl. }
  split.
  - intros Hok.
    destruct (lecturer_pass _ e _ Hl Hok) as (st'' & out & Hb & Hcs & _ & Hn & _).
    exists st'', out. now repeat split.
  - intros Hok. unfold loop_body. now rewrite Hl, Hok.
Qed.

Lemma registered_lecturer_card_opens_sessions_witness :
  (exists st'' out,
     loop_body with_dr_diaz (tap 901 (at_time 11 0 0 0) nobody) =
       Continue st''
         (SessionStarted
            (derive_session_id "CS102" (ev_clock (tap 901 (at_time 11 0 0 0) nobody)))
            out) /\
     current_session st'' =
       Some (derive_session_id "CS102" (ev_clock (tap 901 (at_time 11 0 0 0) nobody))) /\
     new_rfid_attendance st'' = []) /\
  loop_body with_dr_diaz (offline (tap 901 (at_time 11 0 0 0) nobody)) =
    Raised with_dr_diaz.
Proof.
  split.
  - apply (registered_lecturer_card_opens_sessions
             (run (init [] [] [] []) first_week) 901 "Dr Diaz" "Logic" "CS102"
             with_dr_diaz (generate_unique_id "Dr Diaz") SuccessfullyRegistered
             (tap 901 (at_time 11 0 0 0) nobody));
      [vm_compute; reflexivity|reflexivity|reflexivity].
  - apply (registered_lecturer_card_opens_sessions
             (run (init [] [] [] []) first_week) 901 "Dr Diaz" "Logic" "CS102"
             with_dr_diaz (generate_unique_id "Dr Diaz") SuccessfullyRegistered
             (offline (tap 901 (at_time 11 0 0 0) nobody)));
      [vm_compute; reflexivity|reflexivity|reflexivity].
Defined.

Lemma capture_face_samples_length cam :
  (List.length (capture_face_samples cam) <= 3)%nat.
Proof.
  unfold capture_face_samples. simpl.
  destruct (cam 0%nat), (cam 1%nat), (cam 2%nat); simpl; lia.
Qed.

(** X6: every row of the students table holds two or three face
    descriptors.  [capture_face_samples] gives at most three, one per
    prompt, and [register_student] inserts only with at least two; so from
    a table of such rows (the empty one, say) every menu choice gives a
    table of such rows, and the verification always has at least two
    templates to compare against. *)
Theorem students_keep_two_or_three_templates :
  forall choices st,
    Forall (fun r => 2 <= List.length (s_face_descriptors r) <= 3)%nat (students st) ->
    Forall (fun r => 2 <= List.length (s_face_descriptors r) <= 3)%nat
           (students (run st choices)).
Proof.
  unfold run. induction choices as [|c cs IH]; intros st Hall; simpl; [exact Hall|].
  apply IH.
  destruct (run_choice_tables st c)
    as [[Hs _]|[(rfid & name & cam & _ & Hs & _ & _ & _ & Hlen)
               |(rfid & name & cn & cc & _ & Hs & _)]];
    rewrite Hs; try assumption.
  apply Forall_app. split; [assumption|].
  constructor; [|constructor]. simpl.
  split; [exact Hlen|apply capture_face_samples_length].
Qed.

Lemma students_keep_two_or_three_templates_witness :
  Forall (fun r => 2 <= List.length (s_face_descriptors r) <= 3)%nat
         (students (run (init [] [] [] [])
                      [ Choice1 101 "Alice" camera_ok; Choice1 102 "Bob" camera_once;
                        Choice1 103 "Carol" camera_ok ])).
Proof.
  apply (students_keep_two_or_three_templates
           [ Choice1 101 "Alice" camera_ok; Choice1 102 "Bob" camera_once;
             Choice1 103 "Carol" camera_ok ] (init [] [] [] [])).
  constructor.
Defined.

(* ================================================================== *)
(** * More on the intake loop *)
(* ================================================================== *)

Lemma other_cards_stores st e :
  find (fun r => l_rfid_id r =? str (ev_rfid e)) (lecturers st) = None ->
  exists st' o,
    loop_body st e = Continue st' o /\
    attendance_log st' = attendance_log st /\ firebase st' = firebase st.
Proof.
  intros Hl. unfold loop_body. rewrite Hl.
  destruct (find _ (students st)); [|now exists st, Unregistered].
  destruct (dict_in _ (persistent_rfid_attendance st));
    [now exists st, DuplicateConfirmed|].
  destruct (dict_in _ (new_rfid_attendance st));
    [now exists st, DuplicateInSession|].
  eexists _, NewCheckIn. now repeat split.
Qed.

Lemma other_cards_write_nothing_cases st e :
  find (fun r => l_rfid_id r =? str (ev_rfid e)) (lecturers st) = None ->
  exists st' o,
    loop_body st e = Continue st' o /\
    persistent_rfid_attendance st' = persistent_rfid_attendance st /\
    (new_rfid_attendance st' = new_rfid_attendance st \/
     exists x, new_rfid_attendance st' = (new_rfid_attendance st ++ [x])%list).
Proof.
  intros Hl. unfold loop_body. rewrite Hl.
  destruct (find _ (students st)); [|exists st, Unregistered; now repeat split; left].
  destruct (dict_in _ (persistent_rfid_attendance st));
    [exists st, DuplicateConfirmed; repeat split; now left|].
  destruct (dict_in _ (new_rfid_attendance st)) eqn:Hn;
    [exists st, DuplicateInSession; repeat split; now left|].
  eexists _, NewCheckIn. repeat split. right. simpl.
  rewrite (dict_set_fresh _ _ _ Hn). now eexists.
Qed.

Lemma other_cards_write_nothing_full st e :
  find (fun r => l_rfid_id r =? str (ev_rfid e)) (lecturers st) = None ->
  exists st' o,
    loop_body st e = Continue st' o /\
    (current_session st' = current_session st \/ current_session st' = None) /\
    attendance_log st' = attendance_log st /\ firebase st' = firebase st.
Proof.
  intros Hl. unfold loop_body. rewrite Hl.
  destruct (find _ (students st)); [|exists st, Unregistered; repeat split; now left].
  destruct (dict_in _ (persistent_rfid_attendance st));
    [exists st, DuplicateConfirmed; repeat split; now left|].
  destruct (dict_in _ (new_rfid_attendance st));
    [exists st, DuplicateInSession; repeat split; now left|].
  eexists _, NewCheckIn. repeat split. now left.
Qed.

(** X7: a card that is not a lecturer's never writes to a store.  The
    pass goes on (no exception), the local log, the mirror, both identity
    tables, the current session and the persistent dictionary are as before,
    and the new dictionary is as before or has one more entry at its end,
    the latter exactly with the NewCheckIn answer. *)
Theorem other_cards_write_nothing :
  forall st e,
    find (fun r => l_rfid_id r =? str (ev_rfid e)) (lecturers st) = None ->
    exists st' o,
      loop_body st e = Continue st' o /\
      attendance_log st' = attendance_log st /\
      firebase st' = firebase st /\
      students st' = students st /\
      lecturers st' = lecturers st /\
      current_session st' = current_session st /\
      persistent_rfid_attendance st' = persistent_rfid_attendance st /\
      ((o <> NewCheckIn /\ new_rfid_attendance st' = new_rfid_attendance st /\
        (o = Unregistered \/ o = DuplicateConfirmed \/ o = DuplicateInSession)) \/
       (o = NewCheckIn /\
        exists student,
          find (fun r => s_rfid_id r =? str (ev_rfid e)) (students st) = Some student /\
          staged st (s_unique_id student) = false /\
          new_rfid_attendance st' =
            (new_rfid_attendance st ++
             [(s_unique_id student,
               {| e_name := s_name student;
                  e_rfid_time := strftime_time (ev_clock e) |})])%list)).
Proof.
  intros st e Hl. unfold loop_body. rewrite Hl.
  destruct (find _ (students st)) as [student|] eqn:Hs.
  - destruct (dict_in _ (persistent_rfid_attendance st)) eqn:Hp.
    + exists st, DuplicateConfirmed. repeat split. left.
      repeat split; [discriminate|]. right. now left.
    + destruct (dict_in _ (new_rfid_attendance st)) eqn:Hn.
      * exists st, DuplicateInSession. repeat split. left.
        repeat split; [discriminate|]. right. now right.
      * eexists _, NewCheckIn. repeat split. right. split; [reflexivity|].
        exists student. split; [reflexivity|]. unfold staged. rewrite Hp, Hn.
        split; [reflexivity|]. simpl. now apply dict_set_fresh.
  - exists st, Unregistered. repeat split. left.
    repeat split; [discriminate|]. now left.
Qed.

Lemma other_cards_write_nothing_witness :
  exists st' o,
    loop_body after_arrivals (tap 555 (at_time 9 0 9 0) nobody) = Continue st' o /\
    attendance_log st' = attendance_log after_arrivals /\
    firebase st' = firebase after_arrivals /\
    students st' = students after_arrivals /\
    lecturers st' = lecturers after_arrivals /\
    current_session st' = current_session after_arrivals /\
    persistent_rfid_attendance st' = persistent_rfid_attendance after_arrivals /\
    ((o <> NewCheckIn /\ new_rfid_attendance st' = new_rfid_attendance after_arrivals /\
      (o = Unregistered \/ o = DuplicateConfirmed \/ o = DuplicateInSession)) \/
     (o = NewCheckIn /\
      exists student,
        find (fun r => s_rfid_id r =? str (ev_rfid (tap 555 (at_time 9 0 9 0) nobody)))
             (students after_arrivals) = Some student /\
        staged after_arrivals (s_unique_id student) = false /\
        new_rfid_attendance st' =
          (new_rfid_attendance after_arrivals ++
           [(s_unique_id student,
             {| e_name := s_name student;
                e_rfid_time :=
                  strftime_time (ev_clock (tap 555 (at_time 9 0 9 0) nobody)) |})])%list)).
Proof.
  apply (other_cards_write_nothing after_arrivals (tap 555 (at_time 9 0 9 0) nobody)).
  vm_compute. reflexivity.
Defined.

(** On a dictionary that shares no key with it, [update] appends. *)
Lemma dict_update_disjoint (other d : dict) :
  NoDup (keys other) ->
  (forall k, In k (keys other) -> ~ In k (keys d)) ->
  dict_update d other = (d ++ other)%list.
Proof.
  unfold dict_update. revert d.
  induction other as [|[k v] other IH]; intros d Hnd Hdis; simpl.
  - now rewrite app_nil_r.
  - inversion Hnd as [|? ? Hk Hnd']; subst.
    rewrite dict_set_fresh.
    + rewrite IH; [now rewrite <- app_assoc|assumption|].
      intros k' Hk' Hin. unfold keys in Hin. rewrite map_app in Hin.
      apply in_app_or in Hin. destruct Hin as [Hin|[<-|[]]].
      * apply (Hdis k'); [now right|assumption].
      * now apply Hk.
    + apply dict_in_false. apply Hdis. now left.
Qed.

Lemma merged_is_staging st :
  consistent st ->
  dict_update (persistent_rfid_attendance st) (new_rfid_attendance st) = staging st.
Proof.
  intros (_ & Hn & Hd & _). apply dict_update_disjoint; [assumption|].
  intros k Hk. unfold staging_disjoint in Hd. rewrite forallb_forall in Hd.
  specialize (Hd k Hk). apply negb_true_iff in Hd. now apply dict_in_false.
Qed.

(** The keys after [update]: those of the dictionary, then the keys of the
    other one that it did not have, in the order of the other one. *)
Lemma keys_dict_update (other d : dict) :
  NoDup (keys other) ->
  keys (dict_update d other) =
  (keys d ++ filter (fun k => negb (dict_in k d)) (keys other))%list.
Proof.
  unfold dict_update. revert d.
  induction other as [|[k v] other IH]; intros d Hnd; simpl.
  - now rewrite app_nil_r.
  - simpl in Hnd. inversion Hnd as [|? ? Hk Hnd']; subst.
    rewrite (IH _ Hnd'), keys_dict_set.
    assert (Hf : filter (fun k0 => negb (dict_in k0 (dict_set d k v))) (keys other) =
                 filter (fun k0 => negb (dict_in k0 d)) (keys other)).
    { apply filter_ext_in. intros a Ha. rewrite dict_in_set.
      destruct (String.eqb_spec k a) as [->|Hne]; [contradiction|reflexivity]. }
    rewrite Hf. destruct (dict_in k d); simpl; [reflexivity|].
    now rewrite <- app_assoc.
Qed.

(** The pass of a lecturer card whose writes all go through, in any state
    in which every staged student has a row. *)
Lemma lecturer_pass_rows st e lecturer :
  (forall uid, staged st uid = true -> has_student st uid = true) ->
  find (fun r => l_rfid_id r =? str (ev_rfid e)) (lecturers st) = Some lecturer ->
  ev_session_set_ok e = true ->
  (forall uid, staged st uid = true -> insert_ok (ev_verify e uid) = true) ->
  exists st',
    let session_id := derive_session_id (l_course_code lecturer) (ev_clock e) in
    let merged := dict_update (persistent_rfid_attendance st) (new_rfid_attendance st) in
    loop_body st e =
      Continue st' (SessionStarted session_id
                      (pass_lines session_id (ev_verify e) merged)) /\
    attendance_log st' =
      (attendance_log st ++ pass_records session_id (ev_verify e) merged)%list /\
    persistent_rfid_attendance st' = merged /\
    new_rfid_attendance st' = [].
Proof.
  intros Hrow Hl Hok Hins.
  destruct (lecturer_pass st e lecturer Hl Hok)
    as (st'' & out & Hb' & _ & Hp & Hn & _).
  revert Hb'. rewrite (loop_body_lecturer st e lecturer Hl Hok). cbv zeta.
  destruct (verify_loop_all_written
              (derive_session_id (l_course_code lecturer) (ev_clock e))
              (ev_verify e)
              (persistent_rfid_attendance (open_session st e lecturer))
              (open_session st e lecturer)) as (st4 & Hv & Hlog).
  - intros uid Hin. apply staged_merged in Hin.
    rewrite <- (Hrow uid Hin). now apply has_student_same_students.
  - intros uid Hin. apply Hins. now apply staged_merged.
  - rewrite Hv. intros Hb'. inversion Hb'; subst st'' out.
    exists (set_new st4 []). split; [reflexivity|]. split; [exact Hlog|].
    now split.
Qed.

(** After Ctrl-C inside a verification every staged student still has a
    row, and the new dictionary still has each key once. *)
Lemma stopped_in_verification_rows st e lecturer :
  (forall uid, staged st uid = true -> has_student st uid = true) ->
  forall uid,
    staged (on_keyboard_interrupt (open_session st e lecturer)) uid = true ->
    has_student (on_keyboard_interrupt (open_session st e lecturer)) uid = true.
Proof.
  intros Hrow uid. unfold staged, has_student. simpl.
  rewrite dict_in_update. intros H. apply (Hrow uid). unfold staged.
  destruct (dict_in uid (persistent_rfid_attendance st)),
           (dict_in uid (new_rfid_attendance st)); simpl in *; congruence.
Qed.

(** X8: the order of a verification pass.  In a state whose new
    dictionary has each key once and whose staged students all have a row in
    the students table, a lecturer card whose writes are accepted merges the
    new dictionary into the persistent one and verifies the merged
    dictionary in its order: first the students of the persistent
    dictionary, then the students of the new dictionary that were not in the
    persistent one, in the order of their taps.  One row each is appended to
    the log in that order, with the name and the tap time of the merged
    entry; afterwards the persistent dictionary is the merged one and the new
    one is empty.  When the two dictionaries share no key, the merged
    dictionary is the persistent one followed by the new one. *)
Theorem verification_follows_staging_order :
  forall st e lecturer,
    NoDup (keys (new_rfid_attendance st)) ->
    (forall uid, staged st uid = true -> has_student st uid = true) ->
    find (fun r => l_rfid_id r =? str (ev_rfid e)) (lecturers st) = Some lecturer ->
    ev_session_set_ok e = true ->
    (forall uid, staged st uid = true -> insert_ok (ev_verify e uid) = true) ->
    exists st' out,
      loop_body st e =
        Continue st' (SessionStarted
                        (derive_session_id (l_course_code lecturer) (ev_clock e)) out) /\
      persistent_rfid_attendance st' =
        dict_update (persistent_rfid_attendance st) (new_rfid_attendance st) /\
      new_rfid_attendance st' = [] /\
      attendance_log st' =
        (attendance_log st ++
         map (fun kv =>
                attendance_record
                  (derive_session_id (l_course_code lecturer) (ev_clock e))
                  (ev_verify e (fst kv)) (fst kv) (snd kv))
             (persistent_rfid_attendance st'))%list /\
      keys (persistent_rfid_attendance st') =
        (keys (persistent_rfid_attendance st) ++
         filter (fun k => negb (dict_in k (persistent_rfid_attendance st)))
                (keys (new_rfid_attendance st)))%list /\
      (staging_disjoint st = true ->
       persistent_rfid_attendance st' =
         (persistent_rfid_attendance st ++ new_rfid_attendance st)%list).
Proof.
  intros st e lecturer Hnd Hrow Hl Hok Hins.
  destruct (lecturer_pass_rows st e lecturer Hrow Hl Hok Hins)
    as (st' & Hb & Hlog & Hp & Hn).
  cbv zeta in Hb, Hlog, Hp.
  eexists st', _. split; [exact Hb|]. split; [exact Hp|]. split; [exact Hn|].
  split; [rewrite Hp; exact Hlog|].
  split; [rewrite Hp; now apply keys_dict_update|].
  intros Hd. rewrite Hp. apply dict_update_disjoint; [assumption|].
  intros k Hk. unfold staging_disjoint in Hd. rewrite forallb_forall in Hd.
  specialize (Hd k Hk). apply negb_true_iff in Hd. now apply dict_in_false.
Qed.

Lemma verification_follows_staging_order_witness :
  exists st' out,
    loop_body stopped_in_verification second_roll_call =
      Continue st' (SessionStarted
                      (derive_session_id (l_course_code dr_chen)
                                         (ev_clock second_roll_call)) out) /\
    persistent_rfid_attendance st' =
      dict_update (persistent_rfid_attendance stopped_in_verification)
                  (new_rfid_attendance stopped_in_verification) /\
    new_rfid_attendance st' = [] /\
    attendance_log st' =
      (attendance_log stopped_in_verification ++
       map (fun kv =>
              attendance_record
                (derive_session_id (l_course_code dr_chen) (ev_clock second_roll_call))
                (ev_verify second_roll_call (fst kv)) (fst kv) (snd kv))
           (persistent_rfid_attendance st'))%list /\
    keys (persistent_rfid_attendance st') =
      (keys (persistent_rfid_attendance stopped_in_verification) ++
       filter (fun k => negb (dict_in k (persistent_rfid_attendance stopped_in_verification)))
              (keys (new_rfid_attendance stopped_in_verification)))%list /\
    (staging_disjoint stopped_in_verification = true ->
     persistent_rfid_attendance st' =
       (persistent_rfid_attendance stopped_in_verification ++
        new_rfid_attendance stopped_in_verification)%list).
Proof.
  apply (verification_follows_staging_order stopped_in_verification
           second_roll_call dr_chen).
  - vm_compute. repeat constructor; simpl; intuition discriminate.
  - apply stopped_in_verification_rows.
    apply (reached_consistent [] [] [] []
             [ Choice1 101 "Alice" camera_ok; Choice1 102 "Bob" camera_ok;
               Choice2 900 "Dr Chen" "Algorithms" "CS101" ] arrivals).
  - vm_compute. reflexivity.
  - reflexivity.
  - intros uid _. reflexivity.
Defined.

(** The pass after the interrupted one: Alice and Bob, who were in both
    dictionaries, are verified once each, and the persistent dictionary
    still lists each of them once.  Before the interrupt, with the two
    dictionaries sharing no key, the merged dictionary is the one followed
    by the other. *)
Example pass_after_interrupted_verification :
  map a_unique_id
    (attendance_log
       (fst (fst (mark_attendance_rfid stopped_in_verification [second_roll_call]))))
  = [alice; bob] /\
  keys (persistent_rfid_attendance
          (fst (fst (mark_attendance_rfid stopped_in_verification [second_roll_call]))))
  = [alice; bob] /\
  keys (persistent_rfid_attendance
          (fst (fst (mark_attendance_rfid after_arrivals [roll_call]))))
  = (keys (persistent_rfid_attendance after_arrivals) ++
     keys (new_rfid_attendance after_arrivals))%list.
Proof. vm_compute. repeat split. Qed.

(* ================================================================== *)
(** * The local stores only grow, the mirror behind the log *)
(* ================================================================== *)

Lemma extends_refl st : extends st st.
Proof.
  exists [], []. rewrite !app_nil_r. repeat split; [constructor|].
  intros ? ? ? ? ? ? ? ? [].
Qed.

Lemma extends_trans a b c : extends a b -> extends b c -> extends a c.
Proof.
  intros (r1 & d1 & Hl1 & Hf1 & Hw1 & Hb1) (r2 & d2 & Hl2 & Hf2 & Hw2 & Hb2).
  exists (r1 ++ r2)%list, (d1 ++ d2)%list.
  rewrite Hl2, Hl1, Hf2, Hf1, <- !app_assoc. repeat split.
  - apply Forall_app. now split.
  - intros session doc_id uid rfid_id name date time status Hin.
    apply in_app_or in Hin. destruct Hin as [Hin|Hin].
    + destruct (Hb1 _ _ _ _ _ _ _ _ Hin) as (row & Hr & H). exists row.
      split; [apply in_or_app; now left|exact H].
    + destruct (Hb2 _ _ _ _ _ _ _ _ Hin) as (row & Hr & H). exists row.
      split; [apply in_or_app; now right|exact H].
Qed.

Lemma extends_same_stores st st' :
  attendance_log st' = attendance_log st -> firebase st' = firebase st ->
  extends st st'.
Proof.
  intros Hl Hf. exists [], []. rewrite !app_nil_r. repeat split; try assumption.
  - constructor.
  - intros ? ? ? ? ? ? ? ? [].
Qed.

Lemma attendance_record_well_formed session v uid data :
  row_well_formed (attendance_record session v uid data).
Proof.
  unfold row_well_formed. simpl. destruct (face_verified v).
  - left. split; [reflexivity|]. now eexists.
  - right. now split.
Qed.

(** One student of a pass: the row, then at most one document for it. *)
Lemma verify_one_extends st session v uid data :
  current_session st = Some session ->
  extends st
    (log_attendance_to_firebase
       (set_attendance_log st
          (attendance_log st ++ [attendance_record session v uid data]))
       v uid
       (a_name (attendance_record session v uid data))
       (a_status (attendance_record session v uid data))).
Proof.
  intros Hcs. unfold log_attendance_to_firebase.
  cbn [students set_attendance_log current_session firebase].
  destruct (find _ (students st)) as [row|];
    [|exists [attendance_record session v uid data], [];
      rewrite app_nil_r; repeat split;
      [constructor; [apply attendance_record_well_formed|constructor]
      |intros ? ? ? ? ? ? ? ? []]].
  rewrite Hcs.
  destruct (firebase_ok v);
    [|exists [attendance_record session v uid data], [];
      rewrite app_nil_r; repeat split;
      [constructor; [apply attendance_record_well_formed|constructor]
      |intros ? ? ? ? ? ? ? ? []]].
  eexists [attendance_record session v uid data], [_].
  repeat split.
  - constructor; [apply attendance_record_well_formed|constructor].
  - intros s0 d0 u0 r0 n0 dt0 t0 st0 [Heq|[]]. inversion Heq; subst.
    eexists. split; [now left|]. now repeat split.
Qed.

Lemma verify_loop_extends session env items :
  forall st,
    current_session st = Some session ->
    extends st (fst (verify_loop st session env items)).
Proof.
  induction items as [|[uid data] rest IH]; intros st Hcs; simpl.
  - apply extends_refl.
  - destruct (find _ (students st)) as [row|].
    + destruct (insert_ok (env uid)); [|apply extends_refl].
      match goal with
      | |- context [verify_loop (log_attendance_to_firebase ?a ?b ?c ?d ?f) _ _ _] =>
          pose proof (verify_one_extends st session (env uid) uid data Hcs) as Hone;
          destruct (log_attendance_to_firebase_frame a b c d f)
            as [(Hcs2 & _) _];
          set (st2 := log_attendance_to_firebase a b c d f) in *
      end.
      assert (Hcs' : current_session st2 = Some session)
        by (rewrite Hcs2; exact Hcs).
      specialize (IH st2 Hcs').
      destruct (verify_loop st2 session env rest) as [s' o]. simpl in *.
      eapply extends_trans; [exact Hone|exact IH].
    + specialize (IH st Hcs).
      destruct (verify_loop st session env rest) as [s' o]. exact IH.
Qed.

Lemma loop_body_extends st e :
  match loop_body st e with
  | Continue st' _ => extends st st'
  | Raised st' => extends st st'
  end.
Proof.
  destruct (find (fun r => l_rfid_id r =? str (ev_rfid e)) (lecturers st))
    as [lecturer|] eqn:Hl.
  - destruct (ev_session_set_ok e) eqn:Hok.
    + rewrite (loop_body_lecturer st e lecturer Hl Hok). cbv zeta.
      pose proof (verify_loop_extends
                    (derive_session_id (l_course_code lecturer) (ev_clock e))
                    (ev_verify e)
                    (persistent_rfid_attendance (open_session st e lecturer))
                    (open_session st e lecturer) eq_refl) as Hv.
      destruct (verify_loop (open_session st e lecturer) _ _ _) as [st4 out].
      simpl in Hv.
      apply (extends_trans st (open_session st e lecturer)).
      * exists [], [LectureDoc
                      (derive_session_id (l_course_code lecturer) (ev_clock e))
                      (l_course_name lecturer) (l_course_code lecturer)
                      (l_name lecturer) (str (ev_rfid e))
                      (isoformat (ev_start_time e)) "active"].
        rewrite app_nil_r. repeat split; [constructor|].
        intros ? ? ? ? ? ? ? ? [Heq|[]]. discriminate.
      * destruct Hv as (rows & docs & H1 & H2 & H3 & H4).
        exists rows, docs. now repeat split.
    + unfold loop_body. rewrite Hl, Hok. apply extends_refl.
  - destruct (other_cards_stores st e Hl) as (st' & o & -> & H1 & H2).
    now apply extends_same_stores.
Qed.

Lemma mark_attendance_rfid_extends taps :
  forall st, extends st (fst (fst (mark_attendance_rfid st taps))).
Proof.
  induction taps as [|e rest IH]; intros st; simpl; [apply extends_refl|].
  pose proof (loop_body_extends st e) as Hb.
  destruct (loop_body st e) as [st' o|st'].
  - specialize (IH st').
    destruct (mark_attendance_rfid st' rest) as [[s os] x]. simpl in *.
    eapply extends_trans; eassumption.
  - exact Hb.
Qed.

Lemma run_choice_extends st c : extends st (run_choice st c).
Proof.
  destruct c as [rfid name cam|rfid name cn cc|taps|]; simpl.
  - destruct (register_student_state st rfid name cam) as [[-> _]|(-> & _)];
      [apply extends_refl|now apply extends_same_stores].
  - destruct (register_lecturer_state st rfid name cn cc) as [[-> _]|(-> & _)];
      [apply extends_refl|now apply extends_same_stores].
  - pose proof (mark_attendance_rfid_extends taps st) as H.
    destruct (mark_attendance_rfid st taps) as [[s os] [|]]; simpl in H; [|exact H].
    eapply extends_trans; [exact H|]. now apply extends_same_stores.
  - apply extends_refl.
Qed.

Lemma run_extends choices : forall st, extends st (run st choices).
Proof.
  unfold run. induction choices as [|c cs IH]; intros st; simpl;
    [apply extends_refl|].
  eapply extends_trans; [apply run_choice_extends|apply IH].
Qed.

(** X9: the local stores are insert-only.  Whatever the operator does at
    the menu, the attendance log and the two identity tables of the SQLite
    database afterwards are the ones before with rows added at the end: the
    code has INSERT statements only, so an attendance row or an enrollment,
    once written, is never changed or deleted. *)
Theorem local_stores_only_grow :
  forall choices st,
    exists rows new_students new_lecturers,
      attendance_log (run st choices) = (attendance_log st ++ rows)%list /\
      students (run st choices) = (students st ++ new_students)%list /\
      lecturers (run st choices) = (lecturers st ++ new_lecturers)%list.
Proof.
  intros choices st.
  destruct (run_extends choices st) as (rows & _ & Hlog & _).
  exists rows.
  assert (Ht : exists ns nl,
             students (run st choices) = (students st ++ ns)%list /\
             lecturers (run st choices) = (lecturers st ++ nl)%list).
  { clear. revert st. unfold run.
    induction choices as [|c cs IH]; intros st; simpl.
    - exists [], []. now rewrite !app_nil_r.
    - destruct (IH (run_choice st c)) as (ns & nl & Hs & Hl). rewrite Hs, Hl.
      destruct (run_choice_tables st c)
        as [[Hs' Hl']|[(rfid & name & cam & _ & Hs' & Hl' & _)
                      |(rfid & name & cn & cc & _ & Hs' & Hl' & _)]];
        rewrite Hs', Hl'.
      + now exists ns, nl.
      + eexists _, nl. now rewrite <- app_assoc.
      + eexists ns, _. now rewrite <- app_assoc. }
  destruct Ht as (ns & nl & Hs & Hl). exists ns, nl. now repeat split.
Qed.

(** The mirror is another matter: a write to a path that has a document
    replaces it.  Dr Chen's card read twice within one second writes the
    session document twice under one path, and the store keeps the second. *)
Example mirror_documents_are_replaced :
  map doc_path
    (firebase (fst (fst (mark_attendance_rfid enrolled
                           [ tap 900 (at_time 9 1 0 100000) nobody;
                             tap 900 (at_time 9 1 0 800000) nobody ]))))
  = [ "lectures/CS101_20250314_090100"; "lectures/CS101_20250314_090100" ] /\
  stored_document
    (firebase (fst (fst (mark_attendance_rfid enrolled
                           [ tap 900 (at_time 9 1 0 100000) nobody;
                             tap 900 (at_time 9 1 0 800000) nobody ]))))
    "lectures/CS101_20250314_090100"
  = Some (LectureDoc "CS101_20250314_090100" "Algorithms" "CS101" "Dr Chen" "900"
            "2025-03-14T09:01:00.800000" "active").
Proof. vm_compute. split; reflexivity. Qed.

(** X10: the mirror never runs ahead of the local log.  When every
    attendance document of the mirror has a row of the log for the same
    student, session, name and status (an empty mirror, say), this is still
    so after any sequence of menu choices: the document of a student is
    written only after, and only if, the row was. *)
Theorem mirror_stays_behind_the_log :
  forall choices st, mirror_backed st -> mirror_backed (run st choices).
Proof.
  intros choices st Hbacked.
  destruct (run_extends choices st) as (rows & docs & Hlog & Hfb & _ & Hnew).
  intros session doc_id uid rfid_id name date time status Hin.
  rewrite Hfb in Hin. rewrite Hlog. apply in_app_or in Hin. destruct Hin as [Hin|Hin].
  - destruct (Hbacked _ _ _ _ _ _ _ _ Hin) as (row & Hr & H).
    exists row. split; [apply in_or_app; now left|exact H].
  - destruct (Hnew _ _ _ _ _ _ _ _ Hin) as (row & Hr & H).
    exists row. split; [apply in_or_app; now right|exact H].
Qed.

Lemma mirror_backed_empty ss ls log : mirror_backed (init ss ls log []).
Proof. intros ? ? ? ? ? ? ? ? []. Qed.

Lemma mirror_stays_behind_the_log_witness :
  mirror_backed
    (run (init [] [] [] [])
       [ Choice1 101 "Alice" camera_ok; Choice1 102 "Bob" camera_ok;
         Choice2 900 "Dr Chen" "Algorithms" "CS101";
         Choice3 (arrivals ++ [mirror_down roll_call]);
         Choice3 [second_roll_call] ]).
Proof.
  apply (mirror_stays_behind_the_log
           [ Choice1 101 "Alice" camera_ok; Choice1 102 "Bob" camera_ok;
             Choice2 900 "Dr Chen" "Algorithms" "CS101";
             Choice3 (arrivals ++ [mirror_down roll_call]);
             Choice3 [second_roll_call] ] (init [] [] [] [])).
  apply mirror_backed_empty.
Defined.

(** X11: the rows of the log are well formed.  Every row the system
    writes has status present together with a face time, or status partial
    with no face time; a log of such rows (the empty one, say) stays one
    under every sequence of menu choices. *)
Theorem log_rows_stay_well_formed :
  forall choices st,
    Forall row_well_formed (attendance_log st) ->
    Forall row_well_formed (attendance_log (run st choices)).
Proof.
  intros choices st Hall.
  destruct (run_extends choices st) as (rows & docs & Hlog & _ & Hrows & _).
  rewrite Hlog. apply Forall_app. now split.
Qed.

Lemma log_rows_stay_well_formed_witness :
  Forall row_well_formed
    (attendance_log
       (run (init [] [] [] [])
          [ Choice1 101 "Alice" camera_ok; Choice1 102 "Bob" camera_ok;
            Choice2 900 "Dr Chen" "Algorithms" "CS101";
            Choice3 (arrivals ++ [roll_call]) ])).
Proof.
  apply (log_rows_stay_well_formed
           [ Choice1 101 "Alice" camera_ok; Choice1 102 "Bob" camera_ok;
             Choice2 900 "Dr Chen" "Algorithms" "CS101";
             Choice3 (arrivals ++ [roll_call]) ] (init [] [] [] [])).
  constructor.
Defined.

(* ================================================================== *)
(** * Once staged, staged for good *)
(* ================================================================== *)

Lemma loop_body_staging st e :
  consistent st ->
  match loop_body st e with
  | Continue st' _ => incl (staging st) (staging st')
  | Raised st' => incl (staging st) (staging st')
  end.
Proof.
  intros Hc.
  destruct (find (fun r => l_rfid_id r =? str (ev_rfid e)) (lecturers st))
    as [lecturer|] eqn:Hl.
  - destruct (ev_session_set_ok e) eqn:Hok.
    + destruct (lecturer_pass st e lecturer Hl Hok)
        as (st' & out & -> & _ & Hp & Hn & _).
      unfold staging at 2. rewrite Hp, Hn, app_nil_r, (merged_is_staging st Hc).
      apply incl_refl.
    + unfold loop_body. rewrite Hl, Hok. apply incl_refl.
  - destruct (other_cards_write_nothing_cases st e Hl) as (st' & o & -> & Hp & Hn).
    unfold staging. rewrite Hp. destruct Hn as [->|(x & ->)].
    + apply incl_refl.
    + rewrite app_assoc. apply incl_appl, incl_refl.
Qed.

Lemma mark_attendance_rfid_staging taps :
  forall st, consistent st ->
    incl (staging st) (staging (fst (fst (mark_attendance_rfid st taps)))).
Proof.
  induction taps as [|e rest IH]; intros st Hc; simpl; [apply incl_refl|].
  pose proof (loop_body_staging st e Hc) as Hb.
  pose proof (loop_body_consistent st e Hc) as Hc'.
  destruct (loop_body st e) as [st' o|st'].
  - specialize (IH st' Hc').
    destruct (mark_attendance_rfid st' rest) as [[s os] x]. simpl in *.
    eapply incl_tran; eassumption.
  - exact Hb.
Qed.

Lemma run_choice_staging st c :
  consistent st -> incl (staging st) (staging (run_choice st c)).
Proof.
  intros Hc. destruct c as [rfid name cam|rfid name cn cc|taps|]; simpl.
  - destruct (register_student_state st rfid name cam) as [[-> _]|(-> & _)];
      apply incl_refl.
  - destruct (register_lecturer_state st rfid name cn cc) as [[-> _]|(-> & _)];
      apply incl_refl.
  - pose proof (mark_attendance_rfid_staging taps st Hc) as H.
    destruct (mark_attendance_rfid st taps) as [[s os] [|]]; exact H.
  - apply incl_refl.
Qed.

(** X12: once staged, staged for good.  From a consistent state, an
    entry of the persistent or the new dictionary (the student with the name
    and the time of the first tap) is still there, unchanged, after any
    sequence of menu choices: later taps, rollovers, errors and interrupts
    remove nobody and overwrite no tap time, so every later session records
    the student with the time of that first tap. *)
Theorem staged_entries_are_permanent :
  forall choices st uid data,
    consistent st ->
    In (uid, data) (staging st) ->
    In (uid, data) (staging (run st choices)).
Proof.
  unfold run. induction choices as [|c cs IH]; intros st uid data Hc Hin; simpl;
    [exact Hin|].
  apply IH.
  - now apply run_choice_consistent.
  - now apply (run_choice_staging st c Hc).
Qed.

Lemma staged_entries_are_permanent_witness :
  In (alice, {| e_name := "Alice"; e_rfid_time := "09:00:01" |})
     (staging (run after_arrivals
                 [ Choice3 [roll_call; tap 101 (at_time 9 30 0 0) nobody];
                   Choice1 103 "Carol" camera_ok;
                   Choice3 [offline second_roll_call];
                   Choice3 [second_roll_call] ])).
Proof.
  apply (staged_entries_are_permanent
           [ Choice3 [roll_call; tap 101 (at_time 9 30 0 0) nobody];
             Choice1 103 "Carol" camera_ok;
             Choice3 [offline second_roll_call];
             Choice3 [second_roll_call] ]
           after_arrivals alice {| e_name := "Alice"; e_rfid_time := "09:00:01" |}).
  - exact (reached_consistent [] [] [] []
             [ Choice1 101 "Alice" camera_ok; Choice1 102 "Bob" camera_ok;
               Choice2 900 "Dr Chen" "Algorithms" "CS101" ] arrivals).
  - vm_compute. now left.
Defined.

(* ================================================================== *)
(** * The guards of the verification pass *)
(* ================================================================== *)

Lemma verify_loop_lines session env items :
  forall st line,
    In line (snd (verify_loop st session env items)) ->
    line <> NoActiveSession /\
    forall uid, line = NoFaceDescriptors uid ->
                In uid (keys items) /\ has_student st uid = false.
Proof.
  induction items as [|[k v] rest IH]; intros st line Hin; simpl in Hin;
    [contradiction|].
  unfold has_student.
  destruct (find (fun r => s_unique_id r =? k) (students st)) as [row|] eqn:Hf.
  - destruct (insert_ok (env k)).
    + match type of Hin with
      | context [verify_loop (log_attendance_to_firebase ?a ?b ?c ?d ?f) _ _ _] =>
          destruct (log_attendance_to_firebase_frame a b c d f)
            as [(_ & _ & _ & _ & Hs & _) _];
          set (st2 := log_attendance_to_firebase a b c d f) in *
      end.
      specialize (IH st2 line).
      destruct (verify_loop st2 session env rest) as [s' o]. simpl in *.
      destruct Hin as [<-|[<-|Hin]]; try (split; [discriminate|intros; discriminate]).
      destruct (IH Hin) as [H1 H2]. split; [exact H1|].
      intros uid Hl. destruct (H2 uid Hl) as [Hk Hno]. split; [now right|].
      unfold has_student in Hno. simpl in Hs. now rewrite Hs in Hno.
    + simpl in Hin.
      destruct Hin as [<-|[<-|[]]]; split; try discriminate; intros; discriminate.
  - specialize (IH st line).
    destruct (verify_loop st session env rest) as [s' o]. simpl in *.
    destruct Hin as [<-|Hin].
    + split; [discriminate|]. intros uid Hl. inversion Hl; subst.
      split; [now left|]. now rewrite Hf.
    + destruct (IH Hin) as [H1 H2]. split; [exact H1|].
      intros uid Hl. destruct (H2 uid Hl) as [Hk Hno]. split; [now right|exact Hno].
Qed.

(** X13: the two guards of [verify_attendance] never fire in a run.  In
    every state the intake loop can be in after a fresh start, a lecturer
    card whose session document is accepted starts a pass that prints neither
    "No active session" nor "No face descriptors found", whatever the camera
    and SQLite do: the session is set just before the call, and everybody
    staged was found in the students table, which loses no row. *)
Theorem verification_guards_never_fire :
  forall ss ls log fb choices taps e lecturer,
    find (fun r => l_rfid_id r =? str (ev_rfid e))
         (lecturers (reached ss ls log fb choices taps)) = Some lecturer ->
    ev_session_set_ok e = true ->
    exists st' out,
      loop_body (reached ss ls log fb choices taps) e =
        Continue st' (SessionStarted
                        (derive_session_id (l_course_code lecturer) (ev_clock e)) out) /\
      ~ In NoActiveSession out /\
      forall uid, ~ In (NoFaceDescriptors uid) out.
Proof.
  intros ss ls log fb choices taps e lecturer Hl Hok.
  pose proof (reached_consistent ss ls log fb choices taps) as Hc.
  set (st := reached ss ls log fb choices taps) in *.
  rewrite (loop_body_lecturer st e lecturer Hl Hok). cbv zeta.
  pose proof (verify_loop_lines
                (derive_session_id (l_course_code lecturer) (ev_clock e))
                (ev_verify e)
                (persistent_rfid_attendance (open_session st e lecturer))
                (open_session st e lecturer)) as Hlines.
  destruct (verify_loop (open_session st e lecturer) _ _ _) as [st4 out].
  simpl in Hlines. exists (set_new st4 []), out. split; [reflexivity|]. split.
  - intros Hin. now destruct (Hlines _ Hin) as [H _].
  - intros uid Hin. destruct (Hlines _ Hin) as [_ H].
    destruct (H uid eq_refl) as [Hk Hno].
    apply staged_merged in Hk. destruct Hc as (_ & _ & _ & Hrow).
    apply Hrow in Hk.
    rewrite (has_student_same_students st (open_session st e lecturer) uid eq_refl)
      in Hno.
    congruence.
Qed.

Lemma verification_guards_never_fire_witness :
  exists st' out,
    loop_body (reached [] [] [] []
                 [ Choice1 101 "Alice" camera_ok; Choice1 102 "Bob" camera_ok;
                   Choice2 900 "Dr Chen" "Algorithms" "CS101" ] arrivals)
              (insert_fails_for [bob] roll_call) =
      Continue st'
        (SessionStarted
           (derive_session_id (l_course_code dr_chen)
                              (ev_clock (insert_fails_for [bob] roll_call))) out) /\
    ~ In NoActiveSession out /\
    forall uid, ~ In (NoFaceDescriptors uid) out.
Proof.
  apply (verification_guards_never_fire [] [] [] []
           [ Choice1 101 "Alice" camera_ok; Choice1 102 "Bob" camera_ok;
             Choice2 900 "Dr Chen" "Algorithms" "CS101" ] arrivals
           (insert_fails_for [bob] roll_call) dr_chen).
  - vm_compute. reflexivity.
  - reflexivity.
Defined.

(** X14: what the guard of line 435 does when it is reached.  On any
    state, a pass in which every INSERT is accepted skips the items whose
    student has no row in the students table, prints the line for each of
    them and goes on: the rows written are those of the items that have a
    row, in order.  A missing row costs that student's record only, unlike
    a refused INSERT, which ends the pass. *)
Theorem missing_student_row_is_skipped :
  forall session env items st,
    (forall uid, In uid (keys items) -> insert_ok (env uid) = true) ->
    attendance_log (fst (verify_loop st session env items)) =
      (attendance_log st ++
       pass_records session env
         (filter (fun kv => has_student st (fst kv)) items))%list /\
    forall uid,
      In (NoFaceDescriptors uid) (snd (verify_loop st session env items)) <->
      In uid (keys items) /\ has_student st uid = false.
Proof.
  intros session env items.
  induction items as [|[k v] rest IH]; intros st Hins.
  - simpl. rewrite app_nil_r. split; [reflexivity|]. intros uid. split; [intros []|].
    now intros [[] _].
  - cbn [verify_loop filter fst]. unfold has_student at 1.
    destruct (find (fun r => s_unique_id r =? k) (students st)) as [row|] eqn:Hf.
    + rewrite (Hins k (or_introl eq_refl)).
      match goal with
      | |- context [verify_loop (log_attendance_to_firebase ?a ?b ?c ?d ?f) _ _ _] =>
          destruct (log_attendance_to_firebase_frame a b c d f)
            as [(_ & _ & _ & _ & Hs & _) Hlog];
          set (st2 := log_attendance_to_firebase a b c d f) in *
      end.
      destruct (IH st2) as [IHlog IHlines];
        [intros uid Hu; apply Hins; now right|].
      assert (Hsame : forall u, has_student st2 u = has_student st u)
        by (intros u; now apply has_student_same_students).
      destruct (verify_loop st2 session env rest) as [s' o]. cbn [fst snd] in *.
      split.
      * rewrite IHlog, Hlog. cbn [attendance_log set_attendance_log].
        rewrite <- app_assoc. cbn [pass_records map app fst snd].
        do 2 f_equal. unfold pass_records. f_equal.
        apply filter_ext. intros kv. apply Hsame.
      * intros uid. split.
        -- intros [Hd|[Hd|Hin]]; try discriminate.
           apply IHlines in Hin. destruct Hin as [Hk Hno].
           split; [now right|]. now rewrite <- Hsame.
        -- intros [[Hk|Hk] Hno].
           ++ simpl in Hk. subst k. unfold has_student in Hno.
              rewrite Hf in Hno. discriminate.
           ++ right. right. apply IHlines. split; [exact Hk|]. now rewrite Hsame.
    + destruct (IH st) as [IHlog IHlines];
        [intros uid Hu; apply Hins; now right|].
      destruct (verify_loop st session env rest) as [s' o]. cbn [fst snd] in *.
      split; [exact IHlog|].
      intros uid. split.
      * intros [Hd|Hin].
        -- inversion Hd; subst. split; [now left|].
           unfold has_student. now rewrite Hf.
        -- apply IHlines in Hin. destruct Hin as [Hk Hno]. split; [now right|exact Hno].
      * intros [[Hk|Hk] Hno].
        -- simpl in Hk. subst k. now left.
        -- right. apply IHlines. now split.
Qed.

Lemma missing_student_row_is_skipped_witness :
  attendance_log
    (fst (verify_loop (set_current_session enrolled (Some "CS101_20250314_090100"))
            "CS101_20250314_090100" (seen [bob] (at_time 9 1 20 0))
            [ (alice, {| e_name := "Alice"; e_rfid_time := "09:00:01" |});
              ("0000000000000000", {| e_name := "Zed"; e_rfid_time := "09:00:03" |});
              (bob, {| e_name := "Bob"; e_rfid_time := "09:00:05" |}) ])) =
    (attendance_log (set_current_session enrolled (Some "CS101_20250314_090100")) ++
     pass_records "CS101_20250314_090100" (seen [bob] (at_time 9 1 20 0))
       (filter (fun kv =>
                  has_student (set_current_session enrolled (Some "CS101_20250314_090100"))
                              (fst kv))
          [ (alice, {| e_name := "Alice"; e_rfid_time := "09:00:01" |});
            ("0000000000000000", {| e_name := "Zed"; e_rfid_time := "09:00:03" |});
            (bob, {| e_name := "Bob"; e_rfid_time := "09:00:05" |}) ]))%list /\
  forall uid,
    In (NoFaceDescriptors uid)
       (snd (verify_loop (set_current_session enrolled (Some "CS101_20250314_090100"))
               "CS101_20250314_090100" (seen [bob] (at_time 9 1 20 0))
               [ (alice, {| e_name := "Alice"; e_rfid_time := "09:00:01" |});
                 ("0000000000000000", {| e_name := "Zed"; e_rfid_time := "09:00:03" |});
                 (bob, {| e_name := "Bob"; e_rfid_time := "09:00:05" |}) ])) <->
    In uid (keys
              [ (alice, {| e_name := "Alice"; e_rfid_time := "09:00:01" |});
                ("0000000000000000", {| e_name := "Zed"; e_rfid_time := "09:00:03" |});
                (bob, {| e_name := "Bob"; e_rfid_time := "09:00:05" |}) ]) /\
    has_student (set_current_session enrolled (Some "CS101_20250314_090100")) uid = false.
Proof.
  apply (missing_student_row_is_skipped
           "CS101_20250314_090100" (seen [bob] (at_time 9 1 20 0))
           [ (alice, {| e_name := "Alice"; e_rfid_time := "09:00:01" |});
             ("0000000000000000", {| e_name := "Zed"; e_rfid_time := "09:00:03" |});
             (bob, {| e_name := "Bob"; e_rfid_time := "09:00:05" |}) ]
           (set_current_session enrolled (Some "CS101_20250314_090100"))).
  intros uid _. reflexivity.
Defined.

(* ================================================================== *)
(** * The camera loops *)
(* ================================================================== *)

(** X15: what [capture_face_sample] returns.  It returns a descriptor
    exactly when, after turns that all go on (inside the window, with no
    frame or with a frame showing no face and no q pressed), a turn inside
    the window delivers a frame with a face; the descriptor is that of the
    first face of that frame.  A timeout, or q on a frame without a face,
    gives None. *)
Theorem capture_face_sample_first_face :
  forall turns d,
    capture_face_sample turns = Some d <->
    exists before it rest_faces after,
      turns = (before ++ it :: after)%list /\
      forallb goes_on before = true /\
      in_window it = true /\ frame_ok it = true /\
      faces it = d :: rest_faces.
Proof.
  induction turns as [|it turns IH]; intros d; simpl.
  - split; [discriminate|]. intros (before & x & rf & after & H & _).
    destruct before; discriminate.
  - split.
    + destruct (in_window it) eqn:Hw; simpl; [|discriminate].
      destruct (frame_ok it) eqn:Hf; simpl.
      * destruct (faces it) as [|face fs] eqn:Hfaces.
        -- destruct (key_q it) eqn:Hq; [discriminate|].
           intros H. apply IH in H.
           destruct H as (before & x & rf & after & -> & Hb & Hx).
           exists (it :: before), x, rf, after. split; [reflexivity|].
           split; [|exact Hx]. simpl. unfold goes_on at 1.
           now rewrite Hw, Hf, Hfaces, Hq, Hb.
        -- intros H. inversion H; subst.
           exists [], it, fs, turns. now repeat split.
      * intros H. apply IH in H.
        destruct H as (before & x & rf & after & -> & Hb & Hx).
        exists (it :: before), x, rf, after. split; [reflexivity|].
        split; [|exact Hx]. simpl. unfold goes_on at 1.
        now rewrite Hw, Hf, Hb.
    + intros (before & x & rf & after & Heq & Hb & Hw & Hf & Hfaces).
      destruct before as [|b before]; simpl in Heq; inversion Heq; subst.
      * now rewrite Hw, Hf, Hfaces.
      * simpl in Hb. apply andb_true_iff in Hb. destruct Hb as [Hgo Hb].
        unfold goes_on in Hgo. apply andb_true_iff in Hgo. destruct Hgo as [Hbw Hgo].
        rewrite Hbw. simpl.
        assert (Hrec : capture_face_sample (before ++ x :: after) = Some d).
        { apply IH. exists before, x, rf, after. now repeat split. }
        destruct (frame_ok b); simpl in *; [|exact Hrec].
        destruct (faces b); [|discriminate].
        simpl in Hgo. apply negb_true_iff in Hgo. now rewrite Hgo.
Qed.

Section FaceMatchingFacts.

Variable close_enough : descriptor -> descriptor -> bool.

Lemma match_stored_spec face stored fv :
  match_stored close_enough face stored fv =
  fv || existsb (fun s => close_enough s face) stored.
Proof.
  induction stored as [|s stored IH]; simpl; [now rewrite orb_false_r|].
  destruct (close_enough s face); simpl; [now rewrite orb_true_r|exact IH].
Qed.

Lemma match_faces_spec stored detected fv :
  match_faces close_enough stored detected fv =
  fv || existsb (fun face => existsb (fun s => close_enough s face) stored) detected.
Proof.
  revert fv. induction detected as [|f detected IH]; intros fv; simpl;
    [now rewrite orb_false_r|].
  rewrite match_stored_spec.
  destruct fv; simpl; [reflexivity|].
  destruct (existsb (fun s => close_enough s f) stored); simpl; [reflexivity|].
  now rewrite IH.
Qed.

Lemma verify_face_loop_spec stored turns :
  forall fv shown,
    verify_face_loop close_enough stored turns fv shown =
    (fv || existsb (shows_match close_enough stored) (executed turns),
     (shown + List.length (filter frame_ok (executed turns)))%nat).
Proof.
  induction turns as [|it turns IH]; intros fv shown; simpl.
  - now rewrite orb_false_r, Nat.add_0_r.
  - destruct (in_window it); simpl; [|now rewrite orb_false_r, Nat.add_0_r].
    destruct (frame_ok it) eqn:Hf; simpl.
    + rewrite match_faces_spec.
      destruct (key_q it); simpl.
      * unfold shows_match. rewrite Hf. simpl. rewrite orb_false_r.
        f_equal. lia.
      * rewrite IH. unfold shows_match at 2. rewrite Hf. simpl.
        rewrite orb_assoc. f_equal. lia.
    + rewrite IH. unfold shows_match at 2. rewrite Hf. reflexivity.
Qed.

End FaceMatchingFacts.

(** X16: what [verify_face] returns.  The result is True exactly when,
    in one of the turns the loop goes through (those before the window
    closes, up to and with the frame at which q is pressed), the camera
    delivers a frame with a face that is close enough to one of the stored
    descriptors.  Frames after q or after the window are not looked at, and
    with no stored descriptor the result is False. *)
Theorem verify_face_true_iff :
  forall close_enough stored turns,
    (verify_face close_enough stored turns = true <->
     exists it face stored_descriptor,
       In it (executed turns) /\ frame_ok it = true /\
       In face (faces it) /\ In stored_descriptor stored /\
       close_enough stored_descriptor face = true) /\
    verify_face close_enough [] turns = false.
Proof.
  intros close_enough stored turns. unfold verify_face.
  rewrite !verify_face_loop_spec. cbn [fst orb]. split.
  - rewrite existsb_exists. split.
    + intros (it & Hin & Hm). unfold shows_match in Hm.
      apply andb_true_iff in Hm. destruct Hm as [Hf Hm].
      apply existsb_exists in Hm. destruct Hm as (face & Hface & Hm).
      apply existsb_exists in Hm. destruct Hm as (s & Hs & Hc).
      now exists it, face, s.
    + intros (it & face & s & Hin & Hf & Hface & Hs & Hc).
      exists it. split; [exact Hin|]. unfold shows_match. rewrite Hf. simpl.
      apply existsb_exists. exists face. split; [exact Hface|].
      apply existsb_exists. now exists s.
  - induction (executed turns) as [|it l IH]; simpl; [reflexivity|].
    rewrite IH, orb_false_r. unfold shows_match.
    destruct (frame_ok it); simpl; [|reflexivity].
    induction (faces it) as [|f fs IHf]; simpl; [reflexivity|exact IHf].
Qed.

(** X17: [verify_face] does not stop at a match.  The number of frames
    it shows is the number of frames delivered in the turns before the
    window closes or q is pressed; it is the same whatever the stored
    descriptors are and whether or when a face matched, because the test of
    the loop looks at the clock and the exit flag only. *)
Theorem verify_face_runs_the_whole_window :
  forall close_enough stored turns,
    snd (verify_face_loop close_enough stored turns false 0) =
      List.length (filter frame_ok (executed turns)) /\
    forall close_enough' stored',
      snd (verify_face_loop close_enough' stored' turns false 0) =
      snd (verify_face_loop close_enough stored turns false 0).
Proof.
  intros close_enough stored turns. split.
  - now rewrite verify_face_loop_spec.
  - intros c' s'. now rewrite !verify_face_loop_spec.
Qed.

(** A match in the first frame, and two more frames shown before the
    window closes. *)
Example match_in_first_frame_still_waits :
  verify_face_loop (fun s f => Z.eqb (hd 0%Z s) (hd 0%Z f)) [[7%Z]]
    [ {| in_window := true; frame_ok := true; faces := [[7%Z]]; key_q := false |};
      {| in_window := true; frame_ok := true; faces := []; key_q := false |};
      {| in_window := true; frame_ok := true; faces := [[9%Z]]; key_q := false |};
      {| in_window := false; frame_ok := true; faces := []; key_q := false |} ]
    false 0 = (true, 3%nat).
Proof. reflexivity. Qed.

(* ================================================================== *)
(** * Operator feedback *)
(* ================================================================== *)

Lemma gpio_run_app a b s : gpio_run (a ++ b) s = gpio_run b (gpio_run a s).
Proof. unfold gpio_run. apply fold_left_app. Qed.

Lemma slept_app a b : slept (a ++ b) = (slept a + slept b)%N.
Proof.
  unfold slept. induction a as [|step a IH]; simpl; [reflexivity|].
  destruct step; [exact IH|]. fold (slept (a ++ b)) in *. fold (slept a). 
  unfold slept in *. rewrite IH. lia.
Qed.

Lemma multiple_beeps_pins count duration interval s :
  buzzer s = false -> gpio_run (multiple_beeps count duration interval) s = s.
Proof.
  revert s. induction count as [|n IH]; intros s Hb; [reflexivity|].
  cbn [multiple_beeps]. unfold single_beep. cbn [app].
  unfold gpio_run. cbn [fold_left gpio_apply]. fold (gpio_run (multiple_beeps n duration interval)).
  destruct s as [y r b]. simpl in *. subst b. now apply IH.
Qed.

Lemma multiple_beeps_slept count duration interval :
  slept (multiple_beeps count duration interval) =
  (N.of_nat count * (duration + interval))%N.
Proof.
  induction count as [|n IH]; [reflexivity|].
  cbn [multiple_beeps]. rewrite !slept_app, IH. unfold single_beep. simpl slept.
  lia.
Qed.

Lemma verify_lines_feedback_pins out s :
  buzzer s = false ->
  buzzer (gpio_run (verify_lines_feedback out) s) = false.
Proof.
  revert s. induction out as [|line out IH]; intros s Hb; [exact Hb|].
  destruct line; cbn [verify_lines_feedback]; try (now apply IH).
  rewrite gpio_run_app. apply IH.
  destruct s as [y r b]. simpl in Hb. subst b.
  destruct (status =? "present"); reflexivity.
Qed.

(** X18: the signals leave the hardware at rest and take their time.
    From LEDs and buzzer off, the feedback of any pass of the intake loop,
    however it ends, leaves all three pins low again; the pass sleeps at
    least 500 ms in its signals, and at least 600 ms when the card is a
    lecturer's, so after a card the reader is not polled for that long. *)
Theorem feedback_leaves_pins_low :
  forall p,
    gpio_run (pass_feedback p) all_low = all_low /\
    (500 <= slept (pass_feedback p))%N /\
    match p with
    | Raised _ | Continue _ (SessionStarted _ _) => (600 <= slept (pass_feedback p))%N
    | _ => True
    end.
Proof.
  intros [st o|st].
  - destruct o as [sid out| | | |]; try (repeat split; cbn; lia).
    cbn [pass_feedback].
    rewrite !gpio_run_app, !slept_app, multiple_beeps_slept.
    split.
    + rewrite multiple_beeps_pins by reflexivity.
      assert (Hv : buzzer (gpio_run (verify_attendance_feedback out)
                             (gpio_run both_leds_on all_low)) = false).
      { unfold verify_attendance_feedback.
        destruct out as [|[| | | |] [|l2 out2]]; try reflexivity;
          rewrite !gpio_run_app;
          match goal with
          | |- buzzer (gpio_run both_leds_off ?s) = false =>
              assert (buzzer s = false) as Hs
                by (apply verify_lines_feedback_pins; reflexivity);
              destruct s; simpl in *; exact Hs
          end. }
      destruct (gpio_run (verify_attendance_feedback out)
                  (gpio_run both_leds_on all_low)) as [y r b].
      simpl in Hv. subst b. reflexivity.
    + simpl (slept both_leds_on). simpl (slept both_leds_off). split; lia.
  - cbn [pass_feedback].
    rewrite !gpio_run_app, !slept_app, multiple_beeps_slept.
    rewrite multiple_beeps_pins by reflexivity.
    repeat split; simpl; lia.
Qed.

(* ================================================================== *)
(** * Identifiers are sixteen hexadecimal digits *)
(* ================================================================== *)

Lemma hex_digit_is_lower_hex n :
  (n < 16)%N -> is_lower_hex (SHA256.hex_digit n) = true.
Proof.
  intros Hn.
  assert (Hcases : In n (map N.of_nat (seq 0 16))).
  { apply in_map_iff. exists (N.to_nat n). split; [apply N2Nat.id|].
    apply in_seq. lia. }
  simpl in Hcases.
  repeat (destruct Hcases as [<-|Hcases]; [reflexivity|]). contradiction.
Qed.

Lemma all_chars_append p a b :
  all_chars p (a ++ b) = all_chars p a && all_chars p b.
Proof.
  induction a as [|c a IH]; simpl; [reflexivity|].
  now rewrite IH, andb_assoc.
Qed.

Lemma all_chars_prefix p n s :
  all_chars p s = true -> all_chars p (prefix_chars n s) = true.
Proof.
  revert s. induction n as [|n IH]; intros s H; [reflexivity|].
  destruct s as [|c s]; simpl in *; [reflexivity|].
  apply andb_true_iff in H. destruct H as [Hc Hs]. now rewrite Hc, IH.
Qed.

Lemma hex_word_lower_hex w : all_chars is_lower_hex (SHA256.hex_word w) = true.
Proof.
  unfold SHA256.hex_word. cbn [fold_right all_chars].
  assert (H : forall i, is_lower_hex
                          (SHA256.hex_digit (N.land (N.shiftr w (4 * i)) 15)) = true).
  { intros i. apply hex_digit_is_lower_hex.
    change 15%N with (N.ones 4). rewrite N.land_ones.
    apply N.mod_lt. discriminate. }
  now rewrite !H.
Qed.

(** X19: an identifier is sixteen lowercase hexadecimal digits, whatever
    the name is (the empty name included): the key stored in the tables has
    a fixed width and a fixed alphabet. *)
Theorem unique_id_is_sixteen_hex_digits :
  forall name,
    String.length (generate_unique_id name) = 16%nat /\
    all_chars is_lower_hex (generate_unique_id name) = true.
Proof.
  intros name. split; [apply length_generate_unique_id|].
  unfold generate_unique_id. apply all_chars_prefix.
  unfold SHA256.hexdigest, SHA256.digest_words.
  destruct (SHA256.blocks _ _ _) as [[[[[[[a b] c] d] e] f] g] h].
  cbn [fold_right]. rewrite !all_chars_append, !hex_word_lower_hex. reflexivity.
Qed.

(* ================================================================== *)
(** * Enrollment and intake agree on what a registered card is *)
(* ================================================================== *)

(** X20: the intake loop answers "Unregistered RFID card" exactly for
    the cards that [is_rfid_registered] reports as free: a card is turned
    away by the loop if and only if an enrollment would accept it at its
    first check. *)
Theorem unregistered_iff_not_registered :
  forall st e,
    is_rfid_registered st (ev_rfid e) = false <->
    loop_body st e = Continue st Unregistered.
Proof.
  intros st e. unfold is_rfid_registered, loop_body.
  destruct (find (fun r => l_rfid_id r =? str (ev_rfid e)) (lecturers st))
    as [lecturer|].
  - split.
    + now destruct (find _ (students st)).
    + destruct (ev_session_set_ok e); [|discriminate].
      destruct (verify_attendance _ _ _). discriminate.
  - destruct (find (fun r => s_rfid_id r =? str (ev_rfid e)) (students st))
      as [student|].
    + split; [discriminate|].
      destruct (dict_in _ (persistent_rfid_attendance st)); [discriminate|].
      destruct (dict_in _ (new_rfid_attendance st)); discriminate.
    + now split.
Qed.

(* ================================================================== *)
(** * Every record belongs to a documented session *)
(* ================================================================== *)

Lemma session_documented_mono st st' session :
  (exists docs, firebase st' = (firebase st ++ docs)%list) ->
  session_documented st session -> session_documented st' session.
Proof.
  intros (docs & Hf) (a & b & c & d & f & g & Hin).
  exists a, b, c, d, f, g. rewrite Hf. apply in_or_app. now left.
Qed.

Lemma log_attendance_to_firebase_documented st v uid name status :
  sessions_documented st ->
  sessions_documented (log_attendance_to_firebase st v uid name status).
Proof.
  intros Hd. unfold log_attendance_to_firebase.
  destruct (find _ (students st)) as [row|]; [|exact Hd].
  destruct (current_session st) as [session|] eqn:Hcs; [|exact Hd].
  destruct (firebase_ok v); [|exact Hd].
  destruct Hd as (H1 & H2 & H3).
  assert (Hmono : forall s, session_documented st s ->
            session_documented
              (set_firebase st
                 (firebase st ++
                  [AttendanceDoc session (s_rfid_id row) uid (s_rfid_id row) name
                     (strftime_date (firebase_time v))
                     (strftime_time (firebase_time v)) status])) s).
  { intros s. apply session_documented_mono. now eexists. }
  repeat split.
  - intros s Hs. apply Hmono. apply H1. simpl in Hs. congruence.
  - intros r Hr. apply Hmono. now apply H2.
  - intros s d u r n dt t stt Hin. apply Hmono. simpl in Hin.
    apply in_app_or in Hin. destruct Hin as [Hin|[Heq|[]]].
    + now apply (H3 _ _ _ _ _ _ _ _ Hin).
    + inversion Heq; subst. now apply H1.
Qed.

Lemma verify_loop_documented session env items :
  forall st,
    current_session st = Some session ->
    sessions_documented st ->
    sessions_documented (fst (verify_loop st session env items)).
Proof.
  induction items as [|[uid data] rest IH]; intros st Hcs Hd; simpl; [exact Hd|].
  destruct (find _ (students st)) as [row|].
  - destruct (insert_ok (env uid)); [|exact Hd].
    match goal with
    | |- context [verify_loop (log_attendance_to_firebase ?a ?b ?c ?d ?f) _ _ _] =>
        pose proof (log_attendance_to_firebase_documented a b c d f) as Hstep;
        destruct (log_attendance_to_firebase_frame a b c d f) as [(Hcs2 & _) _];
        set (st2 := log_attendance_to_firebase a b c d f) in *
    end.
    assert (Hd2 : sessions_documented st2).
    { apply Hstep. destruct Hd as (H1 & H2 & H3). repeat split.
      - exact H1.
      - intros r Hr. simpl in Hr. apply in_app_or in Hr.
        destruct Hr as [Hr|[<-|[]]]; [now apply H2|]. simpl.
        destruct (H1 session Hcs) as (a & b & c & d & f & g & Hin).
        now exists a, b, c, d, f, g.
      - exact H3. }
    assert (Hcs' : current_session st2 = Some session) by (rewrite Hcs2; exact Hcs).
    specialize (IH st2 Hcs' Hd2).
    destruct (verify_loop st2 session env rest) as [s' o]. exact IH.
  - specialize (IH st Hcs Hd).
    destruct (verify_loop st session env rest) as [s' o]. exact IH.
Qed.

Lemma sessions_documented_ext st st' :
  current_session st' = current_session st \/ current_session st' = None ->
  attendance_log st' = attendance_log st ->
  firebase st' = firebase st ->
  sessions_documented st -> sessions_documented st'.
Proof.
  intros Hcs Hl Hf (H1 & H2 & H3).
  assert (Hsame : forall s, session_documented st s -> session_documented st' s).
  { intros s (a & b & c & d & f & g & Hin). exists a, b, c, d, f, g. now rewrite Hf. }
  repeat split.
  - intros s Hs. apply Hsame, H1. destruct Hcs as [Hcs|Hcs]; congruence.
  - intros r Hr. rewrite Hl in Hr. now apply Hsame, H2.
  - intros s d u r n dt t stt Hin. rewrite Hf in Hin.
    now apply Hsame, (H3 _ _ _ _ _ _ _ _ Hin).
Qed.

Lemma open_session_documented st e lecturer :
  sessions_documented st -> sessions_documented (open_session st e lecturer).
Proof.
  intros (H1 & H2 & H3).
  assert (Hmono : forall s, session_documented st s ->
                            session_documented (open_session st e lecturer) s).
  { intros s. apply session_documented_mono. now eexists. }
  repeat split.
  - intros s Hs. simpl in Hs. inversion Hs; subst.
    eexists _, _, _, _, _, _. simpl. apply in_or_app. right. now left.
  - intros r Hr. apply Hmono. now apply H2.
  - intros s d u r n dt t stt Hin. simpl in Hin.
    apply in_app_or in Hin. destruct Hin as [Hin|[Heq|[]]]; [|discriminate].
    apply Hmono. now apply (H3 _ _ _ _ _ _ _ _ Hin).
Qed.

Lemma loop_body_documented st e :
  sessions_documented st ->
  match loop_body st e with
  | Continue st' _ => sessions_documented st'
  | Raised st' => sessions_documented st'
  end.
Proof.
  intros Hd.
  destruct (find (fun r => l_rfid_id r =? str (ev_rfid e)) (lecturers st))
    as [lecturer|] eqn:Hl.
  - destruct (ev_session_set_ok e) eqn:Hok.
    + rewrite (loop_body_lecturer st e lecturer Hl Hok). cbv zeta.
      pose proof (verify_loop_documented
                    (derive_session_id (l_course_code lecturer) (ev_clock e))
                    (ev_verify e)
                    (persistent_rfid_attendance (open_session st e lecturer))
                    (open_session st e lecturer) eq_refl
                    (open_session_documented st e lecturer Hd)) as Hv.
      destruct (verify_loop (open_session st e lecturer) _ _ _) as [st4 out].
      simpl in Hv. apply (sessions_documented_ext st4); try reflexivity; [|exact Hv].
      now left.
    + unfold loop_body. now rewrite Hl, Hok.
  - destruct (other_cards_write_nothing_full st e Hl) as (st' & o & -> & H1 & H2 & H3).
    apply (sessions_documented_ext st); assumption.
Qed.

Lemma mark_attendance_rfid_documented taps :
  forall st, sessions_documented st ->
             sessions_documented (fst (fst (mark_attendance_rfid st taps))).
Proof.
  induction taps as [|e rest IH]; intros st Hd; simpl; [exact Hd|].
  pose proof (loop_body_documented st e Hd) as Hb.
  destruct (loop_body st e) as [st' o|st'].
  - specialize (IH st' Hb).
    destruct (mark_attendance_rfid st' rest) as [[s os] x]. exact IH.
  - exact Hb.
Qed.

Lemma run_choice_documented st c :
  sessions_documented st -> sessions_documented (run_choice st c).
Proof.
  intros Hd. destruct c as [rfid name cam|rfid name cn cc|taps|]; simpl.
  - destruct (register_student_state st rfid name cam) as [[-> _]|(-> & _)];
      [exact Hd|].
    apply (sessions_documented_ext st); try reflexivity; [now left|exact Hd].
  - destruct (register_lecturer_state st rfid name cn cc) as [[-> _]|(-> & _)];
      [exact Hd|].
    apply (sessions_documented_ext st); try reflexivity; [now left|exact Hd].
  - pose proof (mark_attendance_rfid_documented taps st Hd) as H.
    destruct (mark_attendance_rfid st taps) as [[s os] [|]]; simpl in H; [|exact H].
    apply (sessions_documented_ext s); try reflexivity; [now right|exact H].
  - exact Hd.
Qed.

(** X21: no record without a documented session.  Starting with an
    empty log and an empty mirror (or any stores in which this holds), after
    any sequence of menu choices the current session, every row of the local
    log and every attendance document of the mirror carry a session id
    whose session document is in the mirror: a row is written only in a
    session whose document Firestore accepted. *)
Theorem every_record_has_a_documented_session :
  forall choices st,
    sessions_documented st -> sessions_documented (run st choices).
Proof.
  unfold run. induction choices as [|c cs IH]; intros st Hd; simpl; [exact Hd|].
  apply IH. now apply run_choice_documented.
Qed.

Lemma sessions_documented_empty ss ls : sessions_documented (init ss ls [] []).
Proof.
  repeat split.
  - intros s Hs. discriminate.
  - intros r [].
  - intros ? ? ? ? ? ? ? ? [].
Qed.

Lemma every_record_has_a_documented_session_witness :
  sessions_documented
    (run (init [] [] [] [])
       [ Choice1 101 "Alice" camera_ok; Choice1 102 "Bob" camera_ok;
         Choice2 900 "Dr Chen" "Algorithms" "CS101";
         Choice3 (arrivals ++ [offline roll_call]);
         Choice3 [roll_call];
         Choice3 [mirror_down second_roll_call] ]).
Proof.
  apply (every_record_has_a_documented_session
           [ Choice1 101 "Alice" camera_ok; Choice1 102 "Bob" camera_ok;
             Choice2 900 "Dr Chen" "Algorithms" "CS101";
             Choice3 (arrivals ++ [offline roll_call]);
             Choice3 [roll_call];
             Choice3 [mirror_down second_roll_call] ] (init [] [] [] [])).
  apply sessions_documented_empty.
Defined.

(* ================================================================== *)
(** * A card stays bound *)
(* ================================================================== *)

Lemma run_keeps_rows choices :
  forall st,
    (forall row, In row (students st) -> In row (students (run st choices))) /\
    (forall row, In row (lecturers st) -> In row (lecturers (run st choices))).
Proof.
  unfold run. induction choices as [|c cs IH]; intros st; simpl; [now split|].
  destruct (IH (run_choice st c)) as [IHs IHl].
  destruct (run_choice_tables st c)
    as [[Hs Hl]|[(rfid & name & cam & _ & Hs & Hl & _)
                |(rfid & name & cn & cc & _ & Hs & Hl & _)]];
    split; intros row Hin.
  - apply IHs. now rewrite Hs.
  - apply IHl. now rewrite Hl.
  - apply IHs. rewrite Hs. apply in_or_app. now left.
  - apply IHl. now rewrite Hl.
  - apply IHs. now rewrite Hs.
  - apply IHl. rewrite Hl. apply in_or_app. now left.
Qed.

(** X22: a card stays bound.  After a successful enrollment with a card,
    as a student or as a lecturer, the card is reported as registered after
    every later sequence of menu choices, and every later enrollment with
    it, in either role and under any name, stops at the first check with
    the already-registered error and changes nothing. *)
Theorem enrolled_card_is_refused_from_then_on :
  forall st st1 rfid_id,
    (exists name cam uid m,
       register_student st rfid_id name cam = (st1, Some uid, m)) \/
    (exists name course_name course_code uid m,
       register_lecturer st rfid_id name course_name course_code = (st1, Some uid, m)) ->
    forall choices,
      is_rfid_registered (run st1 choices) rfid_id = true /\
      (forall name cam,
         register_student (run st1 choices) rfid_id name cam =
           (run st1 choices, None, RfidAlreadyRegistered)) /\
      (forall name course_name course_code,
         register_lecturer (run st1 choices) rfid_id name course_name course_code =
           (run st1 choices, None, RfidAlreadyRegistered)).
Proof.
  intros st st1 rfid_id Hreg choices.
  assert (Hbound : is_rfid_registered (run st1 choices) rfid_id = true).
  { apply is_rfid_registered_spec.
    destruct (run_keeps_rows choices st1) as [Hs Hl].
    destruct Hreg as [(name & cam & uid & m & H)|(name & cn & cc & uid & m & H)].
    - left. apply register_student_success in H.
      destruct H as (_ & row & Hin & _ & _ & Hcard).
      exists row. split; [now apply Hs|exact Hcard].
    - right.
      destruct (register_lecturer_state st rfid_id name cn cc)
        as [[_ Hnone]|(Hst & _)]; rewrite H in *; cbn [fst snd] in *;
        [discriminate|].
      exists (new_lecturer_row rfid_id name cn cc). split; [|reflexivity].
      apply Hl. subst st1. simpl. apply in_or_app. right. now left. }
  split; [exact Hbound|].
  split; intros; [unfold register_student|unfold register_lecturer];
    now rewrite Hbound.
Qed.

Lemma enrolled_card_is_refused_from_then_on_witness :
  is_rfid_registered
    (run with_bob [Choice2 901 "Dr Diaz" "Logic" "CS102"; Choice3 arrivals]) 102 = true /\
  (forall name cam,
     register_student
       (run with_bob [Choice2 901 "Dr Diaz" "Logic" "CS102"; Choice3 arrivals])
       102 name cam =
       (run with_bob [Choice2 901 "Dr Diaz" "Logic" "CS102"; Choice3 arrivals],
        None, RfidAlreadyRegistered)) /\
  (forall name course_name course_code,
     register_lecturer
       (run with_bob [Choice2 901 "Dr Diaz" "Logic" "CS102"; Choice3 arrivals])
       102 name course_name course_code =
       (run with_bob [Choice2 901 "Dr Diaz" "Logic" "CS102"; Choice3 arrivals],
        None, RfidAlreadyRegistered)).
Proof.
  apply (enrolled_card_is_refused_from_then_on
           (run (init [] [] [] []) first_week) with_bob 102).
  left. exists "Bob", camera_ok, bob, SuccessfullyRegistered.
  vm_compute. reflexivity.
Defined.
